(** * Witnet price-feed poller: a shallow embedding of [price_feeds_poller.py]

    The development follows the source file top to bottom:
    - Python numbers ([int], and [float] behind an interface, with exact
      rationals and IEEE binary64 as its instances),
    - the feed record kept in the [pfs] list of [log_loop],
    - [handle_requestUpdate], [avg_fees], [time_to_die_secs],
    - the body of the polling loop of [log_loop], one feed at a time,
    - the properties of the update-decision engine. *)

From Stdlib Require Import ZArith List Bool String Lia QArith Qabs Qround.
From Stdlib Require Import SpecFloat.
Import ListNotations.
Local Open Scope Z_scope.

Set Implicit Arguments.

(* ===================================================================== *)
(** * Python numbers *)
(* ===================================================================== *)

(** Result of comparing two floats; [FNotComparable] is the IEEE answer
    when one of them is a NaN. *)
Inductive fcomparison : Set := FEq | FLt | FGt | FNotComparable.

(** The operations of Python's [float] that the poller uses.  The laws are
    the few facts about zero that the runway estimator relies on; all of
    them hold for IEEE binary64. *)
Class PyFloat (F : Type) : Type := {
  of_int : Z -> F;                  (* float(n) *)
  int_truediv : Z -> Z -> F;        (* n / m on two ints, m <> 0 *)
  fdiv : F -> F -> F;               (* x / y, y <> 0 *)
  fadd : F -> F -> F;
  fmul : F -> F -> F;
  fabs : F -> F;                    (* abs(x) *)
  fround2 : F -> F;                 (* round(x, 2) *)
  fcmp : F -> F -> fcomparison;
  fcmp_zero_zero : fcmp (of_int 0) (of_int 0) = FEq;
  fcmp_pos_nonzero : forall x, fcmp (of_int 0) x = FLt -> fcmp x (of_int 0) = FGt;
  int_truediv_zero : forall m, 0 < m -> int_truediv 0 m = of_int 0;
  fdiv_zero : forall x, fcmp (of_int 0) x = FLt -> fdiv (of_int 0) x = of_int 0;
  fadd_zero_zero : fadd (of_int 0) (of_int 0) = of_int 0
}.

Section Numbers.
Context {F : Type} `{PyFloat F}.

Definition fltb (x y : F) : bool :=
  match fcmp x y with FLt => true | _ => false end.
Definition fgeb (x y : F) : bool :=
  match fcmp x y with FGt | FEq => true | _ => false end.
Definition feqb (x y : F) : bool :=
  match fcmp x y with FEq => true | _ => false end.

(** A Python value that is either an [int] or a [float]. *)
Inductive num : Type :=
| PInt (n : Z)
| PFloat (x : F).

(** [x > 0] *)
Definition py_gt0 (x : num) : bool :=
  match x with
  | PInt n => 0 <? n
  | PFloat x => fltb (of_int 0) x
  end.

(** [x + y] *)
Definition py_add (x y : num) : num :=
  match x, y with
  | PInt a, PInt b => PInt (a + b)
  | PInt a, PFloat y => PFloat (fadd (of_int a) y)
  | PFloat x, PInt b => PFloat (fadd x (of_int b))
  | PFloat x, PFloat y => PFloat (fadd x y)
  end.

(** [x / y]: [None] stands for [ZeroDivisionError]. *)
Definition py_truediv (x y : num) : option num :=
  match x, y with
  | PInt a, PInt b =>
      if b =? 0 then None else Some (PFloat (int_truediv a b))
  | PInt a, PFloat y =>
      if feqb y (of_int 0) then None else Some (PFloat (fdiv (of_int a) y))
  | PFloat x, PInt b =>
      if b =? 0 then None else Some (PFloat (fdiv x (of_int b)))
  | PFloat x, PFloat y =>
      if feqb y (of_int 0) then None else Some (PFloat (fdiv x y))
  end.

(** [sum(l)] and [len(l)] on a list of ints. *)
Definition py_sum (l : list Z) : Z := fold_left Z.add l 0.
Definition len {A : Type} (l : list A) : Z := Z.of_nat (List.length l).

(** [round(100 * ((next_price - last_price) / last_price), 2)] *)
Definition deviation_pct (next_price last_price : Z) : F :=
  fround2 (fmul (of_int 100) (int_truediv (next_price - last_price) last_price)).

End Numbers.

Arguments num F : clear implicits.


(* ===================================================================== *)
(** * The poller *)
(* ===================================================================== *)

Definition address := string.

(** The address the router answers for a pair it does not support. *)
Definition ZERO_ADDRESS : address :=
  "0x0000000000000000000000000000000000000000"%string.

(** How a statement of the loop body ends: normally, with [continue], or
    with an exception. *)
Inductive outcome (A : Type) : Type :=
| Ret (a : A)
| Next
| Exn.
Arguments Next {A}.
Arguments Exn {A}.

Section Poller.
Context {F : Type} `{PyFloat F}.

(** ** The feed record

    One entry of the [pfs] list built at the start of [log_loop].  The
    keys are those of the dict literal; [contract] holds the address of
    the contract object.  [latestQueryId] is the key that the re-routing
    code writes: it is absent from the literal. *)
Record Feed : Type := {
  id : string;
  caption : string;
  contract : address;
  deviation : F;
  heartbeat : Z;
  isRouted : bool;
  lastPrice : Z;
  lastTimestamp : Z;
  latestRequestId : Z;
  cooldown : Z;
  pendingUpdate : bool;
  witnet : option address;
  reverts : Z;
  auto_disabled : bool;
  lastRevertedTx : string;
  fees : list Z;
  secs : list Z;
  latestQueryId : option Z
}.

(** [pf[key] = v], one definition per key that the loop assigns. *)
Definition set_contract (v : address) (pf : Feed) : Feed :=
  {| id := id pf; caption := caption pf; contract := v;
     deviation := deviation pf; heartbeat := heartbeat pf;
     isRouted := isRouted pf; lastPrice := lastPrice pf;
     lastTimestamp := lastTimestamp pf;
     latestRequestId := latestRequestId pf; cooldown := cooldown pf;
     pendingUpdate := pendingUpdate pf; witnet := witnet pf;
     reverts := reverts pf; auto_disabled := auto_disabled pf;
     lastRevertedTx := lastRevertedTx pf; fees := fees pf; secs := secs pf;
     latestQueryId := latestQueryId pf |}.
Definition set_deviation (v : F) (pf : Feed) : Feed :=
  {| id := id pf; caption := caption pf; contract := contract pf;
     deviation := v; heartbeat := heartbeat pf; isRouted := isRouted pf;
     lastPrice := lastPrice pf; lastTimestamp := lastTimestamp pf;
     latestRequestId := latestRequestId pf; cooldown := cooldown pf;
     pendingUpdate := pendingUpdate pf; witnet := witnet pf;
     reverts := reverts pf; auto_disabled := auto_disabled pf;
     lastRevertedTx := lastRevertedTx pf; fees := fees pf; secs := secs pf;
     latestQueryId := latestQueryId pf |}.
Definition set_heartbeat (v : Z) (pf : Feed) : Feed :=
  {| id := id pf; caption := caption pf; contract := contract pf;
     deviation := deviation pf; heartbeat := v; isRouted := isRouted pf;
     lastPrice := lastPrice pf; lastTimestamp := lastTimestamp pf;
     latestRequestId := latestRequestId pf; cooldown := cooldown pf;
     pendingUpdate := pendingUpdate pf; witnet := witnet pf;
     reverts := reverts pf; auto_disabled := auto_disabled pf;
     lastRevertedTx := lastRevertedTx pf; fees := fees pf; secs := secs pf;
     latestQueryId := latestQueryId pf |}.
Definition set_isRouted (v : bool) (pf : Feed) : Feed :=
  {| id := id pf; caption := caption pf; contract := contract pf;
     deviation := deviation pf; heartbeat := heartbeat pf; isRouted := v;
     lastPrice := lastPrice pf; lastTimestamp := lastTimestamp pf;
     latestRequestId := latestRequestId pf; cooldown := cooldown pf;
     pendingUpdate := pendingUpdate pf; witnet := witnet pf;
     reverts := reverts pf; auto_disabled := auto_disabled pf;
     lastRevertedTx := lastRevertedTx pf; fees := fees pf; secs := secs pf;
     latestQueryId := latestQueryId pf |}.
Definition set_lastPrice (v : Z) (pf : Feed) : Feed :=
  {| id := id pf; caption := caption pf; contract := contract pf;
     deviation := deviation pf; heartbeat := heartbeat pf;
     isRouted := isRouted pf; lastPrice := v;
     lastTimestamp := lastTimestamp pf;
     latestRequestId := latestRequestId pf; cooldown := cooldown pf;
     pendingUpdate := pendingUpdate pf; witnet := witnet pf;
     reverts := reverts pf; auto_disabled := auto_disabled pf;
     lastRevertedTx := lastRevertedTx pf; fees := fees pf; secs := secs pf;
     latestQueryId := latestQueryId pf |}.
Definition set_lastTimestamp (v : Z) (pf : Feed) : Feed :=
  {| id := id pf; caption := caption pf; contract := contract pf;
     deviation := deviation pf; heartbeat := heartbeat pf;
     isRouted := isRouted pf; lastPrice := lastPrice pf;
     lastTimestamp := v; latestRequestId := latestRequestId pf;
     cooldown := cooldown pf; pendingUpdate := pendingUpdate pf;
     witnet := witnet pf; reverts := reverts pf;
     auto_disabled := auto_disabled pf;
     lastRevertedTx := lastRevertedTx pf; fees := fees pf; secs := secs pf;
     latestQueryId := latestQueryId pf |}.
Definition set_latestRequestId (v : Z) (pf : Feed) : Feed :=
  {| id := id pf; caption := caption pf; contract := contract pf;
     deviation := deviation pf; heartbeat := heartbeat pf;
     isRouted := isRouted pf; lastPrice := lastPrice pf;
     lastTimestamp := lastTimestamp pf; latestRequestId := v;
     cooldown := cooldown pf; pendingUpdate := pendingUpdate pf;
     witnet := witnet pf; reverts := reverts pf;
     auto_disabled := auto_disabled pf;
     lastRevertedTx := lastRevertedTx pf; fees := fees pf; secs := secs pf;
     latestQueryId := latestQueryId pf |}.
Definition set_cooldown (v : Z) (pf : Feed) : Feed :=
  {| id := id pf; caption := caption pf; contract := contract pf;
     deviation := deviation pf; heartbeat := heartbeat pf;
     isRouted := isRouted pf; lastPrice := lastPrice pf;
     lastTimestamp := lastTimestamp pf;
     latestRequestId := latestRequestId pf; cooldown := v;
     pendingUpdate := pendingUpdate pf; witnet := witnet pf;
     reverts := reverts pf; auto_disabled := auto_disabled pf;
     lastRevertedTx := lastRevertedTx pf; fees := fees pf; secs := secs pf;
     latestQueryId := latestQueryId pf |}.
Definition set_pendingUpdate (v : bool) (pf : Feed) : Feed :=
  {| id := id pf; caption := caption pf; contract := contract pf;
     deviation := deviation pf; heartbeat := heartbeat pf;
     isRouted := isRouted pf; lastPrice := lastPrice pf;
     lastTimestamp := lastTimestamp pf;
     latestRequestId := latestRequestId pf; cooldown := cooldown pf;
     pendingUpdate := v; witnet := witnet pf; reverts := reverts pf;
     auto_disabled := auto_disabled pf;
     lastRevertedTx := lastRevertedTx pf; fees := fees pf; secs := secs pf;
     latestQueryId := latestQueryId pf |}.
Definition set_witnet (v : option address) (pf : Feed) : Feed :=
  {| id := id pf; caption := caption pf; contract := contract pf;
     deviation := deviation pf; heartbeat := heartbeat pf;
     isRouted := isRouted pf; lastPrice := lastPrice pf;
     lastTimestamp := lastTimestamp pf;
     latestRequestId := latestRequestId pf; cooldown := cooldown pf;
     pendingUpdate := pendingUpdate pf; witnet := v; reverts := reverts pf;
     auto_disabled := auto_disabled pf;
     lastRevertedTx := lastRevertedTx pf; fees := fees pf; secs := secs pf;
     latestQueryId := latestQueryId pf |}.
Definition set_reverts (v : Z) (pf : Feed) : Feed :=
  {| id := id pf; caption := caption pf; contract := contract pf;
     deviation := deviation pf; heartbeat := heartbeat pf;
     isRouted := isRouted pf; lastPrice := lastPrice pf;
     lastTimestamp := lastTimestamp pf;
     latestRequestId := latestRequestId pf; cooldown := cooldown pf;
     pendingUpdate := pendingUpdate pf; witnet := witnet pf; reverts := v;
     auto_disabled := auto_disabled pf;
     lastRevertedTx := lastRevertedTx pf; fees := fees pf; secs := secs pf;
     latestQueryId := latestQueryId pf |}.
Definition set_auto_disabled (v : bool) (pf : Feed) : Feed :=
  {| id := id pf; caption := caption pf; contract := contract pf;
     deviation := deviation pf; heartbeat := heartbeat pf;
     isRouted := isRouted pf; lastPrice := lastPrice pf;
     lastTimestamp := lastTimestamp pf;
     latestRequestId := latestRequestId pf; cooldown := cooldown pf;
     pendingUpdate := pendingUpdate pf; witnet := witnet pf;
     reverts := reverts pf; auto_disabled := v;
     lastRevertedTx := lastRevertedTx pf; fees := fees pf; secs := secs pf;
     latestQueryId := latestQueryId pf |}.
Definition set_lastRevertedTx (v : string) (pf : Feed) : Feed :=
  {| id := id pf; caption := caption pf; contract := contract pf;
     deviation := deviation pf; heartbeat := heartbeat pf;
     isRouted := isRouted pf; lastPrice := lastPrice pf;
     lastTimestamp := lastTimestamp pf;
     latestRequestId := latestRequestId pf; cooldown := cooldown pf;
     pendingUpdate := pendingUpdate pf; witnet := witnet pf;
     reverts := reverts pf; auto_disabled := auto_disabled pf;
     lastRevertedTx := v; fees := fees pf; secs := secs pf;
     latestQueryId := latestQueryId pf |}.
Definition set_fees (v : list Z) (pf : Feed) : Feed :=
  {| id := id pf; caption := caption pf; contract := contract pf;
     deviation := deviation pf; heartbeat := heartbeat pf;
     isRouted := isRouted pf; lastPrice := lastPrice pf;
     lastTimestamp := lastTimestamp pf;
     latestRequestId := latestRequestId pf; cooldown := cooldown pf;
     pendingUpdate := pendingUpdate pf; witnet := witnet pf;
     reverts := reverts pf; auto_disabled := auto_disabled pf;
     lastRevertedTx := lastRevertedTx pf; fees := v; secs := secs pf;
     latestQueryId := latestQueryId pf |}.
Definition set_secs (v : list Z) (pf : Feed) : Feed :=
  {| id := id pf; caption := caption pf; contract := contract pf;
     deviation := deviation pf; heartbeat := heartbeat pf;
     isRouted := isRouted pf; lastPrice := lastPrice pf;
     lastTimestamp := lastTimestamp pf;
     latestRequestId := latestRequestId pf; cooldown := cooldown pf;
     pendingUpdate := pendingUpdate pf; witnet := witnet pf;
     reverts := reverts pf; auto_disabled := auto_disabled pf;
     lastRevertedTx := lastRevertedTx pf; fees := fees pf; secs := v;
     latestQueryId := latestQueryId pf |}.
Definition set_latestQueryId (v : option Z) (pf : Feed) : Feed :=
  {| id := id pf; caption := caption pf; contract := contract pf;
     deviation := deviation pf; heartbeat := heartbeat pf;
     isRouted := isRouted pf; lastPrice := lastPrice pf;
     lastTimestamp := lastTimestamp pf;
     latestRequestId := latestRequestId pf; cooldown := cooldown pf;
     pendingUpdate := pendingUpdate pf; witnet := witnet pf;
     reverts := reverts pf; auto_disabled := auto_disabled pf;
     lastRevertedTx := lastRevertedTx pf; fees := fees pf; secs := secs pf;
     latestQueryId := v |}.

(** The dict appended to [pfs] for a supported pair (the literal of
    [log_loop]); a routed feed starts with no pending update and no
    Witnet address. *)
Definition new_feed (erc2362id caption : string) (addr : address)
    (cooldown : Z) (deviation : F) (heartbeat : Z) (routed : bool)
    (lastPrice lastTimestamp latestQueryId : Z)
    (pendingUpdate : bool) (witnet : address) : Feed :=
  {| id := erc2362id; caption := caption; contract := addr;
     deviation := deviation; heartbeat := heartbeat; isRouted := routed;
     lastPrice := lastPrice; lastTimestamp := lastTimestamp;
     latestRequestId := latestQueryId; cooldown := cooldown;
     pendingUpdate := if routed then false else pendingUpdate;
     witnet := if routed then None else Some witnet;
     reverts := 0; auto_disabled := false; lastRevertedTx := ""%string;
     fees := []; secs := []; latestQueryId := None |}.

(** ** [handle_requestUpdate] *)

Inductive exn : Type :=
| TimeExhausted
| Error (msg : string).

(** What [wait_for_transaction_receipt] does: the receipt carries its
    status and the [queryId] of each [PriceFeeding] log. *)
Inductive wait_result : Type :=
| WaitTimeExhausted
| WaitRaises
| WaitReceipt (status : bool) (logs : list Z).

(** The answers of the chain to one call of [handle_requestUpdate], in
    the order the function asks; [None] is a call that raises. *)
Record submission : Type := {
  s_info : option unit;          (* witnet(), hash() or getPairsCount() *)
  s_balance : option Z;          (* getBalance(web3_from) *)
  s_gas_price : option Z;        (* generateGasPrice() *)
  s_fee : option Z;              (* estimateUpdateFee(web3_gas_price) *)
  s_tx : option string;          (* requestUpdate().transact(...) *)
  s_receipt : wait_result;
  s_balance_after : option Z     (* getBalance(web3_from), again *)
}.

Definition call_exn {A : Type} (r : option A) : exn + A :=
  match r with
  | Some a => inr a
  | None => inl (Error ""%string)
  end.

Definition bind_exn {A B : Type} (m : exn + A) (k : A -> exn + B) : exn + B :=
  match m with
  | inl e => inl e
  | inr a => k a
  end.

Declare Scope try_scope.
Delimit Scope try_scope with try.
Notation "x <- m ;; k" := (bind_exn m (fun x => k))
  (at level 61, m at next level, right associativity) : try_scope.

(** The [try] block: the transaction hash, the receipt's status and
    logs, and [total_fee]. *)
Definition send_requestUpdate (web3_gas_price : option Z) (s : submission)
    : exn + (string * bool * list Z * Z) :=
  (_ <- call_exn (s_info s) ;;
   balance <- call_exn (s_balance s) ;;
   if balance =? 0 then inl (Error "Master account run out of funds"%string)
   else
     _ <- match web3_gas_price with
          | None => call_exn (s_gas_price s)
          | Some g => inr g
          end ;;
     _ <- call_exn (s_fee s) ;;
     tx <- call_exn (s_tx s) ;;
     receipt <- match s_receipt s with
                | WaitTimeExhausted => inl TimeExhausted
                | WaitRaises => inl (Error ""%string)
                | WaitReceipt status logs => inr (status, logs)
                end ;;
     balance_after <- call_exn (s_balance_after s) ;;
     inr (tx, fst receipt, snd receipt, balance - balance_after))%try.

(** The list that [handle_requestUpdate] returns has one, two or three
    elements. *)
Inductive result : Type :=
| Result1 (requestId : Z)
| Result2 (requestId : Z) (tx : string)
| Result3 (requestId : Z) (tx : string) (total_fee : Z).

Definition result_0 (r : result) : Z :=
  match r with
  | Result1 q | Result2 q _ | Result3 q _ _ => q
  end.

Definition result_1 (r : result) : option string :=
  match r with
  | Result1 _ => None
  | Result2 _ tx | Result3 _ tx _ => Some tx
  end.

Definition result_len (r : result) : Z :=
  match r with
  | Result1 _ => 1
  | Result2 _ _ => 2
  | Result3 _ _ _ => 3
  end.

(** What the loop narrates. *)
Inductive reason : Type :=
| Heartbeat           (* "of heartbeat and Witnet latency" *)
| Deviation           (* "deviation is greater than ... %" *)
| RoutedUpdate        (* "a routed update was detected" *).

Inductive event : Type :=
| EvRouteChanged (old new : address)
| EvRefreshRetry (attempt : Z)
| EvTooManyReverts (tx : string)
| EvPriceUpdated (price secs : Z)
| EvLatestError (secs : Z)
| EvAwaitsResponse (requestId : Z)
| EvRoutedDetected
| EvNoRoutedDetected
| EvDryRunFailed
| EvDeviationBelow (deviation : F) (secs : Z)
| EvAwaitingRouted (secs : Z)
| EvRequesting (secs : Z) (why : reason)
| EvTxTooLong
| EvTxRejected (msg : string)
| EvTxReverted
| EvRequestId (requestId : Z)
| EvSynchronous
| EvNothingToUpdate (requestId : Z)
| EvLastPriceWas (price : Z)
| EvResting (secs : Z)
| EvException.

Definition handle_requestUpdate (latestRequestId : Z)
    (web3_gas_price : option Z) (s : submission) : result * list event :=
  match send_requestUpdate web3_gas_price s with
  | inl TimeExhausted => (Result1 0, [EvTxTooLong])
  | inl (Error ex) => (Result1 0, [EvTxRejected ex])
  | inr (tx, status, logs, total_fee) =>
      if negb status then (Result2 (-1) tx, [EvTxReverted])
      else
        match logs with
        | requestId :: _ =>
            (Result3 requestId tx total_fee,
             [if 0 <? requestId then EvRequestId requestId else EvSynchronous])
        | [] =>
            (Result3 latestRequestId tx total_fee,
             [EvNothingToUpdate latestRequestId])
        end
  end.

(** ** [avg_fees] and [time_to_die_secs] *)

Fixpoint avg_fees_loop (pfs : list Feed) (total_fees total_records : Z)
    : Z * Z :=
  match pfs with
  | [] => (total_fees, total_records)
  | pf :: pfs =>
      if 0 <? len (fees pf)
      then avg_fees_loop pfs (total_fees + py_sum (fees pf))
                         (total_records + len (fees pf))
      else avg_fees_loop pfs total_fees total_records
  end.

Definition avg_fees (pfs : list Feed) : option (num F) :=
  let '(total_fees, total_records) := avg_fees_loop pfs 0 0 in
  if 0 <? total_records
  then py_truediv (PInt total_fees) (PInt total_records)
  else Some (PInt 0).

Definition bind_opt {A B : Type} (m : option A) (k : A -> option B) : option B :=
  match m with
  | None => None
  | Some a => k a
  end.

Declare Scope opt_scope.
Delimit Scope opt_scope with opt.
Notation "x <- m ;; k" := (bind_opt m (fun x => k))
  (at level 61, m at next level, right associativity) : opt_scope.

Fixpoint time_to_die_loop (total_avg_fee : num F) (pfs : list Feed)
    (total_speed : num F) : option (num F) :=
  match pfs with
  | [] => Some total_speed
  | pf :: pfs =>
      (pf_secs <- (if 0 <? len (secs pf)
                   then py_truediv (PInt (py_sum (secs pf))) (PInt (len (secs pf)))
                   else Some (PInt (heartbeat pf))) ;;
       if py_gt0 pf_secs then
         pf_fee <- (if 0 <? len (fees pf)
                    then py_truediv (PInt (py_sum (fees pf))) (PInt (len (fees pf)))
                    else Some total_avg_fee) ;;
         speed <- py_truediv pf_fee pf_secs ;;
         time_to_die_loop total_avg_fee pfs (py_add total_speed speed)
       else time_to_die_loop total_avg_fee pfs total_speed)%opt
  end.

Definition time_to_die_secs (balance : Z) (pfs : list Feed) : option (num F) :=
  (total_avg_fee <- avg_fees pfs ;;
   total_speed <- time_to_die_loop total_avg_fee pfs (PInt 0) ;;
   if py_gt0 total_speed
   then py_truediv (PInt balance) total_speed
   else Some (PInt 0))%opt.

(** ** The polling loop of [log_loop] *)

(** Process-wide settings read from the environment by [main]. *)
Record settings : Type := {
  web3_gas_price : option Z;
  web3_finalization_secs : Z;
  web3_max_reverts : Z;
  witnet_resolution_secs : Z
}.

(** Policy of one feed in the configuration file, defaults applied. *)
Record policy : Type := {
  minSecsBetweenUpdates : Z;
  deviationPercentage : F;
  maxSecsBetweenUpdates : Z;
  cfg_isRouted : bool
}.

(** The tuple returned by [lastValue()]. *)
Record last_value : Type := {
  lv_price : Z;           (* lastValue[0] *)
  lv_timestamp : Z;       (* lastValue[1] *)
  lv_drTxHash : string;   (* lastValue[2] *)
  lv_status : Z           (* lastValue[3] *)
}.

(** Contract reads of one attempt at refreshing a re-routed feed. *)
Record chain_reads : Type := {
  rd_witnet : option address;
  rd_lastPrice : option Z;
  rd_lastTimestamp : option Z;
  rd_latestQueryId : option Z;
  rd_pendingUpdate : option bool
}.

(** Everything outside the process that one pass of the loop body over
    one feed can observe; [None] is a call that raises. *)
Record world : Type := {
  w_getPriceFeed : option address;          (* router.getPriceFeed(id) *)
  w_load_config : option (option policy);   (* the file, then the feed's entry *)
  w_refresh : nat -> chain_reads;           (* by attempt number *)
  w_lastValue : option last_value;
  w_now : Z;                                (* int(time.time()) *)
  w_latestUpdate : option unit;             (* latestUpdateDrTxHash(), ...ErrorMessage() *)
  w_pendingUpdate : option bool;            (* contract.pendingUpdate() *)
  w_dry_run : option Z;                     (* dry_run_request(bytecode(), timeout) *)
  w_submit : submission;
  w_lastValue_after : option last_value     (* lastValue() after a routed request *)
}.

(** *** Control flow of the loop body

    A statement of the body runs on the feed and the lines printed so
    far; its [outcome] says whether it completed, executed [continue]
    or raised.  Assignments made before a [continue] or an exception
    stay. *)
Definition st : Type := Feed * list event.
Definition M (A : Type) : Type := st -> st * outcome A.

Definition ret {A : Type} (a : A) : M A := fun s => (s, Ret a).

Definition bind {A B : Type} (m : M A) (k : A -> M B) : M B :=
  fun s =>
    match m s with
    | (s', Ret a) => k a s'
    | (s', Next) => (s', Next)
    | (s', Exn) => (s', Exn)
    end.

Definition get : M Feed := fun s => (s, Ret (fst s)).
Definition modify (f : Feed -> Feed) : M unit :=
  fun s => ((f (fst s), snd s), Ret tt).
Definition emit (e : event) : M unit :=
  fun s => ((fst s, snd s ++ [e]), Ret tt).
Definition continue {A : Type} : M A := fun s => (s, Next).
Definition raise {A : Type} : M A := fun s => (s, Exn).

Definition call {A : Type} (r : option A) : M A :=
  match r with
  | Some a => ret a
  | None => raise
  end.

(** [try: m except Exception: h] *)
Definition try_except {A : Type} (m h : M A) : M A :=
  fun s =>
    match m s with
    | (s', Exn) => h s'
    | r => r
    end.

Declare Scope loop_scope.
Delimit Scope loop_scope with loop.
Notation "x <- m ;; k" := (bind m (fun x => k))
  (at level 61, m at next level, right associativity) : loop_scope.
Notation "m ;; k" := (bind m (fun _ => k))
  (at level 61, right associativity) : loop_scope.
Local Open Scope loop_scope.

Definition when (b : bool) (m : M unit) : M unit :=
  if b then m else ret tt.

(** [l.append(x)], then [del l[0]] once the list is longer than [bound]. *)
Definition append_bounded (bound : Z) (x : Z) (l : list Z) : list Z :=
  let l' := l ++ [x] in
  if bound <? len l' then tl l' else l'.

Section Loop.
Variable env : settings.

Definition total_finalization_secs : Z :=
  web3_finalization_secs env + witnet_resolution_secs env.

(** One attempt at re-reading the state of a re-routed feed. *)
Definition refresh_attempt (pfs_config : option policy) (rd : chain_reads)
    : M unit :=
  (* read from config *)
  cfg <- call pfs_config ;;
  modify (set_cooldown (minSecsBetweenUpdates cfg)) ;;
  modify (set_deviation (deviationPercentage cfg)) ;;
  modify (set_heartbeat (maxSecsBetweenUpdates cfg)) ;;
  modify (set_isRouted (cfg_isRouted cfg)) ;;
  (* read from web3 *)
  pf <- get ;;
  when (negb (isRouted pf))
       (a <- call (rd_witnet rd) ;; modify (set_witnet (Some a))) ;;
  p <- call (rd_lastPrice rd) ;;
  modify (set_lastPrice p) ;;
  t <- call (rd_lastTimestamp rd) ;;
  modify (set_lastTimestamp t) ;;
  q <- call (rd_latestQueryId rd) ;;
  modify (set_latestQueryId (Some q)) ;;
  b <- call (rd_pendingUpdate rd) ;;
  modify (set_pendingUpdate b) ;;
  (* reset flags *)
  modify (set_fees []) ;;
  modify (set_secs []) ;;
  modify (set_auto_disabled false) ;;
  modify (set_lastRevertedTx ""%string) ;;
  modify (set_reverts 0).

(** [for attempt in range(5)]: [remaining] attempts are left. *)
Fixpoint refresh_loop (pfs_config : option policy)
    (reads : nat -> chain_reads) (attempt remaining : nat) : M unit :=
  match remaining with
  | O => ret tt
  | S remaining =>
      try_except
        (refresh_attempt pfs_config (reads attempt))
        (if (attempt <? 4)%nat
         then emit (EvRefreshRetry (Z.of_nat attempt)) ;;
              refresh_loop pfs_config reads (S attempt) remaining
         else raise)
  end.

(** Detect eventual pricefeed updates in the router. *)
Definition detect_route_change (w : world) : M address :=
  contractAddr <- call (w_getPriceFeed w) ;;
  pf <- get ;;
  when (negb (contract pf =? contractAddr)%string)
       (pfs_config <- call (w_load_config w) ;;
        emit (EvRouteChanged (contract pf) contractAddr) ;;
        modify (set_contract contractAddr) ;;
        when (negb (contractAddr =? ZERO_ADDRESS)%string)
             (refresh_loop pfs_config (w_refresh w) 0 5)) ;;
  ret contractAddr.

(** If still waiting for an update. *)
Definition await_update (w : world) (lastValue : last_value)
    (elapsed_secs : Z) : M unit :=
  pf <- get ;;
  if (lv_status lastValue =? 200) && (lastTimestamp pf <? lv_timestamp lastValue)
  then
    modify (set_pendingUpdate false) ;;
    modify (set_lastPrice (lv_price lastValue)) ;;
    let elapsed_secs := lv_timestamp lastValue - lastTimestamp pf in
    modify (set_lastTimestamp (lv_timestamp lastValue)) ;;
    emit (EvPriceUpdated (lv_price lastValue) elapsed_secs)
  else if lv_status lastValue =? 400 then
    modify (set_pendingUpdate false) ;;
    call (w_latestUpdate w) ;;
    emit (EvLatestError elapsed_secs)
  else
    emit (EvAwaitsResponse (latestRequestId pf)).

(** Which trigger, if any, asks for an update now. *)
Definition check_triggers (w : world) (elapsed_secs : Z) : M reason :=
  pf <- get ;;
  let last_price := lastPrice pf in
  if heartbeat pf =? 0 then
    b <- call (w_pendingUpdate w) ;;
    modify (set_pendingUpdate b) ;;
    emit (if b then EvRoutedDetected else EvNoRoutedDetected) ;;
    continue
  else if heartbeat pf
          - (if isRouted pf then 0 else total_finalization_secs)
          <=? elapsed_secs then
    ret Heartbeat
  else if negb (isRouted pf) && fltb (of_int 0) (deviation pf)
          && (0 <? last_price) then
    match w_dry_run w with
    | None => emit EvDryRunFailed ;; continue
    | Some next_price =>
        let deviation' := deviation_pct next_price last_price in
        if fltb (fabs deviation') (deviation pf) then
          emit (EvDeviationBelow deviation' elapsed_secs) ;; continue
        else ret Deviation
    end
  else
    external_update <- (if isRouted pf then call (w_pendingUpdate w)
                        else ret false) ;;
    if external_update then ret RoutedUpdate
    else emit (EvAwaitingRouted (heartbeat pf - elapsed_secs)) ;; continue.

Fixpoint emit_all (es : list event) : M unit :=
  match es with
  | [] => ret tt
  | e :: es => emit e ;; emit_all es
  end.

(** Send the request and book its result. *)
Definition request_update (w : world) (elapsed_secs : Z) (why : reason)
    : M unit :=
  emit (EvRequesting elapsed_secs why) ;;
  pf <- get ;;
  let '(result, printed) :=
    handle_requestUpdate (latestRequestId pf) (web3_gas_price env)
                         (w_submit w) in
  emit_all printed ;;
  let latestRequestId := result_0 result in
  (if 0 <? latestRequestId then
     modify (set_latestRequestId latestRequestId) ;;
     modify (set_pendingUpdate true) ;;
     modify (set_reverts 0)
   else if latestRequestId <? 0 then
     tx <- call (result_1 result) ;;
     modify (set_lastRevertedTx tx) ;;
     modify (fun pf => set_reverts (reverts pf + 1) pf) ;;
     pf <- get ;;
     when (web3_max_reverts env <=? reverts pf)
          (modify (set_auto_disabled true))
   else ret tt) ;;
  (* on fully successfull update request: *)
  match result with
  | Result3 _ _ latestFee =>
      when (0 <? latestFee)
           (modify (fun pf => set_fees (append_bounded 16 latestFee (fees pf)) pf)) ;;
      modify (fun pf => set_secs (append_bounded 256 elapsed_secs (secs pf)) pf) ;;
      pf <- get ;;
      when (isRouted pf)
           (lastValue <- call (w_lastValue_after w) ;;
            modify (set_lastTimestamp (lv_timestamp lastValue)) ;;
            emit (EvLastPriceWas (lv_price lastValue)))
  | _ => ret tt
  end.

(** If no update is pending. *)
Definition idle (w : world) (elapsed_secs : Z) : M unit :=
  pf <- get ;;
  if cooldown pf - total_finalization_secs <=? elapsed_secs then
    why <- check_triggers w elapsed_secs ;;
    request_update w elapsed_secs why
  else
    let secs_until_next_check :=
      cooldown pf - elapsed_secs - total_finalization_secs in
    when (0 <? secs_until_next_check) (emit (EvResting secs_until_next_check)).

(** The [try] block of the loop body. *)
Definition poll_feed (w : world) : M unit :=
  contractAddr <- detect_route_change w ;;
  when (contractAddr =? ZERO_ADDRESS)%string continue ;;
  pf <- get ;;
  when (auto_disabled pf)
       (emit (EvTooManyReverts (lastRevertedTx pf)) ;; continue) ;;
  lastValue <- call (w_lastValue w) ;;
  let elapsed_secs := w_now w - lastTimestamp pf in
  if pendingUpdate pf
  then await_update w lastValue elapsed_secs
  else idle w elapsed_secs.

(** The loop body: exceptions are caught and narrated. *)
Definition run_feed (w : world) (pf : Feed) : Feed * list event :=
  match poll_feed w (pf, []) with
  | (s, Exn) => (fst s, snd s ++ [EvException])
  | (s, _) => s
  end.

(** [for pf in pfs]: the feed at position [i] meets [ws i]. *)
Fixpoint for_each_feed (ws : nat -> world) (i : nat) (pfs : list Feed)
    : list Feed * list event :=
  match pfs with
  | [] => ([], [])
  | pf :: pfs =>
      let '(pf', printed) := run_feed (ws i) pf in
      let '(pfs', printed') := for_each_feed ws (S i) pfs in
      (pf' :: pfs', printed ++ printed')
  end.

(** [while True], cut after [n] iterations; iteration [t] meets
    [worlds t].  The balance read and the time-to-die line printed at the
    top of each iteration are left out: they touch no feed. *)
Fixpoint log_loop (worlds : nat -> nat -> world) (t n : nat)
    (pfs : list Feed) : list Feed * list event :=
  match n with
  | O => (pfs, [])
  | S n =>
      let '(pfs', printed) := for_each_feed (worlds t) 0 pfs in
      let '(pfs'', printed') := log_loop worlds (S t) n pfs' in
      (pfs'', printed ++ printed')
  end.

(** One feed followed through successive iterations. *)
Fixpoint poll_ticks (ws : list world) (pf : Feed) : Feed :=
  match ws with
  | [] => pf
  | w :: ws => poll_ticks ws (fst (run_feed w pf))
  end.

End Loop.

(** ** Start-up of [log_loop]: building [pfs] *)

(** The entry of one feed in the configuration file: the keys that the
    loop reads with [.get]. *)
Record entry : Type := {
  e_minSecsBetweenUpdates : option Z;
  e_deviationPercentage : option F;
  e_maxSecsBetweenUpdates : option Z;
  e_isRouted : option bool
}.

(** [d.get(key, default)] *)
Definition get_default {A : Type} (o : option A) (default : A) : A :=
  match o with
  | Some a => a
  | None => default
  end.

(** The answers of the chain to one attempt at loading a pair, and whether
    the lines printed after the append (which format the caption's
    decimals, the entry's label and the timestamp) go through. *)
Record pair_reads : Type := {
  pr_getPriceFeed : option address;
  pr_lastPrice : option Z;
  pr_lastTimestamp : option Z;
  pr_latestQueryId : option Z;
  pr_pendingUpdate : option bool;
  pr_witnet : option address;
  pr_narrated : option unit
}.

(** The body of the [try] up to the append: [None] when a call raises,
    [Some None] when the router answers the zero address, else the dict
    to append. *)
Definition read_pair (erc2362id caption : string) (cfg : entry)
    (rd : pair_reads) : option (option Feed) :=
  (addr <- pr_getPriceFeed rd ;;
   if (addr =? ZERO_ADDRESS)%string then Some None
   else
     let cooldown := get_default (e_minSecsBetweenUpdates cfg) 0 in
     let deviation := get_default (e_deviationPercentage cfg) (of_int 0) in
     let heartbeat := get_default (e_maxSecsBetweenUpdates cfg) 0 in
     let routed := get_default (e_isRouted cfg) false in
     lastPrice <- pr_lastPrice rd ;;
     lastTimestamp <- pr_lastTimestamp rd ;;
     latestQueryId <- pr_latestQueryId rd ;;
     if routed then
       Some (Some (new_feed erc2362id caption addr cooldown deviation heartbeat
                            routed lastPrice lastTimestamp latestQueryId
                            false ""%string))
     else
       pendingUpdate <- pr_pendingUpdate rd ;;
       witnet <- pr_witnet rd ;;
       Some (Some (new_feed erc2362id caption addr cooldown deviation heartbeat
                            routed lastPrice lastTimestamp latestQueryId
                            pendingUpdate witnet)))%opt.

(** [for attempt in range(5)] for one pair: the zero address and a clean
    attempt [break]; an exception makes the next attempt, the fifth one
    gives up.  The dict is appended before the lines that may still
    raise. *)
Fixpoint load_pair (erc2362id caption : string) (cfg : entry)
    (reads : nat -> pair_reads) (attempt remaining : nat)
    (pfs : list Feed) : list Feed :=
  match remaining with
  | O => pfs
  | S remaining =>
      match read_pair erc2362id caption cfg (reads attempt) with
      | Some None => pfs
      | Some (Some pf) =>
          match pr_narrated (reads attempt) with
          | Some _ => pfs ++ [pf]
          | None =>
              if (attempt <? 4)%nat
              then load_pair erc2362id caption cfg reads (S attempt) remaining
                             (pfs ++ [pf])
              else pfs ++ [pf]
          end
      | None =>
          if (attempt <? 4)%nat
          then load_pair erc2362id caption cfg reads (S attempt) remaining pfs
          else pfs
      end
  end.

(** What the router and the chain answer about one configured pair. *)
Record pair_world : Type := {
  pw_currencyPairId : option string;
  pw_supportsCurrencyPair : option bool;
  pw_reads : nat -> pair_reads
}.

(** [for caption in pfs_config['feeds']]; the two router calls are outside
    any [try], so [None] is an exception that ends the process. *)
Fixpoint load_pairs (feeds : list (string * entry * pair_world))
    (pfs : list Feed) (captionMaxLength : Z) : option (list Feed * Z) :=
  match feeds with
  | [] => Some (pfs, captionMaxLength)
  | (caption, cfg, pw) :: feeds =>
      (erc2362id <- pw_currencyPairId pw ;;
       supported <- pw_supportsCurrencyPair pw ;;
       if supported : bool then
         load_pairs feeds
           (load_pair erc2362id caption cfg (pw_reads pw) 0 5 pfs)
           (if captionMaxLength <? Z.of_nat (String.length caption)
            then Z.of_nat (String.length caption) else captionMaxLength)
       else load_pairs feeds pfs captionMaxLength)%opt
  end.

(** How [log_loop] starts: [exit(1)] without a router address, an uncaught
    exception, a [return] when no feed was loaded, or the polling loop. *)
Inductive start : Type :=
| StartFatal
| StartRaised
| StartNoFeeds
| StartPolling (pfs : list Feed) (captionMaxLength : Z).

Definition start_up (router_address : option address)
    (feeds : list (string * entry * pair_world)) : start :=
  match router_address with
  | None => StartFatal
  | Some _ =>
      match load_pairs feeds [] 0 with
      | None => StartRaised
      | Some (pfs, captionMaxLength) =>
          if len pfs =? 0 then StartNoFeeds
          else StartPolling pfs captionMaxLength
      end
  end.

End Poller.

(* ===================================================================== *)
(** * Exact rationals as an instance of the float interface

    Rationals in lowest terms implement the interface with no rounding
    error; [round(x, 2)] rounds half to even, as Python does. *)
Module QFloat.
Local Open Scope Q_scope.

Definition q_of_int (n : Z) : Q := inject_Z n.
Definition q_int_truediv (n m : Z) : Q := Qred (inject_Z n / inject_Z m).
Definition q_fdiv (x y : Q) : Q := Qred (x / y).
Definition q_fadd (x y : Q) : Q := Qred (x + y).
Definition q_fmul (x y : Q) : Q := Qred (x * y).
Definition q_fabs (x : Q) : Q := Qabs x.

(** Nearest integer, ties to even. *)
Definition round_half_even (x : Q) : Z :=
  let n := Qnum x in
  let d := Zpos (Qden x) in
  let q := (n / d)%Z in
  let r := (n mod d)%Z in
  match (2 * r ?= d)%Z with
  | Lt => q
  | Gt => (q + 1)%Z
  | Eq => if Z.even q then q else (q + 1)%Z
  end.

Definition q_fround2 (x : Q) : Q :=
  Qred (inject_Z (round_half_even (x * 100)) / 100).

Definition q_fcmp (x y : Q) : fcomparison :=
  match x ?= y with
  | Eq => FEq
  | Lt => FLt
  | Gt => FGt
  end.

Lemma q_fcmp_pos_nonzero (x : Q) : q_fcmp (q_of_int 0) x = FLt -> q_fcmp x (q_of_int 0) = FGt.
Proof.
  unfold q_fcmp. rewrite <- (Qcompare_antisym x (q_of_int 0)).
  destruct (x ?= q_of_int 0); simpl; congruence.
Qed.

Lemma q_int_truediv_zero (m : Z) : (0 < m)%Z -> q_int_truediv 0 m = q_of_int 0.
Proof.
  intros _. unfold q_int_truediv, q_of_int.
  change (inject_Z 0) with (Qred 0) at 2. apply Qred_complete.
  unfold Qdiv. apply Qmult_0_l.
Qed.

Lemma q_fdiv_zero (x : Q) : q_fcmp (q_of_int 0) x = FLt -> q_fdiv (q_of_int 0) x = q_of_int 0.
Proof.
  intros _. unfold q_fdiv, q_of_int.
  change (inject_Z 0) with (Qred 0) at 2. apply Qred_complete.
  unfold Qdiv. apply Qmult_0_l.
Qed.

#[global] Instance Q_PyFloat : PyFloat Q := {|
  of_int := q_of_int;
  int_truediv := q_int_truediv;
  fdiv := q_fdiv;
  fadd := q_fadd;
  fmul := q_fmul;
  fabs := q_fabs;
  fround2 := q_fround2;
  fcmp := q_fcmp;
  fcmp_zero_zero := eq_refl;
  fcmp_pos_nonzero := q_fcmp_pos_nonzero;
  int_truediv_zero := q_int_truediv_zero;
  fdiv_zero := q_fdiv_zero;
  fadd_zero_zero := eq_refl
|}.

End QFloat.

(* ===================================================================== *)
(** * IEEE 754 binary64 as an instance of the float interface

    A Python [float] is a binary64 number.  The operations are those of
    the standard library's [SpecFloat] at precision 53 and exponent bound
    1024: each one rounds its exact result to the nearest double, ties to
    even. *)
Module B64.

Definition b64_add : spec_float -> spec_float -> spec_float := SFadd 53 1024.
Definition b64_mul : spec_float -> spec_float -> spec_float := SFmul 53 1024.
Definition b64_div : spec_float -> spec_float -> spec_float := SFdiv 53 1024.
Definition b64_abs : spec_float -> spec_float := SFabs.

(** [x < y] and [x >= y]; both are false when an operand is a NaN. *)
Definition b64_ltb : spec_float -> spec_float -> bool := SFltb.
Definition b64_geb (x y : spec_float) : bool := SFleb y x.

Definition is_nan (x : spec_float) : bool :=
  match x with S754_nan => true | _ => false end.
Definition is_finite (x : spec_float) : bool :=
  match x with S754_zero _ | S754_finite _ _ _ => true | _ => false end.

(** The double [x] is one of the binary64 format. *)
Definition is_binary64 : spec_float -> bool := valid_binary 53 1024.

(** An int as an exact operand, before any rounding. *)
Definition exact_int (n : Z) : spec_float :=
  match n with
  | Z0 => S754_zero false
  | Zpos p => S754_finite false p 0
  | Zneg p => S754_finite true p 0
  end.

(** [float(n)] *)
Definition b64_of_int (n : Z) : spec_float := binary_normalize 53 1024 n 0 false.

(** [n / m] on two ints: the exact quotient, rounded once.  Where the
    rounded quotient is beyond the range Python raises [OverflowError];
    the result is an infinity here. *)
Definition b64_int_truediv (n m : Z) : spec_float :=
  b64_div (exact_int n) (exact_int m).

(** The integer nearest to [n * 2^e], ties to even. *)
Definition nearest_even (n e : Z) : Z :=
  match e with
  | Zneg p =>
      let d := 2 ^ Zpos p in
      let q := n / d in
      let r := n mod d in
      match 2 * r ?= d with
      | Lt => q
      | Gt => q + 1
      | Eq => if Z.even q then q else q + 1
      end
  | _ => n * 2 ^ e
  end.

Definition signed_int (s : bool) (k : Z) : spec_float :=
  match k with
  | Zpos p => S754_finite s p 0
  | _ => S754_zero s
  end.

(** [round(x, 2)]: the exact value of [x] is rounded to two decimals,
    ties to even, and the decimal is rounded to the nearest double; the
    sign is kept, infinities and NaN round to themselves. *)
Definition b64_round2 (x : spec_float) : spec_float :=
  match x with
  | S754_finite s m e =>
      b64_div (signed_int s (nearest_even (100 * Zpos m) e)) (exact_int 100)
  | _ => x
  end.

Definition b64_fcmp (x y : spec_float) : fcomparison :=
  match SFcompare x y with
  | Some Eq => FEq
  | Some Lt => FLt
  | Some Gt => FGt
  | None => FNotComparable
  end.

Lemma b64_fcmp_pos_nonzero (x : spec_float) :
  b64_fcmp (b64_of_int 0) x = FLt -> b64_fcmp x (b64_of_int 0) = FGt.
Proof.
  destruct x as [s|[|]| |[|] m e]; cbn; congruence.
Qed.

Lemma b64_int_truediv_zero (m : Z) :
  0 < m -> b64_int_truediv 0 m = b64_of_int 0.
Proof.
  destruct m as [|p|p]; [lia | reflexivity | lia].
Qed.

Lemma b64_fdiv_zero (x : spec_float) :
  b64_fcmp (b64_of_int 0) x = FLt -> b64_div (b64_of_int 0) x = b64_of_int 0.
Proof.
  destruct x as [s|[|]| |[|] m e]; cbn; try congruence; reflexivity.
Qed.

#[global] Instance B64_PyFloat : PyFloat spec_float := {|
  of_int := b64_of_int;
  int_truediv := b64_int_truediv;
  fdiv := b64_div;
  fadd := b64_add;
  fmul := b64_mul;
  fabs := b64_abs;
  fround2 := b64_round2;
  fcmp := b64_fcmp;
  fcmp_zero_zero := eq_refl;
  fcmp_pos_nonzero := b64_fcmp_pos_nonzero;
  int_truediv_zero := b64_int_truediv_zero;
  fdiv_zero := b64_fdiv_zero;
  fadd_zero_zero := eq_refl
|}.

End B64.

(* ===================================================================== *)
(** * A concrete deployment

    One non-routed feed with a heartbeat of an hour and a deviation
    threshold of 4 %, polled with the default settings of [main]
    (finalization 60 s, resolution 300 s, at most 3 reverts). *)
Module Examples.

Definition env0 : settings :=
  {| web3_gas_price := Some 1000000000;
     web3_finalization_secs := 60;
     web3_max_reverts := 3;
     witnet_resolution_secs := 300 |}.

Definition feed_addr : address :=
  "0x1111111111111111111111111111111111111111"%string.
Definition new_addr : address :=
  "0x2222222222222222222222222222222222222222"%string.
Definition witnet_addr : address :=
  "0x9999999999999999999999999999999999999999"%string.

(** Last price 100 at time 1000, latest request id 7, nothing pending. *)
Definition eth_usd : @Feed Q :=
  new_feed "0x3d15f701"%string "Price-ETH/USD-6"%string feed_addr
           0 4%Q 3600 false 100 1000 7 false witnet_addr.

Definition awaiting : @Feed Q := set_pendingUpdate true eth_usd.

Definition two_reverts : @Feed Q := set_reverts 2 eth_usd.

Definition disabled : @Feed Q :=
  set_auto_disabled true
    (set_reverts 3 (set_lastRevertedTx "0xbad"%string (set_fees [5] eth_usd))).

Definition last_ok : last_value :=
  {| lv_price := 100; lv_timestamp := 1000; lv_drTxHash := "0xd0"%string;
     lv_status := 200 |}.

Definition last_new : last_value :=
  {| lv_price := 105; lv_timestamp := 1400; lv_drTxHash := "0xd1"%string;
     lv_status := 200 |}.

Definition no_reads : chain_reads :=
  {| rd_witnet := None; rd_lastPrice := None; rd_lastTimestamp := None;
     rd_latestQueryId := None; rd_pendingUpdate := None |}.

Definition full_reads : chain_reads :=
  {| rd_witnet := Some witnet_addr; rd_lastPrice := Some 250;
     rd_lastTimestamp := Some 5000; rd_latestQueryId := Some 42;
     rd_pendingUpdate := Some false |}.

Definition eth_usd_policy : @policy Q :=
  {| minSecsBetweenUpdates := 900; deviationPercentage := 2%Q;
     maxSecsBetweenUpdates := 86400; cfg_isRouted := false |}.

(** A submission from an account holding [balance], ending as [receipt]
    says and costing 100. *)
Definition submit (balance : Z) (receipt : wait_result) : submission :=
  {| s_info := Some tt; s_balance := Some balance; s_gas_price := None;
     s_fee := Some 5; s_tx := Some "0x7a"%string; s_receipt := receipt;
     s_balance_after := Some (balance - 100) |}.

(** A pass at time [now] on which the router answers [a]. *)
Definition pass (a : address) (reads : chain_reads) (now : Z)
    (lv : last_value) (dry : option Z) (sub : submission) : @world Q :=
  {| w_getPriceFeed := Some a;
     w_load_config := Some (Some eth_usd_policy);
     w_refresh := fun _ => reads;
     w_lastValue := Some lv;
     w_now := now;
     w_latestUpdate := Some tt;
     w_pendingUpdate := Some false;
     w_dry_run := dry;
     w_submit := sub;
     w_lastValue_after := Some lv |}.

(** 3240 s after the last update: the heartbeat is due. *)
Definition heartbeat_due (sub : submission) : @world Q :=
  pass feed_addr no_reads 4240 last_ok None sub.

Definition no_event : @world Q :=
  heartbeat_due (submit 1000000 (WaitReceipt true [])).

Definition reverted : @world Q :=
  heartbeat_due (submit 1000000 (WaitReceipt false [])).

Definition no_funds : @world Q :=
  heartbeat_due (submit 0 WaitRaises).

Definition accepted_later : @world Q :=
  pass feed_addr no_reads 4270 last_ok None (submit 1000000 (WaitReceipt true [8])).

(** 1000 s after the last update, the dry run answers 105. *)
Definition price_moved : @world Q :=
  pass feed_addr no_reads 2000 last_ok (Some 105) (submit 1000000 WaitRaises).

Definition resolved : @world Q :=
  pass feed_addr no_reads 1500 last_new None (submit 1000000 WaitRaises).

Definition routed_to_zero : @world Q :=
  pass ZERO_ADDRESS no_reads 4240 last_ok None (submit 1000000 WaitRaises).

Definition rerouted (reads : chain_reads) : @world Q :=
  pass new_addr reads 4240 last_ok None (submit 1000000 WaitRaises).

(** *** More passes *)

Definition timed_out : @world Q :=
  heartbeat_due (submit 1000000 WaitTimeExhausted).

(** 100 s after the last update, with a cooldown of 1000 s. *)
Definition cooling : @Feed Q := set_cooldown 1000 eth_usd.
Definition too_early : @world Q :=
  pass feed_addr no_reads 1100 last_ok None (submit 1000000 WaitRaises).

Definition unmanaged : @Feed Q := set_heartbeat 0 eth_usd.

Definition eth_usd_routed : @Feed Q :=
  set_witnet None (set_isRouted true eth_usd).

(** A pass at time [now] on a routed feed: the contract signals [signal]
    and, after a request, reports [last_new]. *)
Definition routed_pass (now : Z) (signal : bool) (after : option last_value)
    : @world Q :=
  {| w_getPriceFeed := Some feed_addr;
     w_load_config := Some (Some eth_usd_policy);
     w_refresh := fun _ => no_reads;
     w_lastValue := Some last_ok;
     w_now := now;
     w_latestUpdate := Some tt;
     w_pendingUpdate := Some signal;
     w_dry_run := None;
     w_submit := submit 1000000 (WaitReceipt true [9]);
     w_lastValue_after := after |}.

Definition router_down : @world Q :=
  {| w_getPriceFeed := None;
     w_load_config := Some (Some eth_usd_policy);
     w_refresh := fun _ => no_reads;
     w_lastValue := Some last_ok;
     w_now := 4240;
     w_latestUpdate := Some tt;
     w_pendingUpdate := Some false;
     w_dry_run := None;
     w_submit := submit 1000000 WaitRaises;
     w_lastValue_after := Some last_ok |}.

(** The new contract can be read from the third attempt on. *)
Definition rerouted_slow : @world Q :=
  {| w_getPriceFeed := Some new_addr;
     w_load_config := Some (Some eth_usd_policy);
     w_refresh := fun j => if (j <? 2)%nat then no_reads else full_reads;
     w_lastValue := Some last_ok;
     w_now := 4240;
     w_latestUpdate := Some tt;
     w_pendingUpdate := Some false;
     w_dry_run := None;
     w_submit := submit 1000000 WaitRaises;
     w_lastValue_after := Some last_ok |}.

(** *** Start-up *)

Definition router_addr : address :=
  "0x3333333333333333333333333333333333333333"%string.

Definition eth_entry : @entry Q :=
  {| e_minSecsBetweenUpdates := Some 900; e_deviationPercentage := Some 2%Q;
     e_maxSecsBetweenUpdates := Some 86400; e_isRouted := None |}.

(** An entry that only names the pair. *)
Definition bare_entry : @entry Q :=
  {| e_minSecsBetweenUpdates := None; e_deviationPercentage := None;
     e_maxSecsBetweenUpdates := None; e_isRouted := None |}.

Definition eth_reads (narrated : option unit) : pair_reads :=
  {| pr_getPriceFeed := Some feed_addr; pr_lastPrice := Some 100;
     pr_lastTimestamp := Some 1000; pr_latestQueryId := Some 7;
     pr_pendingUpdate := Some false; pr_witnet := Some witnet_addr;
     pr_narrated := narrated |}.

Definition zero_reads : pair_reads :=
  {| pr_getPriceFeed := Some ZERO_ADDRESS; pr_lastPrice := None;
     pr_lastTimestamp := None; pr_latestQueryId := None;
     pr_pendingUpdate := None; pr_witnet := None; pr_narrated := None |}.

Definition pair (reads : pair_reads) : pair_world :=
  {| pw_currencyPairId := Some "0x3d15f701"%string;
     pw_supportsCurrencyPair := Some true;
     pw_reads := fun _ => reads |}.

Definition eth_caption : string := "Price-ETH/USD-6"%string.

Definition configured : list (string * @entry Q * pair_world) :=
  [("Price-BTC/USD-6"%string, eth_entry, pair zero_reads);
   (eth_caption, eth_entry, pair (eth_reads (Some tt)))].

Definition loaded : @Feed Q :=
  new_feed "0x3d15f701"%string eth_caption feed_addr
           900 2%Q 86400 false 100 1000 7 false witnet_addr.

Definition loaded_bare : @Feed Q :=
  new_feed "0x3d15f701"%string eth_caption feed_addr
           0 0%Q 0 false 100 1000 7 false witnet_addr.

(** *** Deviation checks on doubles

    The same feed with its threshold as a double, on passes 1000 s after
    the last update. *)

Definition eth_usd_b64 : @Feed spec_float :=
  new_feed "0x3d15f701"%string "Price-ETH/USD-6"%string feed_addr
           0 (B64.b64_of_int 4) 3600 false 100 1000 7 false witnet_addr.

(** Last price 160 and a threshold of 14.38 %. *)
Definition last_160 : last_value :=
  {| lv_price := 160; lv_timestamp := 1000; lv_drTxHash := "0xd0"%string;
     lv_status := 200 |}.

Definition tight : @Feed spec_float :=
  new_feed "0x3d15f701"%string "Price-ETH/USD-6"%string feed_addr
           0 (B64.b64_int_truediv 1438 100) 3600 false 160 1000 7 false
           witnet_addr.

Definition policy_b64 : @policy spec_float :=
  {| minSecsBetweenUpdates := 900; deviationPercentage := B64.b64_of_int 2;
     maxSecsBetweenUpdates := 86400; cfg_isRouted := false |}.

(** The dry run answers [dry]. *)
Definition dry_run_pass (lv : last_value) (dry : option Z)
    : @world spec_float :=
  {| w_getPriceFeed := Some feed_addr;
     w_load_config := Some (Some policy_b64);
     w_refresh := fun _ => no_reads;
     w_lastValue := Some lv;
     w_now := 2000;
     w_latestUpdate := Some tt;
     w_pendingUpdate := Some false;
     w_dry_run := dry;
     w_submit := submit 1000000 WaitRaises;
     w_lastValue_after := Some lv |}.

Definition moved_b64 : @world spec_float := dry_run_pass last_ok (Some 105).
Definition drifted : @world spec_float := dry_run_pass last_160 (Some 183).

End Examples.

(* ===================================================================== *)
(** * The runway estimate, as the specification words it *)
(* ===================================================================== *)

Section Runway.
Context {F : Type} `{PyFloat F}.

(** Division where the specification divides; [0] stands in when Python
    would raise. *)
Definition num_div (x y : num F) : num F :=
  match py_truediv x y with
  | Some r => r
  | None => PInt 0
  end.

Definition mean (l : list Z) : num F :=
  num_div (PInt (py_sum l)) (PInt (len l)).

(** [avgFee = totalFees / totalFeeSamples], [0] if no samples anywhere. *)
Definition global_avg_fee (pfs : list (@Feed F)) : num F :=
  let samples := List.concat (map fees pfs) in
  if 0 <? len samples then mean samples else PInt 0.

(** [avgLatency]: the mean of the latency history, else the heartbeat. *)
Definition avg_latency (pf : @Feed F) : num F :=
  if 0 <? len (secs pf) then mean (secs pf) else PInt (heartbeat pf).

(** The feed's own average fee if it has samples, else the global one. *)
Definition feed_avg_fee (global : num F) (pf : @Feed F) : num F :=
  if 0 <? len (fees pf) then mean (fees pf) else global.

Definition spend_rate (global : num F) (pf : @Feed F) : num F :=
  num_div (feed_avg_fee global pf) (avg_latency pf).

(** The sum of the rates of the feeds whose [avgLatency] is positive, in
    list order; the others contribute nothing. *)
Definition total_spend_rate (pfs : list (@Feed F)) : num F :=
  fold_left py_add
    (map (spend_rate (global_avg_fee pfs))
         (filter (fun pf => py_gt0 (avg_latency pf)) pfs))
    (PInt 0).

Definition runway_secs (balance : Z) (pfs : list (@Feed F)) : num F :=
  let rate := total_spend_rate pfs in
  if py_gt0 rate then num_div (PInt balance) rate else PInt 0.

(** A sum of zero rates is an int or float zero. *)
Definition is_zero (x : num F) : Prop := x = PInt 0 \/ x = PFloat (of_int 0).

End Runway.

(* ===================================================================== *)
(** * Vocabulary of the properties *)
(* ===================================================================== *)

Section Vocabulary.
Context {F : Type} `{PyFloat F}.

(** The reasons of the update requests narrated in a trace. *)
Fixpoint requested (tr : list (@event F)) : list reason :=
  match tr with
  | [] => []
  | EvRequesting _ why :: tr => why :: requested tr
  | _ :: tr => requested tr
  end.

(** The trigger, if any, that fired while the loop body ran on [pf]. *)
Definition trigger_fired (env : settings) (w : @world F) (pf : @Feed F)
    : option reason :=
  hd_error (requested (snd (run_feed env w pf))).

(** Seconds since the tracked timestamp, as the loop body computes them. *)
Definition elapsed (w : @world F) (pf : @Feed F) : Z :=
  w_now w - lastTimestamp pf.

(** The router still answers the tracked, supported address, the feed is
    not disabled and [lastValue()] answers [lv]. *)
Definition steady (w : @world F) (pf : @Feed F) (lv : last_value) : Prop :=
  w_getPriceFeed w = Some (contract pf) /\
  contract pf <> ZERO_ADDRESS /\
  auto_disabled pf = false /\
  w_lastValue w = Some lv.

(** The self-protection counters and the telemetry of a feed. *)
Definition flags (pf : @Feed F) : list Z * list Z * bool * Z * string :=
  (fees pf, secs pf, auto_disabled pf, reverts pf, lastRevertedTx pf).

Definition flags_reset : list Z * list Z * bool * Z * string :=
  ([], [], false, 0, ""%string).

Definition history_bounded (pf : @Feed F) : Prop :=
  len (fees pf) <= 16 /\ len (secs pf) <= 256.

Definition disabled_inv (env : settings) (pf : @Feed F) : Prop :=
  auto_disabled pf = true -> web3_max_reverts env <= reverts pf.

Definition is_some {A : Type} (o : option A) : bool :=
  match o with
  | Some _ => true
  | None => false
  end.

(** All the reads that one refresh attempt needs succeed. *)
Definition complete_reads (cfg : @policy F) (rd : chain_reads) : bool :=
  (cfg_isRouted cfg || is_some (rd_witnet rd))
  && is_some (rd_lastPrice rd)
  && is_some (rd_lastTimestamp rd)
  && is_some (rd_latestQueryId rd)
  && is_some (rd_pendingUpdate rd).

(** A feed re-seeded at address [a] from the policy [cfg] and the reads
    [rd]; [old_witnet] is the Witnet address tracked before, which a
    routed feed keeps. *)
Definition reseeded (cfg : @policy F) (rd : chain_reads) (a : address)
    (old_witnet : option address) (pf' : @Feed F) : Prop :=
  contract pf' = a /\
  cooldown pf' = minSecsBetweenUpdates cfg /\
  deviation pf' = deviationPercentage cfg /\
  heartbeat pf' = maxSecsBetweenUpdates cfg /\
  isRouted pf' = cfg_isRouted cfg /\
  witnet pf' = (if cfg_isRouted cfg then old_witnet else rd_witnet rd) /\
  rd_lastPrice rd = Some (lastPrice pf') /\
  rd_lastTimestamp rd = Some (lastTimestamp pf') /\
  rd_pendingUpdate rd = Some (pendingUpdate pf') /\
  fees pf' = [] /\
  secs pf' = [] /\
  auto_disabled pf' = false /\
  lastRevertedTx pf' = ""%string /\
  reverts pf' = 0.

(** The counters and telemetry after the loop has booked [result] for a
    request made [e] seconds after the last update. *)
Definition booked_flags (env : settings) (result : result) (e : Z)
    (pf : @Feed F) : list Z * list Z * bool * Z * string :=
  (match result with
   | Result3 _ _ fee => if 0 <? fee then append_bounded 16 fee (fees pf) else fees pf
   | _ => fees pf
   end,
   match result with
   | Result3 _ _ _ => append_bounded 256 e (secs pf)
   | _ => secs pf
   end,
   if result_0 result <? 0
   then (web3_max_reverts env <=? reverts pf + 1) || auto_disabled pf
   else auto_disabled pf,
   if 0 <? result_0 result then 0
   else if result_0 result <? 0 then reverts pf + 1 else reverts pf,
   if (result_0 result <? 0) && negb (0 <? result_0 result)
   then match result_1 result with Some tx => tx | None => lastRevertedTx pf end
   else lastRevertedTx pf).

(** A feed as start-up leaves it: at a supported address, with cleared
    counters and telemetry; a routed one has no pending update and no
    Witnet address. *)
Definition fresh (pf : @Feed F) : Prop :=
  contract pf <> ZERO_ADDRESS /\
  flags pf = flags_reset /\
  latestQueryId pf = None /\
  (if isRouted pf
   then pendingUpdate pf = false /\ witnet pf = None
   else witnet pf <> None).

(** The feed tracks the address that the attempt read. *)
Definition rd_addr_ok (rd : pair_reads) (pf : @Feed F) : Prop :=
  pr_getPriceFeed rd = Some (contract pf).

(** An attempt at refreshing that cannot go through: the configuration
    lacks the feed, or a read that the attempt needs raises. *)
Definition attempt_fails (cfg : option (@policy F)) (rd : chain_reads) : Prop :=
  match cfg with
  | Some c => complete_reads c rd = false
  | None => True
  end.

(** The retry lines of attempts [attempt], ..., [attempt + k - 1]. *)
Definition retry_lines (attempt k : nat) : list (@event F) :=
  map (fun j => EvRefreshRetry (Z.of_nat j)) (seq attempt k).

(** The narration of a request that did not reach a receipt. *)
Definition failure_line (e : exn) : @event F :=
  match e with
  | TimeExhausted => EvTxTooLong
  | Error msg => EvTxRejected msg
  end.

(** What every attempt leaves alone: the identity of the feed, its
    [latestRequestId] and the trace. *)
Definition kept (s s' : @st F) : Prop :=
  id (fst s') = id (fst s) /\ caption (fst s') = caption (fst s) /\
  contract (fst s') = contract (fst s) /\
  latestRequestId (fst s') = latestRequestId (fst s) /\
  requested (snd s') = requested (snd s).

(** How [run_feed] ends a run of the [try] block. *)
Definition close_pass (r : @st F * outcome unit) : @Feed F * list (@event F) :=
  match r with
  | (s, Exn) => (fst s, snd s ++ [EvException])
  | (s, _) => s
  end.

(** The message of the exception raised on an empty funding account. *)
Definition out_of_funds : string := "Master account run out of funds".

(** Every change that one pass makes to a history is a [clear()] or an
    append followed by the trim. *)
Inductive history_op (bound : Z) : list Z -> list Z -> Prop :=
| history_keep l : history_op bound l l
| history_clear l : history_op bound l []
| history_append x l : history_op bound l (append_bounded bound x l)
| history_clear_append x l : history_op bound l (append_bounded bound x []).

(** A pass keeps the identity of the feed. *)
Definition same_identity (pf pf' : @Feed F) : Prop :=
  id pf' = id pf /\ caption pf' = caption pf.

(** The step relation of the invariants that every pass keeps. *)
Definition keeps (env : settings) (pf pf' : @Feed F) : Prop :=
  same_identity pf pf' /\
  (history_bounded pf -> history_bounded pf') /\
  (disabled_inv env pf -> disabled_inv env pf').

End Vocabulary.

(* ===================================================================== *)
(** * Properties *)
(* ===================================================================== *)

Section Facts.
Context {F : Type} `{PyFloat F}.
Implicit Types (pf : @Feed F) (pfs : list (@Feed F)) (w : @world F)
  (tr : list (@event F)) (env : settings).

(** ** Numbers *)

Lemma len_nonneg (A : Type) (l : list A) : 0 <= len l.
Proof. unfold len. lia. Qed.

Lemma len_app (A : Type) (l l' : list A) : len (l ++ l') = len l + len l'.
Proof. unfold len. rewrite length_app. lia. Qed.

Lemma len_zero_nil (A : Type) (l : list A) : (0 <? len l) = false -> l = [].
Proof.
  destruct l as [|a l]; [reflexivity|].
  unfold len; cbn [List.length]. intros E. apply Z.ltb_ge in E. lia.
Qed.

Lemma fold_add_shift (l : list Z) (a : Z) :
  fold_left Z.add l a = a + fold_left Z.add l 0.
Proof.
  revert a. induction l as [|x l IH]; intros a; cbn [fold_left].
  - lia.
  - rewrite (IH (a + x)), (IH (0 + x)). lia.
Qed.

Lemma py_sum_app (l l' : list Z) : py_sum (l ++ l') = py_sum l + py_sum l'.
Proof.
  unfold py_sum. rewrite fold_left_app.
  now rewrite (fold_add_shift l' (fold_left Z.add l 0)).
Qed.

Lemma py_truediv_int (a b : Z) :
  0 < b -> py_truediv (PInt a) (PInt b) = Some (@num_div F _ (PInt a) (PInt b)).
Proof.
  intros Hb. unfold num_div. cbn [py_truediv].
  destruct (b =? 0) eqn:E; [apply Z.eqb_eq in E; lia | reflexivity].
Qed.

Lemma py_truediv_pos (x y : num F) :
  py_gt0 y = true -> py_truediv x y = Some (num_div x y).
Proof.
  intros Hy. unfold num_div.
  destruct y as [b|y]; cbn [py_gt0] in Hy.
  - apply Z.ltb_lt in Hy.
    destruct x; cbn [py_truediv];
      (destruct (b =? 0) eqn:E; [apply Z.eqb_eq in E; lia | reflexivity]).
  - unfold fltb in Hy.
    assert (E : feqb y (of_int 0) = false).
    { unfold feqb. rewrite fcmp_pos_nonzero; [reflexivity|].
      destruct (fcmp (of_int 0) y); congruence. }
    destruct x; cbn [py_truediv]; rewrite E; reflexivity.
Qed.

(** ** [avg_fees] and [time_to_die_secs] against the specification *)

Lemma avg_fees_loop_totals pfs (a b : Z) :
  avg_fees_loop pfs a b =
  (a + py_sum (List.concat (map fees pfs)), b + len (List.concat (map fees pfs))).
Proof.
  revert a b. induction pfs as [|pf pfs IH]; intros a b; cbn [avg_fees_loop map List.concat].
  - unfold py_sum, len. cbn. f_equal; lia.
  - rewrite py_sum_app, len_app.
    destruct (0 <? len (fees pf)) eqn:E; rewrite IH.
    + f_equal; lia.
    + apply len_zero_nil in E. rewrite E. unfold py_sum, len. cbn. f_equal; lia.
Qed.

Lemma avg_fees_spec pfs : avg_fees pfs = Some (global_avg_fee pfs).
Proof.
  unfold avg_fees, global_avg_fee. rewrite avg_fees_loop_totals.
  rewrite !Z.add_0_l.
  destruct (0 <? len (List.concat (map fees pfs))) eqn:E; [|reflexivity].
  apply py_truediv_int. now apply Z.ltb_lt.
Qed.

Lemma time_to_die_loop_spec (global : num F) pfs (acc : num F) :
  time_to_die_loop global pfs acc =
  Some (fold_left py_add
          (map (spend_rate global)
               (filter (fun pf => py_gt0 (avg_latency pf)) pfs))
          acc).
Proof.
  revert acc. induction pfs as [|pf pfs IH]; intros acc;
    cbn [time_to_die_loop filter map fold_left]; [reflexivity|].
  assert (Es : (if 0 <? len (secs pf)
                then py_truediv (PInt (py_sum (secs pf))) (PInt (len (secs pf)))
                else Some (PInt (heartbeat pf))) = Some (avg_latency pf)).
  { unfold avg_latency, mean. destruct (0 <? len (secs pf)) eqn:E; [|reflexivity].
    apply py_truediv_int. now apply Z.ltb_lt. }
  assert (Ef : (if 0 <? len (fees pf)
                then py_truediv (PInt (py_sum (fees pf))) (PInt (len (fees pf)))
                else Some global) = Some (feed_avg_fee global pf)).
  { unfold feed_avg_fee, mean. destruct (0 <? len (fees pf)) eqn:E; [|reflexivity].
    apply py_truediv_int. now apply Z.ltb_lt. }
  rewrite Es. cbn [bind_opt].
  destruct (py_gt0 (avg_latency pf)) eqn:G.
  - rewrite Ef. cbn [bind_opt].
    rewrite (py_truediv_pos _ _ G). cbn [bind_opt map fold_left].
    apply IH.
  - apply IH.
Qed.

Lemma time_to_die_secs_spec (balance : Z) pfs :
  time_to_die_secs balance pfs = Some (runway_secs balance pfs).
Proof.
  unfold time_to_die_secs, runway_secs, total_spend_rate.
  rewrite avg_fees_spec. cbn [bind_opt].
  rewrite time_to_die_loop_spec. cbn [bind_opt].
  match goal with |- context [py_gt0 ?t] => destruct (py_gt0 t) eqn:G end.
  - now apply py_truediv_pos.
  - reflexivity.
Qed.

Lemma is_zero_not_pos (x : num F) : is_zero x -> py_gt0 x = false.
Proof.
  intros [->| ->]; cbn [py_gt0]; [reflexivity|].
  unfold fltb. now rewrite fcmp_zero_zero.
Qed.

Lemma zero_rate (d : num F) :
  py_gt0 d = true -> num_div (PInt 0) d = PFloat (of_int 0).
Proof.
  intros G. unfold num_div. destruct d as [n|x]; cbn [py_gt0] in G.
  - apply Z.ltb_lt in G. cbn [py_truediv].
    destruct (n =? 0) eqn:E; [apply Z.eqb_eq in E; lia|].
    now rewrite int_truediv_zero.
  - cbn [py_truediv]. unfold fltb in G.
    assert (L : fcmp (of_int 0) x = FLt) by (destruct (fcmp (of_int 0) x); congruence).
    unfold feqb. rewrite (fcmp_pos_nonzero _ L). now rewrite fdiv_zero.
Qed.

Lemma fold_zero_rates (l : list (num F)) (acc : num F) :
  is_zero acc -> Forall (fun r => r = PFloat (of_int 0)) l ->
  is_zero (fold_left py_add l acc).
Proof.
  intros Hacc Hl. revert acc Hacc.
  induction Hl as [|r l Hr _ IH]; intros acc Hacc; cbn [fold_left]; [exact Hacc|].
  apply IH. subst r. right.
  destruct Hacc as [->| ->]; cbn [py_add]; now rewrite fadd_zero_zero.
Qed.

Lemma global_avg_fee_no_samples pfs :
  Forall (fun pf => fees pf = []) pfs -> global_avg_fee pfs = PInt 0.
Proof.
  intros Hall. unfold global_avg_fee.
  assert (E : List.concat (map fees pfs) = []).
  { induction Hall as [|pf pfs Hpf _ IH]; cbn [map List.concat]; [reflexivity|].
    now rewrite Hpf, IH. }
  now rewrite E.
Qed.

Lemma total_spend_rate_no_samples pfs :
  Forall (fun pf => fees pf = []) pfs -> is_zero (total_spend_rate pfs).
Proof.
  intros Hall. unfold total_spend_rate.
  rewrite (global_avg_fee_no_samples Hall).
  apply fold_zero_rates; [now left|].
  induction Hall as [|pf pfs Hpf _ IH]; cbn [filter map]; [constructor|].
  destruct (py_gt0 (avg_latency pf)) eqn:G; [|exact IH].
  cbn [map]. constructor; [|exact IH].
  unfold spend_rate, feed_avg_fee. rewrite Hpf. cbn.
  now apply zero_rate.
Qed.

(** C9.  [time_to_die_secs] never raises and returns the runway of the
    specification: the balance divided by the total spend rate when that
    rate is positive and [0] otherwise, where each feed whose average
    latency (mean of its latency history, else its heartbeat) is positive
    contributes its own average fee (else the global average) divided by
    that latency, and every other feed contributes nothing.  When no feed
    has a fee sample the result is the int [0]. *)
Theorem runway_estimate :
  (forall (balance : Z) pfs,
      time_to_die_secs balance pfs = Some (runway_secs balance pfs)) /\
  (forall (balance : Z) pfs,
      Forall (fun pf => fees pf = []) pfs ->
      time_to_die_secs balance pfs = Some (PInt 0)).
Proof.
  split.
  - apply time_to_die_secs_spec.
  - intros balance pfs Hall. rewrite time_to_die_secs_spec. f_equal.
    unfold runway_secs.
    now rewrite (is_zero_not_pos (total_spend_rate_no_samples Hall)).
Qed.

(** ** Running the loop body *)

Ltac mstep :=
  cbv [bind ret get modify emit call when continue raise try_except] in *;
  cbn [fst snd negb] in *.

Ltac mrun := mstep; cbn in *.

Lemma requested_app tr tr' : requested (tr ++ tr') = requested tr ++ requested tr'.
Proof.
  induction tr as [|e tr IH]; [reflexivity|].
  destruct e; cbn [requested app]; rewrite ?IH; reflexivity.
Qed.

Lemma emit_all_run (es : list (@event F)) pf tr :
  emit_all es (pf, tr) = ((pf, tr ++ es), Ret tt).
Proof.
  revert tr. induction es as [|e es IH]; intros tr; cbn [emit_all].
  - mrun. now rewrite app_nil_r.
  - unfold bind, emit. cbn [fst snd]. rewrite IH.
    now rewrite <- app_assoc.
Qed.

(** *** Refreshing a re-routed feed *)

Lemma refresh_attempt_effect (cfg : option (@policy F)) (rd : chain_reads) (s : @st F) :
  let r := refresh_attempt cfg rd s in
  kept s (fst r) /\
  match snd r with
  | Ret _ => flags (fst (fst r)) = flags_reset
  | Exn => flags (fst (fst r)) = flags (fst s) /\ snd (fst r) = snd s
  | Next => False
  end.
Proof.
  destruct s as [pf tr]. unfold refresh_attempt, kept, flags, flags_reset.
  destruct cfg as [cfg|]; [|mrun; repeat split; reflexivity].
  mrun.
  destruct (cfg_isRouted cfg); cbn;
    repeat match goal with
      | |- context [match ?o with Some _ => _ | None => _ end] =>
          destruct o; cbn
      end; repeat split; reflexivity.
Qed.

Lemma refresh_loop_effect (cfg : option (@policy F)) (reads : nat -> chain_reads)
    (remaining attempt : nat) (s : @st F) :
  (5 <= attempt + remaining)%nat -> (0 < remaining)%nat ->
  let r := refresh_loop cfg reads attempt remaining s in
  kept s (fst r) /\
  match snd r with
  | Ret _ => flags (fst (fst r)) = flags_reset
  | Exn => flags (fst (fst r)) = flags (fst s)
  | Next => False
  end.
Proof.
  revert attempt s. induction remaining as [|remaining IH]; intros attempt s L R;
    [lia|].
  cbn [refresh_loop]. unfold try_except.
  pose proof (refresh_attempt_effect cfg (reads attempt) s) as A. cbn zeta in A.
  destruct (refresh_attempt cfg (reads attempt) s) as [s1 o].
  cbn [fst snd] in A. destruct A as [K A].
  destruct o as [[]| |]; cbn [fst snd].
  - split; [exact K | exact A].
  - contradiction.
  - destruct A as [Afl Atr].
    destruct (attempt <? 4)%nat eqn:E4.
    + apply Nat.ltb_lt in E4.
      unfold bind, emit. cbn [fst snd].
      pose proof (IH (S attempt) (fst s1, snd s1 ++ [EvRefreshRetry (Z.of_nat attempt)])
                    ltac:(lia) ltac:(lia)) as B.
      cbn zeta in B.
      destruct (refresh_loop cfg reads (S attempt) remaining
                  (fst s1, snd s1 ++ [EvRefreshRetry (Z.of_nat attempt)])) as [s2 o2].
      cbn [fst snd] in B. destruct B as [K2 B].
      assert (K' : kept s s2).
      { unfold kept in *. cbn [fst snd] in K2.
        rewrite requested_app in K2. cbn [requested] in K2.
        rewrite app_nil_r in K2.
        destruct K as (?&?&?&?&?), K2 as (?&?&?&?&?).
        repeat split; congruence. }
      destruct o2 as [[]| |]; cbn [fst snd]; (split; [exact K'|]).
      * exact B.
      * exact B.
      * cbn [fst] in B. congruence.
    + unfold raise. cbn [fst snd]. split; [exact K | exact Afl].
Qed.

Lemma refresh_loop_S (cfg : option (@policy F)) (reads : nat -> chain_reads)
    (attempt remaining : nat) :
  refresh_loop cfg reads attempt (S remaining) =
  try_except
    (refresh_attempt cfg (reads attempt))
    (if (attempt <? 4)%nat
     then bind (emit (EvRefreshRetry (Z.of_nat attempt)))
               (fun _ => refresh_loop cfg reads (S attempt) remaining)
     else raise).
Proof. reflexivity. Qed.

Local Arguments refresh_loop : simpl never.

(** *** The route check *)

Lemma detect_route_change_effect env w (s : @st F) :
  let r := detect_route_change w s in
  requested (snd (fst r)) = requested (snd s) /\
  latestRequestId (fst (fst r)) = latestRequestId (fst s) /\
  (flags (fst (fst r)) = flags (fst s) \/ flags (fst (fst r)) = flags_reset) /\
  match snd r with
  | Ret a => contract (fst (fst r)) = a /\ w_getPriceFeed w = Some a
  | Exn => True
  | Next => False
  end.
Proof.
  destruct s as [pf tr]. unfold detect_route_change.
  destruct (w_getPriceFeed w) as [a|] eqn:Ea; [|mrun; auto].
  mstep.
  destruct (contract pf =? a)%string eqn:Eq; mstep.
  - apply String.eqb_eq in Eq. auto 6.
  - destruct (w_load_config w) as [cfg|]; mstep; [|auto].
    destruct (a =? ZERO_ADDRESS)%string; mstep.
    + rewrite requested_app. cbn. rewrite app_nil_r. auto 6.
    + pose proof (@refresh_loop_effect cfg (w_refresh w) 5 0
                    (set_contract a pf, tr ++ [EvRouteChanged (contract pf) a])
                    ltac:(lia) ltac:(lia)) as B.
      cbn zeta in B.
      destruct (refresh_loop cfg (w_refresh w) 0 5
                  (set_contract a pf, tr ++ [EvRouteChanged (contract pf) a])) as [s2 o2].
      cbn [fst snd] in B. destruct B as [K B].
      unfold kept in K. cbn [fst snd] in K.
      rewrite requested_app in K. cbn [requested] in K. rewrite app_nil_r in K.
      destruct K as (_&_&Kc&Kl&Kr). cbn in Kc, Kl.
      destruct o2 as [[]| |]; cbn [fst snd].
      * repeat split; auto.
      * contradiction.
      * repeat split; auto.
Qed.

(** *** Waiting, triggers, requests *)

Lemma await_update_effect w (lv : last_value) (e : Z) (s : @st F) :
  let r := await_update w lv e s in
  flags (fst (fst r)) = flags (fst s) /\
  requested (snd (fst r)) = requested (snd s).
Proof.
  destruct s as [pf tr]. unfold await_update. mrun.
  destruct ((lv_status lv =? 200) && (lastTimestamp pf <? lv_timestamp lv)); cbn.
  - rewrite requested_app. cbn. now rewrite app_nil_r.
  - destruct (lv_status lv =? 400); cbn.
    + destruct (w_latestUpdate w); cbn; rewrite ?requested_app; cbn;
        now rewrite ?app_nil_r.
    + rewrite requested_app. cbn. now rewrite app_nil_r.
Qed.

Lemma check_triggers_effect env w (e : Z) (s : @st F) :
  let r := check_triggers env w e s in
  match snd r with
  | Ret _ => fst r = s
  | _ => flags (fst (fst r)) = flags (fst s) /\
         requested (snd (fst r)) = requested (snd s)
  end.
Proof.
  destruct s as [pf tr]. unfold check_triggers. mrun.
  destruct (heartbeat pf =? 0); cbn.
  { destruct (w_pendingUpdate w) as [b|]; cbn; [|auto].
    rewrite requested_app. destruct b; cbn; now rewrite app_nil_r. }
  destruct (heartbeat pf - (if isRouted pf then 0 else total_finalization_secs env)
            <=? e); cbn; [reflexivity|].
  destruct (negb (isRouted pf) && fltb (of_int 0) (deviation pf) && (0 <? lastPrice pf)); cbn.
  { destruct (w_dry_run w) as [next_price|]; cbn.
    - destruct (fltb (fabs (deviation_pct next_price (lastPrice pf))) (deviation pf)); cbn;
        [|reflexivity].
      rewrite requested_app. cbn. now rewrite app_nil_r.
    - rewrite requested_app. cbn. now rewrite app_nil_r. }
  destruct (isRouted pf); cbn.
  - destruct (w_pendingUpdate w) as [[|]|]; cbn; auto.
    rewrite requested_app. cbn. now rewrite app_nil_r.
  - rewrite requested_app. cbn. now rewrite app_nil_r.
Qed.

Lemma handle_requestUpdate_shape (l : Z) (gp : option Z) (sub : submission) :
  let r := @handle_requestUpdate F l gp sub in
  requested (snd r) = [] /\
  match fst r with
  | Result1 q => q = 0
  | Result2 q _ => q = -1
  | Result3 _ _ _ => True
  end.
Proof.
  unfold handle_requestUpdate.
  destruct (send_requestUpdate gp sub) as [[|msg]|[[[tx status] logs] fee]]; cbn; auto.
  destruct status; cbn; auto.
  destruct logs as [|q logs]; cbn; auto.
  destruct (0 <? q); cbn; auto.
Qed.

Lemma request_update_effect env w (e : Z) (why : reason) pf tr :
  let r := request_update env w e why (pf, tr) in
  let result := fst (@handle_requestUpdate F (latestRequestId pf)
                       (web3_gas_price env) (w_submit w)) in
  flags (fst (fst r)) = booked_flags env result e pf /\
  requested (snd (fst r)) = requested tr ++ [why] /\
  pendingUpdate (fst (fst r)) = (if 0 <? result_0 result then true else pendingUpdate pf) /\
  latestRequestId (fst (fst r)) =
    (if 0 <? result_0 result then result_0 result else latestRequestId pf).
Proof.
  unfold request_update.
  pose proof (handle_requestUpdate_shape (latestRequestId pf)
                (web3_gas_price env) (w_submit w)) as Hs.
  cbn zeta in Hs |- *. mstep.
  destruct (handle_requestUpdate (latestRequestId pf) (web3_gas_price env)
              (w_submit w)) as [result printed].
  cbn [fst snd] in Hs |- *. destruct Hs as [Hp Hr].
  rewrite emit_all_run.
  assert (Rq : requested ((tr ++ [EvRequesting e why]) ++ printed)
               = requested tr ++ [why]).
  { rewrite !requested_app, Hp. cbn. now rewrite app_nil_r. }
  unfold booked_flags, flags.
  destruct result as [q|q tx|q tx fee]; cbn [result_0 result_1] in *.
  - subst q. cbn. auto.
  - subst q. cbn.
    destruct (web3_max_reverts env <=? reverts pf + 1); cbn; auto.
  - clear Rq. destruct (0 <? q) eqn:Eq; cbn.
    + assert (Eq' : (q <? 0) = false) by (apply Z.ltb_lt in Eq; apply Z.ltb_ge; lia).
      rewrite ?Eq'. cbn.
      destruct (0 <? fee); cbn; destruct (isRouted pf); cbn;
        try destruct (w_lastValue_after w); cbn;
        rewrite ?requested_app, ?Hp; cbn; rewrite ?app_nil_r; auto.
    + destruct (q <? 0) eqn:Eq2; cbn.
      * destruct (web3_max_reverts env <=? reverts pf + 1); cbn;
          destruct (0 <? fee); cbn; destruct (isRouted pf); cbn;
          try destruct (w_lastValue_after w); cbn;
          rewrite ?requested_app, ?Hp; cbn; rewrite ?app_nil_r; auto.
      * destruct (0 <? fee); cbn; destruct (isRouted pf); cbn;
          try destruct (w_lastValue_after w); cbn;
          rewrite ?requested_app, ?Hp; cbn; rewrite ?app_nil_r; auto.
Qed.

(** *** The loop body as a whole *)

(** What one pass over a feed does to its counters and telemetry: the
    route check keeps or resets them; after it, either nothing else
    touches them, or the feed was enabled and one result was booked. *)
Lemma run_feed_effect env w pf :
  exists pf1 : @Feed F,
    (flags pf1 = flags pf \/ flags pf1 = flags_reset) /\
    ((flags (fst (run_feed env w pf)) = flags pf1 /\
      requested (snd (run_feed env w pf)) = []) \/
     (auto_disabled pf1 = false /\
      exists (result : result) (why : reason),
        flags (fst (run_feed env w pf))
        = booked_flags env result (w_now w - lastTimestamp pf1) pf1 /\
        requested (snd (run_feed env w pf)) = [why])).
Proof.
  remember (run_feed env w pf) as r eqn:Er.
  unfold run_feed, poll_feed in Er. unfold bind at 1 in Er.
  pose proof (detect_route_change_effect env w (pf, [])) as D. cbn zeta in D.
  destruct (detect_route_change w (pf, [])) as [[pf1 tr1] o1].
  cbn [fst snd] in D. destruct D as (Dr & _ & Df & Do).
  cbn [requested] in Dr.
  exists pf1. split; [exact Df|].
  assert (Rexn : requested (tr1 ++ [EvException]) = []).
  { rewrite requested_app, Dr. reflexivity. }
  destruct o1 as [a| |]; [|contradiction|left; subst r; cbn [fst snd]; now split].
  mstep.
  destruct (a =? ZERO_ADDRESS)%string; mstep; [left; subst r; now split|].
  destruct (auto_disabled pf1) eqn:Ead; mstep.
  { left. subst r. cbn [fst snd]. split; [reflexivity|].
    rewrite requested_app, Dr. reflexivity. }
  destruct (w_lastValue w) as [lv|]; mstep; [|left; subst r; now split].
  destruct (pendingUpdate pf1).
  - pose proof (await_update_effect w lv (w_now w - lastTimestamp pf1) (pf1, tr1)) as A.
    cbn zeta in A.
    destruct (await_update w lv (w_now w - lastTimestamp pf1) (pf1, tr1)) as [[pf2 tr2] o2].
    cbn [fst snd] in A. destruct A as [Af Ar]. left.
    destruct o2; subst r; cbn [fst snd]; rewrite ?requested_app, Ar, Dr; now split.
  - unfold idle in Er. mstep.
    destruct (cooldown pf1 - total_finalization_secs env <=? w_now w - lastTimestamp pf1).
    + pose proof (check_triggers_effect env w (w_now w - lastTimestamp pf1) (pf1, tr1)) as C.
      cbn zeta in C.
      destruct (check_triggers env w (w_now w - lastTimestamp pf1) (pf1, tr1))
        as [[pf2 tr2] o2].
      cbn [fst snd] in C.
      destruct o2 as [why| |].
      * injection C as -> ->. right. split; [reflexivity|].
        pose proof (request_update_effect env w (w_now w - lastTimestamp pf1) why pf1 tr1) as Q.
        cbn zeta in Q. destruct Q as (Qf & Qr & _).
        rewrite Dr in Qr. cbn [app] in Qr.
        eexists; exists why.
        destruct (request_update env w (w_now w - lastTimestamp pf1) why (pf1, tr1))
          as [[pf3 tr3] o3].
        cbn [fst snd] in Qf, Qr.
        destruct o3; subst r; cbn [fst snd]; rewrite ?requested_app, Qr;
          cbn [requested app]; (split; [exact Qf | reflexivity]).
      * left. destruct C as [Cf Cr]. subst r. cbn [fst snd]. rewrite Cr, Dr. now split.
      * left. destruct C as [Cf Cr]. subst r. cbn [fst snd].
        rewrite requested_app, Cr, Dr. now split.
    + destruct (0 <? cooldown pf1 - (w_now w - lastTimestamp pf1)
                     - total_finalization_secs env); mstep; left; subst r;
        cbn [fst snd]; rewrite ?requested_app, Dr; now split.
Qed.

(** ** Bounded histories *)

Lemma append_bounded_below (bound x : Z) (l : list Z) :
  len l < bound -> append_bounded bound x l = l ++ [x].
Proof.
  intros L. unfold append_bounded. rewrite len_app.
  change (len [x]) with 1.
  destruct (bound <? len l + 1) eqn:E; [apply Z.ltb_lt in E; lia | reflexivity].
Qed.

Lemma append_bounded_full (bound x : Z) (l : list Z) :
  0 < bound -> len l = bound -> append_bounded bound x l = tl l ++ [x].
Proof.
  intros P L. unfold append_bounded. rewrite len_app.
  change (len [x]) with 1.
  destruct (bound <? len l + 1) eqn:E; [|apply Z.ltb_ge in E; lia].
  destruct l as [|y l]; [unfold len in L; cbn in L; lia | reflexivity].
Qed.

Lemma append_bounded_len (bound x : Z) (l : list Z) :
  0 < bound -> len l <= bound -> len (append_bounded bound x l) <= bound.
Proof.
  intros P L.
  destruct (Z.eq_dec (len l) bound) as [E|E].
  - rewrite (append_bounded_full x l P E). rewrite len_app.
    change (len [x]) with 1.
    destruct l as [|y l]; [unfold len in E; cbn in E; lia|].
    unfold len in *. cbn [tl List.length] in *. lia.
  - rewrite append_bounded_below by lia. rewrite len_app.
    change (len [x]) with 1. lia.
Qed.

Lemma booked_flags_bounded env (result : result) (e : Z) pf :
  history_bounded pf ->
  len (fst (fst (fst (fst (booked_flags env result e pf))))) <= 16 /\
  len (snd (fst (fst (fst (booked_flags env result e pf))))) <= 256.
Proof.
  intros [Bf Bs]. unfold booked_flags. cbn [fst snd].
  destruct result as [q|q tx|q tx fee]; [now split | now split |].
  split.
  - destruct (0 <? fee); [apply append_bounded_len; lia | exact Bf].
  - apply append_bounded_len; lia.
Qed.

Lemma flags_bounded pf pf' :
  flags pf' = flags pf -> history_bounded pf -> history_bounded pf'.
Proof.
  unfold flags, history_bounded. intros E. injection E as -> -> _ _ _. auto.
Qed.

Lemma run_feed_bounded env w pf :
  history_bounded pf -> history_bounded (fst (run_feed env w pf)).
Proof.
  intros B. destruct (run_feed_effect env w pf) as (pf1 & R & T).
  assert (B1 : history_bounded pf1).
  { destruct R as [R|R]; [exact (flags_bounded R B)|].
    unfold flags, flags_reset in R. injection R as Rf Rs _ _ _.
    unfold history_bounded. rewrite Rf, Rs. unfold len. cbn. lia. }
  destruct T as [[T _]|(_ & result & why & T & _)];
    [exact (flags_bounded T B1)|].
  pose proof (booked_flags_bounded env result (w_now w - lastTimestamp pf1) B1) as BB.
  rewrite <- T in BB. exact BB.
Qed.

Lemma poll_ticks_bounded env (ws : list (@world F)) pf :
  history_bounded pf -> history_bounded (poll_ticks env ws pf).
Proof.
  revert pf. induction ws as [|w ws IH]; intros pf B; cbn [poll_ticks];
    [exact B|].
  apply IH. now apply run_feed_bounded.
Qed.

Lemma run_feed_history_ops env w pf :
  history_op 16 (fees pf) (fees (fst (run_feed env w pf))) /\
  history_op 256 (secs pf) (secs (fst (run_feed env w pf))).
Proof.
  destruct (run_feed_effect env w pf) as (pf1 & R & T).
  assert (T' : (fees (fst (run_feed env w pf)) = fees pf1 \/
                exists x, fees (fst (run_feed env w pf)) = append_bounded 16 x (fees pf1)) /\
               (secs (fst (run_feed env w pf)) = secs pf1 \/
                exists x, secs (fst (run_feed env w pf)) = append_bounded 256 x (secs pf1))).
  { destruct T as [[T _]|(_ & result & why & T & _)].
    - unfold flags in T. injection T as -> -> _ _ _. auto.
    - unfold flags, booked_flags in T. injection T as Tf Ts _ _ _.
      rewrite Tf, Ts.
      destruct result as [q|q tx|q tx fee]; auto.
      split; [|eauto]. destruct (0 <? fee); eauto. }
  destruct T' as [Tf Ts].
  destruct R as [R|R]; unfold flags, flags_reset in R; injection R as Rf Rs _ _ _;
    rewrite Rf in Tf; rewrite Rs in Ts; split.
  - destruct Tf as [->|[x ->]]; constructor.
  - destruct Ts as [->|[x ->]]; constructor.
  - destruct Tf as [->|[x ->]]; constructor.
  - destruct Ts as [->|[x ->]]; constructor.
Qed.

(** C8.  From start-up on, after any number of passes of the loop body,
    the fee history holds at most 16 entries and the latency history at
    most 256; a pass changes a history only by clearing it or by appending
    one entry and trimming; and appending to a full history drops exactly
    its oldest entry. *)
Theorem histories_bounded_fifo :
  (forall env (ws : list (@world F)) erc2362id caption addr cooldown deviation
          heartbeat routed lastPrice lastTimestamp latestQueryId pending witnet,
      history_bounded
        (poll_ticks env ws
           (new_feed erc2362id caption addr cooldown deviation heartbeat routed
                     lastPrice lastTimestamp latestQueryId pending witnet))) /\
  (forall env w pf,
      history_bounded pf ->
      history_bounded (fst (run_feed env w pf)) /\
      history_op 16 (fees pf) (fees (fst (run_feed env w pf))) /\
      history_op 256 (secs pf) (secs (fst (run_feed env w pf)))) /\
  (forall (x : Z) (l : list Z),
      len l = 16 -> append_bounded 16 x l = tl l ++ [x]) /\
  (forall (x : Z) (l : list Z),
      len l = 256 -> append_bounded 256 x l = tl l ++ [x]) /\
  (forall (bound x : Z) (l : list Z),
      len l < bound -> append_bounded bound x l = l ++ [x]).
Proof.
  split; [|split; [|split; [|split]]].
  - intros. apply poll_ticks_bounded.
    unfold history_bounded, new_feed, len; cbn; lia.
  - intros env w pf B. split; [now apply run_feed_bounded|].
    apply run_feed_history_ops.
  - intros x l L. apply append_bounded_full; [lia | exact L].
  - intros x l L. apply append_bounded_full; [lia | exact L].
  - intros bound x l L. now apply append_bounded_below.
Qed.

(** ** A pass with no route change *)

Lemma poll_feed_steady env w pf (lv : last_value) tr :
  steady w pf lv ->
  poll_feed env w (pf, tr) =
  (if pendingUpdate pf
   then await_update w lv (elapsed w pf)
   else idle env w (elapsed w pf)) (pf, tr).
Proof.
  intros (Hg & Hz & Hd & Hl).
  unfold poll_feed, detect_route_change, elapsed. rewrite Hg. mstep.
  rewrite String.eqb_refl. mstep.
  apply String.eqb_neq in Hz. rewrite Hz. mstep.
  rewrite Hd, Hl. reflexivity.
Qed.

Lemma run_feed_idle env w pf (lv : last_value) :
  steady w pf lv -> pendingUpdate pf = false ->
  run_feed env w pf =
  if cooldown pf - total_finalization_secs env <=? elapsed w pf
  then
    match check_triggers env w (elapsed w pf) (pf, []) with
    | (_, Ret why) => close_pass (request_update env w (elapsed w pf) why (pf, []))
    | (s, Next) => s
    | (s, Exn) => (fst s, snd s ++ [EvException])
    end
  else
    (pf, if 0 <? cooldown pf - elapsed w pf - total_finalization_secs env
         then [EvResting (cooldown pf - elapsed w pf - total_finalization_secs env)]
         else []).
Proof.
  intros St Hp. unfold run_feed. rewrite (poll_feed_steady env [] St), Hp.
  unfold idle. mstep.
  destruct (cooldown pf - total_finalization_secs env <=? elapsed w pf).
  - pose proof (check_triggers_effect env w (elapsed w pf) (pf, [])) as C.
    cbn zeta in C.
    destruct (check_triggers env w (elapsed w pf) (pf, [])) as [s2 o2].
    cbn [fst snd] in C.
    destruct o2 as [why| |]; [subst s2| |]; reflexivity.
  - destruct (0 <? cooldown pf - elapsed w pf - total_finalization_secs env);
      reflexivity.
Qed.

Lemma requested_close_pass (r : @st F * outcome unit) :
  requested (snd (close_pass r)) = requested (snd (fst r)).
Proof.
  destruct r as [[pf tr] [[]| |]]; cbn [close_pass fst snd]; try reflexivity.
  rewrite requested_app. cbn. now rewrite app_nil_r.
Qed.

Lemma fst_close_pass (r : @st F * outcome unit) :
  fst (close_pass r) = fst (fst r).
Proof. destruct r as [[pf tr] [[]| |]]; reflexivity. Qed.

(** The trigger that fires in such a pass is the one [check_triggers]
    returns once the cooldown gate is passed. *)
Lemma trigger_fired_idle env w pf (lv : last_value) :
  steady w pf lv -> pendingUpdate pf = false ->
  trigger_fired env w pf =
  if cooldown pf - total_finalization_secs env <=? elapsed w pf
  then match snd (check_triggers env w (elapsed w pf) (pf, [])) with
       | Ret why => Some why
       | _ => None
       end
  else None.
Proof.
  intros St Hp. unfold trigger_fired. rewrite (run_feed_idle env St Hp).
  destruct (cooldown pf - total_finalization_secs env <=? elapsed w pf).
  - pose proof (check_triggers_effect env w (elapsed w pf) (pf, [])) as C.
    cbn zeta in C.
    destruct (check_triggers env w (elapsed w pf) (pf, [])) as [s2 o2].
    cbn [fst snd] in C |- *.
    destruct o2 as [why| |].
    + rewrite requested_close_pass.
      destruct (request_update_effect env w (elapsed w pf) why pf []) as (_ & Q & _).
      rewrite Q. reflexivity.
    + destruct C as [_ C]. rewrite C. reflexivity.
    + destruct C as [_ C]. cbn [snd]. rewrite requested_app, C. reflexivity.
  - destruct (0 <? cooldown pf - elapsed w pf - total_finalization_secs env);
      reflexivity.
Qed.

(** When a trigger fired, the pass ends with the result of the request
    booked on the feed as it stood. *)
Lemma run_feed_requested env w pf (lv : last_value) (why : reason) :
  steady w pf lv -> pendingUpdate pf = false ->
  trigger_fired env w pf = Some why ->
  run_feed env w pf = close_pass (request_update env w (elapsed w pf) why (pf, [])).
Proof.
  intros St Hp Hf. rewrite (trigger_fired_idle env St Hp) in Hf.
  rewrite (run_feed_idle env St Hp).
  destruct (cooldown pf - total_finalization_secs env <=? elapsed w pf);
    [|discriminate].
  destruct (check_triggers env w (elapsed w pf) (pf, [])) as [s2 o2].
  cbn [snd] in Hf. destruct o2; [|discriminate|discriminate].
  now injection Hf as ->.
Qed.

(** ** Triggers *)

(** C3.  For a feed with a heartbeat and no update pending, on a pass with
    no route change that is past the cooldown gate, the heartbeat trigger
    fires exactly when the elapsed seconds reach the heartbeat, less the
    finalization budget unless the feed is routed. *)
Theorem heartbeat_trigger env w pf (lv : last_value) :
  steady w pf lv ->
  pendingUpdate pf = false ->
  0 < heartbeat pf ->
  cooldown pf - total_finalization_secs env <= elapsed w pf ->
  (trigger_fired env w pf = Some Heartbeat <->
   heartbeat pf - (if isRouted pf then 0 else total_finalization_secs env)
   <= elapsed w pf).
Proof.
  intros St Hp Hh Hc. rewrite (trigger_fired_idle env St Hp).
  apply Z.leb_le in Hc. rewrite Hc.
  unfold check_triggers. mstep.
  destruct (heartbeat pf =? 0) eqn:E0; [apply Z.eqb_eq in E0; lia|].
  destruct (heartbeat pf - (if isRouted pf then 0 else total_finalization_secs env)
            <=? elapsed w pf) eqn:Eh.
  - apply Z.leb_le in Eh. cbn [snd]. split; [intros _; exact Eh | reflexivity].
  - apply Z.leb_gt in Eh.
    split; [|lia]. intros Hf. exfalso.
    destruct (negb (isRouted pf) && fltb (of_int 0) (deviation pf) && (0 <? lastPrice pf)).
    + destruct (w_dry_run w) as [next_price|]; mstep; [|discriminate].
      destruct (fltb (fabs (deviation_pct next_price (lastPrice pf))) (deviation pf));
        mstep; discriminate.
    + destruct (isRouted pf); mstep.
      * destruct (w_pendingUpdate w) as [[|]|]; mstep; discriminate.
      * discriminate.
Qed.

(** The deviation branch of [check_triggers], over any implementation of
    the float operations: past the cooldown gate and short of the
    heartbeat condition the request is made unless the absolute rounded
    deviation is below the threshold; a failed dry run ends the pass. *)
Lemma deviation_decision env w pf (lv : last_value) :
  steady w pf lv ->
  pendingUpdate pf = false ->
  isRouted pf = false ->
  fltb (of_int 0) (deviation pf) = true ->
  0 < lastPrice pf ->
  cooldown pf - total_finalization_secs env <= elapsed w pf ->
  heartbeat pf <> 0 ->
  elapsed w pf < heartbeat pf - total_finalization_secs env ->
  (forall next_price : Z,
      w_dry_run w = Some next_price ->
      fcmp (fabs (deviation_pct next_price (lastPrice pf))) (deviation pf)
      <> FNotComparable ->
      (trigger_fired env w pf = Some Deviation <->
       fgeb (fabs (deviation_pct next_price (lastPrice pf))) (deviation pf) = true)) /\
  (w_dry_run w = None ->
   trigger_fired env w pf = None /\
   run_feed env w pf = (pf, [EvDryRunFailed])).
Proof.
  intros St Hp Hr Hd Hl Hc Hh0 Hh.
  apply Z.leb_le in Hc. apply Z.eqb_neq in Hh0. apply Z.ltb_lt in Hl.
  assert (Eh : (heartbeat pf - (if isRouted pf then 0 else total_finalization_secs env)
                <=? elapsed w pf) = false).
  { rewrite Hr. apply Z.leb_gt. exact Hh. }
  split.
  - intros next_price Hn Hcmp. rewrite (trigger_fired_idle env St Hp), Hc.
    unfold check_triggers. mstep. rewrite Hh0, Eh, Hr, Hd, Hl, Hn. cbn [negb andb].
    unfold fltb, fgeb in *.
    destruct (fcmp (fabs (deviation_pct next_price (lastPrice pf))) (deviation pf));
      mstep; split; congruence.
  - intros Hn. split.
    + rewrite (trigger_fired_idle env St Hp), Hc.
      unfold check_triggers. mstep. rewrite Hh0, Eh, Hr, Hd, Hl, Hn. reflexivity.
    + rewrite (run_feed_idle env St Hp), Hc.
      unfold check_triggers. mstep. rewrite Hh0, Eh, Hr, Hd, Hl, Hn. reflexivity.
Qed.

(** ** Booking the result of a request *)

Lemma handle_requestUpdate_receipt (l : Z) (gp : option Z) (sub : submission)
    (tx : string) (status : bool) (logs : list Z) (fee : Z) :
  send_requestUpdate gp sub = inr (tx, status, logs, fee) ->
  fst (@handle_requestUpdate F l gp sub) =
  if negb status then Result2 (-1) tx
  else match logs with
       | q :: _ => Result3 q tx fee
       | [] => Result3 l tx fee
       end.
Proof.
  intros E. unfold handle_requestUpdate. rewrite E.
  destruct status; cbn [negb]; [|reflexivity].
  destruct logs; reflexivity.
Qed.

(** The feed after a pass in which a trigger fired. *)
Lemma run_feed_booked env w pf (lv : last_value) (why : reason) :
  steady w pf lv -> pendingUpdate pf = false ->
  trigger_fired env w pf = Some why ->
  let result := fst (@handle_requestUpdate F (latestRequestId pf)
                       (web3_gas_price env) (w_submit w)) in
  flags (fst (run_feed env w pf)) = booked_flags env result (elapsed w pf) pf /\
  pendingUpdate (fst (run_feed env w pf)) = (0 <? result_0 result) /\
  latestRequestId (fst (run_feed env w pf)) =
    (if 0 <? result_0 result then result_0 result else latestRequestId pf).
Proof.
  intros St Hp Hf. cbn zeta.
  rewrite (run_feed_requested env St Hp Hf), fst_close_pass.
  destruct (request_update_effect env w (elapsed w pf) why pf []) as (Qf & _ & Qp & Ql).
  rewrite Qf, Qp, Ql, Hp. repeat split.
  destruct (0 <? result_0 _); reflexivity.
Qed.

(** C1, as the code has it.  On a pass in which a request was sent and its
    receipt reports success: a first event with a positive request id
    puts the feed in the awaiting state on that id; a first event with
    request id [0] leaves it idle; with no event the feed stays idle when
    its previous request id is not positive, and otherwise goes to the
    awaiting state on that previous id. *)
Theorem receipt_success_pending env w pf (lv : last_value) (why : reason)
    (tx : string) (logs : list Z) (fee : Z) :
  steady w pf lv ->
  pendingUpdate pf = false ->
  trigger_fired env w pf = Some why ->
  send_requestUpdate (web3_gas_price env) (w_submit w) = inr (tx, true, logs, fee) ->
  (forall q rest, logs = q :: rest -> 0 < q ->
     pendingUpdate (fst (run_feed env w pf)) = true /\
     latestRequestId (fst (run_feed env w pf)) = q) /\
  (forall q rest, logs = q :: rest -> q = 0 ->
     pendingUpdate (fst (run_feed env w pf)) = false /\
     latestRequestId (fst (run_feed env w pf)) = latestRequestId pf) /\
  (logs = [] -> latestRequestId pf <= 0 ->
     pendingUpdate (fst (run_feed env w pf)) = false /\
     latestRequestId (fst (run_feed env w pf)) = latestRequestId pf) /\
  (logs = [] -> 0 < latestRequestId pf ->
     pendingUpdate (fst (run_feed env w pf)) = true /\
     latestRequestId (fst (run_feed env w pf)) = latestRequestId pf).
Proof.
  intros St Hp Hf Hs.
  destruct (run_feed_booked env St Hp Hf) as (_ & Bp & Bl).
  rewrite (handle_requestUpdate_receipt (latestRequestId pf) _ _ Hs) in Bp, Bl.
  cbn [negb] in Bp, Bl. rewrite Bp, Bl.
  clear Bp Bl.
  repeat split; intros; subst; cbn [result_0];
    match goal with
    | |- context [0 <? ?x] =>
        destruct (0 <? x) eqn:E;
        [apply Z.ltb_lt in E | apply Z.ltb_ge in E];
        first [reflexivity | exfalso; lia]
    end.
Qed.

(** ** Reverts and auto-disabling *)

Lemma run_feed_disabled_inv env w pf :
  disabled_inv env pf -> disabled_inv env (fst (run_feed env w pf)).
Proof.
  intros I. destruct (run_feed_effect env w pf) as (pf1 & R & T).
  assert (I1 : disabled_inv env pf1).
  { unfold disabled_inv, flags, flags_reset in *.
    destruct R as [R|R]; injection R as _ _ Ra Rr _; rewrite Ra, Rr;
      [exact I | discriminate]. }
  unfold disabled_inv, flags, booked_flags in *.
  destruct T as [[T _]|(Hd & result & why & T & _)]; injection T as _ _ Ta Tr _;
    rewrite Ta, Tr; [exact I1|].
  rewrite Hd.
  destruct (0 <? result_0 result) eqn:Ep; destruct (result_0 result <? 0) eqn:En;
    try discriminate.
  - apply Z.ltb_lt in Ep, En. lia.
  - rewrite orb_false_r. intros E. now apply Z.leb_le in E.
Qed.






(** ** Resolution of a pending update *)

(** C5, as the code has it.  On a pass with no route change over a feed
    that awaits an update: a success status with a reported timestamp
    after the tracked one clears the pending flag, takes the reported
    price and timestamp and narrates the seconds between the two
    timestamps; the error status clears the pending flag and nothing
    else; any other value leaves the feed as it is.  In no case is an
    entry added to the fee or latency history. *)
Theorem resolution_transitions env w pf (lv : last_value) :
  steady w pf lv ->
  pendingUpdate pf = true ->
  (lv_status lv = 200 -> lastTimestamp pf < lv_timestamp lv ->
   run_feed env w pf =
   (set_lastTimestamp (lv_timestamp lv)
      (set_lastPrice (lv_price lv) (set_pendingUpdate false pf)),
    [EvPriceUpdated (lv_price lv) (lv_timestamp lv - lastTimestamp pf)])) /\
  (lv_status lv = 400 ->
   fst (run_feed env w pf) = set_pendingUpdate false pf) /\
  (lv_status lv <> 400 ->
   ~ (lv_status lv = 200 /\ lastTimestamp pf < lv_timestamp lv) ->
   run_feed env w pf = (pf, [EvAwaitsResponse (latestRequestId pf)])) /\
  fees (fst (run_feed env w pf)) = fees pf /\
  secs (fst (run_feed env w pf)) = secs pf.
Proof.
  intros St Hp. unfold run_feed.
  rewrite (poll_feed_steady env [] St), Hp. unfold await_update. mstep.
  split; [|split; [|split]].
  - intros E200 Ets. apply Z.eqb_eq in E200. apply Z.ltb_lt in Ets.
    rewrite E200, Ets. reflexivity.
  - intros E400. rewrite E400. cbn.
    destruct (w_latestUpdate w); reflexivity.
  - intros N400 N200. apply Z.eqb_neq in N400. rewrite N400.
    destruct ((lv_status lv =? 200) && (lastTimestamp pf <? lv_timestamp lv)) eqn:E;
      [|reflexivity].
    apply andb_prop in E. destruct E as [E1 E2].
    apply Z.eqb_eq in E1. apply Z.ltb_lt in E2. tauto.
  - destruct ((lv_status lv =? 200) && (lastTimestamp pf <? lv_timestamp lv));
      [now split|].
    destruct (lv_status lv =? 400); [|now split].
    cbn. destruct (w_latestUpdate w); now split.
Qed.

(** ** A funding account with no balance *)

Lemma handle_requestUpdate_no_funds (l : Z) (gp : option Z) (sub : submission) :
  s_balance sub = Some 0 ->
  fst (@handle_requestUpdate F l gp sub) = Result1 0 /\
  (s_info sub = Some tt ->
   @handle_requestUpdate F l gp sub = (Result1 0, [EvTxRejected out_of_funds])).
Proof.
  intros Hb. unfold handle_requestUpdate, send_requestUpdate. rewrite Hb.
  destruct (s_info sub) as [[]|]; cbn; split; try reflexivity; discriminate.
Qed.

(** C7, as the code has it.  A balance of [0] at submission time makes
    [handle_requestUpdate] return the one-element list [[0]], as for any
    rejected transaction; the pass that asked for the request leaves the
    feed as it was and narrates the rejection; and the loop goes on with
    the remaining feeds and with the next iteration. *)
Theorem zero_balance_is_rejected :
  (forall (l : Z) (gp : option Z) (sub : submission),
      s_balance sub = Some 0 ->
      fst (@handle_requestUpdate F l gp sub) = Result1 0) /\
  (forall env w pf (lv : last_value) (why : reason),
      steady w pf lv -> pendingUpdate pf = false ->
      trigger_fired env w pf = Some why ->
      s_info (w_submit w) = Some tt ->
      s_balance (w_submit w) = Some 0 ->
      run_feed env w pf =
      (pf, [EvRequesting (elapsed w pf) why; EvTxRejected out_of_funds])) /\
  (forall env (ws : nat -> @world F) (i : nat) pf pfs,
      for_each_feed env ws i (pf :: pfs) =
      (fst (run_feed env (ws i) pf) :: fst (for_each_feed env ws (S i) pfs),
       snd (run_feed env (ws i) pf) ++ snd (for_each_feed env ws (S i) pfs))) /\
  (forall env (worlds : nat -> nat -> @world F) (t n : nat) pfs,
      log_loop env worlds t (S n) pfs =
      (fst (log_loop env worlds (S t) n (fst (for_each_feed env (worlds t) 0 pfs))),
       snd (for_each_feed env (worlds t) 0 pfs)
       ++ snd (log_loop env worlds (S t) n (fst (for_each_feed env (worlds t) 0 pfs))))).
Proof.
  split; [|split; [|split]].
  - intros l gp sub Hb. now apply handle_requestUpdate_no_funds.
  - intros env w pf lv why St Hp Hf Hi Hb.
    rewrite (run_feed_requested env St Hp Hf).
    unfold request_update. mstep.
    destruct (handle_requestUpdate_no_funds (latestRequestId pf)
                (web3_gas_price env) (w_submit w) Hb) as [_ Hh].
    rewrite (Hh Hi). rewrite emit_all_run. reflexivity.
  - intros env ws i pf pfs. cbn [for_each_feed].
    destruct (run_feed env (ws i) pf), (for_each_feed env ws (S i) pfs). reflexivity.
  - intros env worlds t n pfs. cbn [log_loop].
    destruct (for_each_feed env (worlds t) 0 pfs) as [pfs' printed]. cbn [fst snd].
    destruct (log_loop env worlds (S t) n pfs'). reflexivity.
Qed.

(** ** Route changes *)

Lemma refresh_attempt_complete (cfg : @policy F) (rd : chain_reads) pf tr :
  complete_reads cfg rd = true ->
  exists pf', refresh_attempt (Some cfg) rd (pf, tr) = ((pf', tr), Ret tt) /\
              reseeded cfg rd (contract pf) (witnet pf) pf'.
Proof.
  unfold complete_reads, refresh_attempt, reseeded. intros C.
  repeat (apply andb_prop in C; destruct C as [C ?]).
  destruct (rd_lastPrice rd) as [p|]; [|discriminate].
  destruct (rd_lastTimestamp rd) as [t|]; [|discriminate].
  destruct (rd_latestQueryId rd) as [q|]; [|discriminate].
  destruct (rd_pendingUpdate rd) as [b|]; [|discriminate].
  mrun.
  destruct (cfg_isRouted cfg); cbn in *.
  - eexists. split; [reflexivity|]. cbn. repeat split; reflexivity.
  - destruct (rd_witnet rd) as [a|]; [|discriminate]. cbn.
    eexists. split; [reflexivity|]. cbn. repeat split; reflexivity.
Qed.

Lemma refresh_attempt_incomplete (cfg : @policy F) (rd : chain_reads) pf tr :
  complete_reads cfg rd = false ->
  exists pf', refresh_attempt (Some cfg) rd (pf, tr) = ((pf', tr), Exn) /\
              contract pf' = contract pf /\
              (cfg_isRouted cfg = true -> witnet pf' = witnet pf).
Proof.
  unfold complete_reads, refresh_attempt. intros C. mrun.
  destruct (cfg_isRouted cfg); cbn in *;
    repeat match goal with
      | |- context [match ?o with Some _ => _ | None => _ end] =>
          destruct o; cbn in *
      end;
    try discriminate;
    (eexists; split; [reflexivity|]; cbn; split; [reflexivity|]; congruence).
Qed.

Lemma refresh_loop_succeeds (cfg : @policy F) (reads : nat -> chain_reads)
    (k attempt remaining : nat) pf tr :
  (k < remaining)%nat -> (attempt + k < 5)%nat ->
  (forall j, (j < k)%nat -> complete_reads cfg (reads (attempt + j)%nat) = false) ->
  complete_reads cfg (reads (attempt + k)%nat) = true ->
  exists pf' tr',
    refresh_loop (Some cfg) reads attempt remaining (pf, tr) = ((pf', tr'), Ret tt) /\
    (exists ow, reseeded cfg (reads (attempt + k)%nat) (contract pf) ow pf' /\
                (cfg_isRouted cfg = true -> ow = witnet pf)).
Proof.
  revert attempt remaining pf tr.
  induction k as [|k IH]; intros attempt remaining pf tr Hr H5 Hfail Hok.
  - destruct remaining as [|remaining]; [lia|].
    rewrite Nat.add_0_r in Hok.
    destruct (@refresh_attempt_complete cfg (reads attempt) pf tr Hok) as (pf' & E & R).
    exists pf', tr. split.
    + rewrite refresh_loop_S. unfold try_except. now rewrite E.
    + exists (witnet pf). rewrite Nat.add_0_r. now split.
  - destruct remaining as [|remaining]; [lia|].
    pose proof (Hfail O ltac:(lia)) as H0. rewrite Nat.add_0_r in H0.
    destruct (@refresh_attempt_incomplete cfg (reads attempt) pf tr H0) as (pf1 & E & Kc & Kw).
    assert (E4 : (attempt <? 4)%nat = true) by (apply Nat.ltb_lt; lia).
    destruct (IH (S attempt) remaining pf1
                (tr ++ [EvRefreshRetry (Z.of_nat attempt)]))
      as (pf' & tr' & E' & ow & R & Rw).
    + lia.
    + lia.
    + intros j Hj. replace (S attempt + j)%nat with (attempt + S j)%nat by lia.
      apply Hfail. lia.
    + replace (S attempt + k)%nat with (attempt + S k)%nat by lia. exact Hok.
    + exists pf', tr'. split.
      * rewrite refresh_loop_S. unfold try_except. rewrite E, E4.
        unfold bind, emit. cbn [fst snd]. exact E'.
      * exists ow. replace (attempt + S k)%nat with (S attempt + k)%nat by lia.
        rewrite <- Kc. split; [exact R|]. intros Hc. rewrite (Rw Hc). now apply Kw.
Qed.

(** C6, as the code has it.  When the router answers a new address that is
    not the zero address, the configuration has the feed and one of the
    five attempts reads the contract in full, the route check ends with
    the feed at the new address, its policy taken from the configuration,
    its last price, last timestamp and pending flag (and, unless the
    configuration routes it, its Witnet address) taken from that attempt's
    reads, both histories empty, the revert counter at [0], the disabled
    flag off and the last reverted transaction blank. *)
Theorem route_change_reseeds w pf tr (a : address) (cfg : @policy F) (k : nat) :
  w_getPriceFeed w = Some a ->
  a <> contract pf ->
  a <> ZERO_ADDRESS ->
  w_load_config w = Some (Some cfg) ->
  (k < 5)%nat ->
  (forall j, (j < k)%nat -> complete_reads cfg (w_refresh w j) = false) ->
  complete_reads cfg (w_refresh w k) = true ->
  exists pf' tr',
    detect_route_change w (pf, tr) = ((pf', tr'), Ret a) /\
    reseeded cfg (w_refresh w k) a (witnet pf) pf'.
Proof.
  intros Hg Hn Hz Hl Hk Hfail Hok.
  destruct (@refresh_loop_succeeds cfg (w_refresh w) k 0 5 (set_contract a pf)
              (tr ++ [EvRouteChanged (contract pf) a])
              ltac:(lia) ltac:(lia) Hfail Hok)
    as (pf' & tr' & E & ow & R & Rw).
  exists pf', tr'. split.
  - unfold detect_route_change. rewrite Hg, Hl. mstep.
    assert (Ec : (contract pf =? a)%string = false).
    { apply String.eqb_neq. congruence. }
    apply String.eqb_neq in Hz. rewrite Ec, Hz. mstep.
    change (0 + k)%nat with k in *. rewrite E. reflexivity.
  - cbn [Nat.add] in R. unfold reseeded in *. cbn [contract set_contract] in R.
    destruct (cfg_isRouted cfg) eqn:Er.
    + rewrite (Rw eq_refl) in R. exact R.
    + exact R.
Qed.

(** C10.  When the router answers the zero address for a feed tracked at
    another address (and the configuration file loads), the pass moves the
    tracked contract to the zero address and changes no other field: the
    revert counter, the disabled flag, the last reverted transaction, the
    pending flag, the last price and timestamp, the latest request id,
    the policy, the Witnet address and both histories stay as they were.
    Every later pass on which the router still answers the zero address
    leaves the feed untouched and narrates nothing. *)
Theorem zero_route_freezes_feed env w pf (cfg : option (@policy F)) :
  w_getPriceFeed w = Some ZERO_ADDRESS ->
  contract pf <> ZERO_ADDRESS ->
  w_load_config w = Some cfg ->
  run_feed env w pf =
    (set_contract ZERO_ADDRESS pf, [EvRouteChanged (contract pf) ZERO_ADDRESS]) /\
  (let pf' := fst (run_feed env w pf) in
   contract pf' = ZERO_ADDRESS /\
   reverts pf' = reverts pf /\ auto_disabled pf' = auto_disabled pf /\
   lastRevertedTx pf' = lastRevertedTx pf /\
   pendingUpdate pf' = pendingUpdate pf /\
   lastPrice pf' = lastPrice pf /\ lastTimestamp pf' = lastTimestamp pf /\
   latestRequestId pf' = latestRequestId pf /\
   cooldown pf' = cooldown pf /\ deviation pf' = deviation pf /\
   heartbeat pf' = heartbeat pf /\ isRouted pf' = isRouted pf /\
   witnet pf' = witnet pf /\ fees pf' = fees pf /\ secs pf' = secs pf) /\
  (forall ws : list (@world F),
      Forall (fun w' => w_getPriceFeed w' = Some ZERO_ADDRESS) ws ->
      poll_ticks env ws (fst (run_feed env w pf)) = fst (run_feed env w pf) /\
      Forall (fun w' => snd (run_feed env w' (fst (run_feed env w pf))) = []) ws).
Proof.
  intros Hg Hn Hl.
  assert (E : run_feed env w pf =
              (set_contract ZERO_ADDRESS pf, [EvRouteChanged (contract pf) ZERO_ADDRESS])).
  { unfold run_feed, poll_feed, detect_route_change. rewrite Hg, Hl. mstep.
    apply String.eqb_neq in Hn. rewrite Hn. mstep. reflexivity. }
  assert (Q : forall w', w_getPriceFeed w' = Some ZERO_ADDRESS ->
                         run_feed env w' (set_contract ZERO_ADDRESS pf)
                         = (set_contract ZERO_ADDRESS pf, [])).
  { intros w' Hg'. unfold run_feed, poll_feed, detect_route_change.
    rewrite Hg'. mstep. cbn [contract set_contract]. reflexivity. }
  rewrite E. cbn [fst]. split; [reflexivity|]. split.
  - cbn. repeat split; reflexivity.
  - intros ws Hall. induction Hall as [|w' ws Hw' _ [IH1 IH2]]; cbn [poll_ticks].
    + split; [reflexivity | constructor].
    + rewrite (Q w' Hw'). cbn [fst snd]. split; [exact IH1|].
      constructor; [now rewrite (Q w' Hw') | exact IH2].
Qed.

(** ** More on booking the result of a request *)

Lemma send_requestUpdate_fee (gp : option Z) (sub : submission)
    (tx : string) (status : bool) (logs : list Z) (fee : Z) :
  send_requestUpdate gp sub = inr (tx, status, logs, fee) ->
  exists b b', s_balance sub = Some b /\ b <> 0 /\
               s_balance_after sub = Some b' /\ fee = b - b' /\
               s_tx sub = Some tx /\ s_receipt sub = WaitReceipt status logs.
Proof.
  unfold send_requestUpdate, bind_exn, call_exn.
  destruct (s_info sub); [|discriminate].
  destruct (s_balance sub) as [b|]; [|discriminate].
  destruct (b =? 0) eqn:Eb; [discriminate|]. apply Z.eqb_neq in Eb.
  destruct (match gp with Some g => inr g | None => _ end); [discriminate|].
  destruct (s_fee sub); [|discriminate].
  destruct (s_tx sub) as [tx'|]; [|discriminate].
  destruct (s_receipt sub) as [| |status' logs']; try discriminate.
  destruct (s_balance_after sub) as [b'|]; [|discriminate].
  cbn. intros E. injection E as <- <- <- <-.
  exists b, b'. repeat split; auto.
Qed.

(** The price, the timestamp and the end of [request_update]. *)
Lemma request_update_live env w (e : Z) (why : reason) pf tr :
  let r := request_update env w e why (pf, tr) in
  let result := fst (@handle_requestUpdate F (latestRequestId pf)
                       (web3_gas_price env) (w_submit w)) in
  let refreshed := match result with
                   | Result3 _ _ _ => isRouted pf
                   | _ => false
                   end in
  lastPrice (fst (fst r)) = lastPrice pf /\
  isRouted (fst (fst r)) = isRouted pf /\
  lastTimestamp (fst (fst r)) =
    (if refreshed
     then match w_lastValue_after w with
          | Some lv2 => lv_timestamp lv2
          | None => lastTimestamp pf
          end
     else lastTimestamp pf) /\
  snd r = (if refreshed
           then match w_lastValue_after w with
                | Some _ => Ret tt
                | None => Exn
                end
           else Ret tt).
Proof.
  unfold request_update.
  pose proof (handle_requestUpdate_shape (latestRequestId pf)
                (web3_gas_price env) (w_submit w)) as Hs.
  cbn zeta in Hs |- *. mstep.
  destruct (handle_requestUpdate (latestRequestId pf) (web3_gas_price env)
              (w_submit w)) as [result printed].
  cbn [fst snd] in Hs |- *. destruct Hs as [_ Hr].
  rewrite emit_all_run.
  destruct result as [q|q tx|q tx fee]; cbn [result_0 result_1] in *.
  - subst q. cbn. auto.
  - subst q. cbn.
    destruct (web3_max_reverts env <=? reverts pf + 1); cbn; auto.
  - destruct (0 <? q); cbn;
      [|destruct (q <? 0); cbn;
        [destruct (web3_max_reverts env <=? reverts pf + 1); cbn|]];
      destruct (0 <? fee); cbn; destruct (isRouted pf) eqn:Er; cbn;
      try destruct (w_lastValue_after w); cbn; auto.
Qed.

(** A request that times out, or is rejected before a receipt, leaves the
    feed as it was. *)
Theorem failed_request_changes_nothing env w pf (lv : last_value)
    (why : reason) (e : exn) :
  steady w pf lv ->
  pendingUpdate pf = false ->
  trigger_fired env w pf = Some why ->
  send_requestUpdate (web3_gas_price env) (w_submit w) = inl e ->
  run_feed env w pf =
  (pf, [EvRequesting (elapsed w pf) why; failure_line e]).
Proof.
  intros St Hp Hf Hs. rewrite (run_feed_requested env St Hp Hf).
  unfold request_update, handle_requestUpdate. rewrite Hs. mstep.
  destruct e; rewrite emit_all_run; reflexivity.
Qed.

(** A reverted transaction touches the last reverted hash, the revert
    counter and, at the threshold, the disabled flag: nothing else. *)
Theorem reverted_request_booking env w pf (lv : last_value) (why : reason)
    (tx : string) (logs : list Z) (fee : Z) :
  steady w pf lv ->
  pendingUpdate pf = false ->
  trigger_fired env w pf = Some why ->
  send_requestUpdate (web3_gas_price env) (w_submit w) = inr (tx, false, logs, fee) ->
  run_feed env w pf =
  ((if web3_max_reverts env <=? reverts pf + 1
    then set_auto_disabled true
           (set_reverts (reverts pf + 1) (set_lastRevertedTx tx pf))
    else set_reverts (reverts pf + 1) (set_lastRevertedTx tx pf)),
   [EvRequesting (elapsed w pf) why; EvTxReverted]).
Proof.
  intros St Hp Hf Hs. rewrite (run_feed_requested env St Hp Hf).
  unfold request_update, handle_requestUpdate. rewrite Hs. mstep.
  rewrite emit_all_run. cbn.
  destruct (web3_max_reverts env <=? reverts pf + 1); reflexivity.
Qed.

(** A successful receipt on a non-routed feed records the elapsed seconds
    in the latency history and the drop of the balance, when positive, in
    the fee history; price and timestamp wait for the resolution. *)
Theorem successful_request_telemetry env w pf (lv : last_value) (why : reason)
    (tx : string) (logs : list Z) (fee : Z) :
  steady w pf lv ->
  pendingUpdate pf = false ->
  trigger_fired env w pf = Some why ->
  send_requestUpdate (web3_gas_price env) (w_submit w) = inr (tx, true, logs, fee) ->
  isRouted pf = false ->
  secs (fst (run_feed env w pf)) = append_bounded 256 (elapsed w pf) (secs pf) /\
  fees (fst (run_feed env w pf)) =
    (if 0 <? fee then append_bounded 16 fee (fees pf) else fees pf) /\
  lastPrice (fst (run_feed env w pf)) = lastPrice pf /\
  lastTimestamp (fst (run_feed env w pf)) = lastTimestamp pf /\
  (exists b b', s_balance (w_submit w) = Some b /\ b <> 0 /\
                s_balance_after (w_submit w) = Some b' /\ fee = b - b').
Proof.
  intros St Hp Hf Hs Hr.
  destruct (run_feed_booked env St Hp Hf) as (Bf & _ & _).
  rewrite (handle_requestUpdate_receipt (latestRequestId pf) _ _ Hs) in Bf.
  cbn [negb] in Bf.
  rewrite (run_feed_requested env St Hp Hf), fst_close_pass in *.
  destruct (request_update_live env w (elapsed w pf) why pf []) as (Lp & _ & Lt & _).
  rewrite (handle_requestUpdate_receipt (latestRequestId pf) _ _ Hs), Hr in Lt.
  cbn [negb] in Lt.
  unfold flags, booked_flags in Bf.
  destruct (send_requestUpdate_fee _ _ Hs) as (b & b' & Hb & Hnz & Hb' & Hfee & _).
  destruct logs as [|q logs]; injection Bf as Bfees Bsecs _ _ _;
    (repeat split; [exact Bsecs | exact Bfees | exact Lp | | ]);
    try (destruct (match _ with Result3 _ _ _ => false | _ => false end) in Lt; exact Lt);
    try (exists b, b'; auto).
  - exact Lt.
  - exact Lt.
Qed.

(** On a routed feed a successful receipt makes the loop read
    [lastValue()] again and take its timestamp, the price staying as it
    was; when that read raises, the pass ends in the handler with the
    telemetry and the pending flag already booked. *)
Theorem routed_request_refreshes_timestamp env w pf (lv : last_value)
    (why : reason) (tx : string) (logs : list Z) (fee : Z) :
  steady w pf lv ->
  pendingUpdate pf = false ->
  trigger_fired env w pf = Some why ->
  send_requestUpdate (web3_gas_price env) (w_submit w) = inr (tx, true, logs, fee) ->
  isRouted pf = true ->
  lastPrice (fst (run_feed env w pf)) = lastPrice pf /\
  secs (fst (run_feed env w pf)) = append_bounded 256 (elapsed w pf) (secs pf) /\
  pendingUpdate (fst (run_feed env w pf)) =
    (0 <? match logs with q :: _ => q | [] => latestRequestId pf end) /\
  (forall lv2, w_lastValue_after w = Some lv2 ->
     lastTimestamp (fst (run_feed env w pf)) = lv_timestamp lv2) /\
  (w_lastValue_after w = None ->
     lastTimestamp (fst (run_feed env w pf)) = lastTimestamp pf /\
     exists tr', snd (run_feed env w pf) = tr' ++ [EvException]).
Proof.
  intros St Hp Hf Hs Hr.
  destruct (run_feed_booked env St Hp Hf) as (Bf & Bp & _).
  rewrite (handle_requestUpdate_receipt (latestRequestId pf) _ _ Hs) in Bf, Bp.
  cbn [negb] in Bf, Bp.
  rewrite (run_feed_requested env St Hp Hf) in *. rewrite fst_close_pass in *.
  destruct (request_update_live env w (elapsed w pf) why pf []) as (Lp & _ & Lt & Lo).
  rewrite (handle_requestUpdate_receipt (latestRequestId pf) _ _ Hs), Hr in Lt, Lo.
  cbn [negb] in Lt, Lo.
  assert (Lt' : lastTimestamp
                  (fst (fst (request_update env w (elapsed w pf) why (pf, []))))
                = match w_lastValue_after w with
                  | Some lv2 => lv_timestamp lv2
                  | None => lastTimestamp pf
                  end) by (destruct logs; exact Lt).
  assert (Lo' : snd (request_update env w (elapsed w pf) why (pf, []))
                = match w_lastValue_after w with
                  | Some _ => Ret tt
                  | None => Exn
                  end) by (destruct logs; exact Lo).
  clear Lt Lo.
  assert (Bs : secs (fst (fst (request_update env w (elapsed w pf) why (pf, []))))
               = append_bounded 256 (elapsed w pf) (secs pf)).
  { unfold flags, booked_flags in Bf. destruct logs; now injection Bf as _ Bs _ _ _. }
  split; [exact Lp|]. split; [exact Bs|]. split.
  - rewrite Bp. destruct logs; reflexivity.
  - split.
    + intros lv2 E. now rewrite Lt', E.
    + intros E. rewrite E in Lt', Lo'. split; [now rewrite Lt'|].
      destruct (request_update env w (elapsed w pf) why (pf, [])) as [[pf' tr'] o].
      cbn [snd] in Lo'. subst o. exists tr'. reflexivity.
Qed.

(** ** Passes that send nothing *)

(** Short of the cooldown, less the finalization budget, the pass only
    narrates the seconds left; they are always positive there. *)
Theorem cooldown_gate_rests env w pf (lv : last_value) :
  steady w pf lv ->
  pendingUpdate pf = false ->
  elapsed w pf < cooldown pf - total_finalization_secs env ->
  run_feed env w pf =
  (pf, [EvResting (cooldown pf - elapsed w pf - total_finalization_secs env)]) /\
  trigger_fired env w pf = None.
Proof.
  intros St Hp Hlt.
  assert (G : (cooldown pf - total_finalization_secs env <=? elapsed w pf) = false)
    by (apply Z.leb_gt; lia).
  assert (P : (0 <? cooldown pf - elapsed w pf - total_finalization_secs env) = true)
    by (apply Z.ltb_lt; lia).
  split.
  - rewrite (run_feed_idle env St Hp), G, P. reflexivity.
  - rewrite (trigger_fired_idle env St Hp), G. reflexivity.
Qed.

(** A feed with no heartbeat is never asked to update: past the cooldown
    gate the pass only copies the contract's pending flag. *)
Theorem no_heartbeat_no_request env w pf (lv : last_value) :
  steady w pf lv ->
  pendingUpdate pf = false ->
  heartbeat pf = 0 ->
  trigger_fired env w pf = None /\
  (cooldown pf - total_finalization_secs env <= elapsed w pf ->
   fst (run_feed env w pf) =
   match w_pendingUpdate w with
   | Some b => set_pendingUpdate b pf
   | None => pf
   end).
Proof.
  intros St Hp Hh. apply Z.eqb_eq in Hh. split.
  - rewrite (trigger_fired_idle env St Hp).
    destruct (cooldown pf - total_finalization_secs env <=? elapsed w pf);
      [|reflexivity].
    unfold check_triggers. mstep. rewrite Hh.
    destruct (w_pendingUpdate w) as [b|]; reflexivity.
  - intros G. apply Z.leb_le in G.
    rewrite (run_feed_idle env St Hp), G.
    unfold check_triggers. mstep. rewrite Hh.
    destruct (w_pendingUpdate w) as [b|]; reflexivity.
Qed.

(** A routed feed never runs the dry run; short of its heartbeat it asks
    for an update exactly when the contract signals a pending one. *)
Theorem routed_update_trigger env w pf (lv : last_value) :
  steady w pf lv ->
  pendingUpdate pf = false ->
  isRouted pf = true ->
  trigger_fired env w pf <> Some Deviation /\
  (heartbeat pf <> 0 ->
   cooldown pf - total_finalization_secs env <= elapsed w pf ->
   elapsed w pf < heartbeat pf ->
   (trigger_fired env w pf = Some RoutedUpdate <-> w_pendingUpdate w = Some true)).
Proof.
  intros St Hp Hr. split.
  - rewrite (trigger_fired_idle env St Hp).
    destruct (cooldown pf - total_finalization_secs env <=? elapsed w pf);
      [|discriminate].
    unfold check_triggers. mstep. rewrite Hr. cbn [negb andb].
    destruct (heartbeat pf =? 0).
    + destruct (w_pendingUpdate w); mstep; discriminate.
    + destruct (heartbeat pf - 0 <=? elapsed w pf); mstep; [discriminate|].
      destruct (w_pendingUpdate w) as [[|]|]; mstep; discriminate.
  - intros Hh G Hlt. apply Z.eqb_neq in Hh. apply Z.leb_le in G.
    rewrite (trigger_fired_idle env St Hp), G.
    unfold check_triggers. mstep. rewrite Hr, Hh. cbn [negb andb].
    assert (E : (heartbeat pf - 0 <=? elapsed w pf) = false)
      by (apply Z.leb_gt; lia).
    rewrite E.
    destruct (w_pendingUpdate w) as [[|]|]; mstep; split; congruence.
Qed.

(** Whatever the world answers, one pass over a feed sends at most one
    request. *)
Theorem at_most_one_request_per_pass env w pf :
  (List.length (requested (snd (run_feed env w pf))) <= 1)%nat.
Proof.
  destruct (run_feed_effect env w pf) as (pf1 & _ & [[_ R]|(_ & result & why & _ & R)]);
    rewrite R; cbn; lia.
Qed.

(** While an update is awaited no request is sent, however stale the
    feed. *)
Theorem awaiting_feed_sends_nothing env w pf (lv : last_value) :
  steady w pf lv ->
  pendingUpdate pf = true ->
  trigger_fired env w pf = None.
Proof.
  intros St Hp. unfold trigger_fired, run_feed.
  rewrite (poll_feed_steady env [] St), Hp.
  destruct (await_update_effect w lv (elapsed w pf) (pf, [])) as [_ R].
  destruct (await_update w lv (elapsed w pf) (pf, [])) as [[pf' tr'] o].
  cbn [fst snd] in R.
  destruct o; cbn [fst snd]; rewrite ?requested_app, R; reflexivity.
Qed.

(** A disabled feed whose route has not changed is skipped before any
    contract read: the pass narrates the last reverted transaction and
    leaves the feed as it is. *)
Theorem disabled_feed_is_skipped env w pf :
  w_getPriceFeed w = Some (contract pf) ->
  contract pf <> ZERO_ADDRESS ->
  auto_disabled pf = true ->
  run_feed env w pf = (pf, [EvTooManyReverts (lastRevertedTx pf)]).
Proof.
  intros Hg Hz Hd. unfold run_feed, poll_feed, detect_route_change.
  rewrite Hg. mstep. rewrite String.eqb_refl. mstep.
  apply String.eqb_neq in Hz. rewrite Hz. mstep. rewrite Hd. reflexivity.
Qed.

(** A failing read of the router, of the configuration file on a route
    change, or of [lastValue()] ends the pass in the handler with the feed
    untouched. *)
Theorem read_failure_leaves_feed env w pf :
  (w_getPriceFeed w = None -> run_feed env w pf = (pf, [EvException])) /\
  (forall a, w_getPriceFeed w = Some a -> a <> contract pf ->
             w_load_config w = None ->
             run_feed env w pf = (pf, [EvException])) /\
  (w_getPriceFeed w = Some (contract pf) -> contract pf <> ZERO_ADDRESS ->
   auto_disabled pf = false -> w_lastValue w = None ->
   run_feed env w pf = (pf, [EvException])).
Proof.
  unfold run_feed, poll_feed, detect_route_change. repeat split.
  - intros Hg. rewrite Hg. reflexivity.
  - intros a Hg Hn Hl. rewrite Hg, Hl. mstep.
    assert (E : (contract pf =? a)%string = false)
      by (apply String.eqb_neq; congruence).
    rewrite E. reflexivity.
  - intros Hg Hz Hd Hl. rewrite Hg, Hl. mstep. rewrite String.eqb_refl. mstep.
    apply String.eqb_neq in Hz. rewrite Hz. mstep. rewrite Hd. reflexivity.
Qed.

(** ** More on route changes *)

Lemma attempt_fails_exn (cfg : option (@policy F)) (rd : chain_reads) pf tr :
  attempt_fails cfg rd ->
  exists pf', refresh_attempt cfg rd (pf, tr) = ((pf', tr), Exn).
Proof.
  destruct cfg as [c|]; intros A.
  - destruct (@refresh_attempt_incomplete c rd pf tr A) as (pf' & E & _).
    now exists pf'.
  - exists pf. reflexivity.
Qed.

Lemma refresh_loop_fails (cfg : option (@policy F)) (reads : nat -> chain_reads)
    (remaining attempt : nat) pf tr :
  (attempt + remaining = 5)%nat -> (0 < remaining)%nat ->
  (forall j, (j < 5)%nat -> attempt_fails cfg (reads j)) ->
  exists pf',
    refresh_loop cfg reads attempt remaining (pf, tr)
    = ((pf', tr ++ retry_lines attempt (remaining - 1)), Exn).
Proof.
  revert attempt pf tr.
  induction remaining as [|remaining IH]; intros attempt pf tr L R A; [lia|].
  rewrite refresh_loop_S. unfold try_except.
  destruct (@attempt_fails_exn cfg (reads attempt) pf tr (A attempt ltac:(lia)))
    as (pf1 & E).
  rewrite E.
  destruct (attempt <? 4)%nat eqn:E4.
  - apply Nat.ltb_lt in E4. unfold bind, emit. cbn [fst snd].
    destruct (IH (S attempt) pf1 (tr ++ [EvRefreshRetry (Z.of_nat attempt)])
                ltac:(lia) ltac:(lia) A) as (pf' & E').
    rewrite E'. exists pf'. f_equal. f_equal.
    rewrite <- app_assoc. f_equal.
    destruct remaining as [|remaining]; [lia|].
    cbn [Nat.sub]. rewrite Nat.sub_0_r. reflexivity.
  - apply Nat.ltb_ge in E4. assert (remaining = O) by lia. subst remaining.
    unfold raise. cbn. rewrite app_nil_r. now exists pf1.
Qed.

(** When all five attempts at refreshing a re-routed feed fail, the pass
    ends in the handler after four retry lines: the feed tracks the new
    address with the counters, flag, histories and request id it had.  On
    later passes the router's answer equals the tracked address, so the
    refresh is not attempted again. *)
Theorem failed_refresh_is_not_retried env w pf (a : address)
    (cfg : option (@policy F)) :
  w_getPriceFeed w = Some a ->
  a <> contract pf ->
  a <> ZERO_ADDRESS ->
  w_load_config w = Some cfg ->
  (forall j, (j < 5)%nat -> attempt_fails cfg (w_refresh w j)) ->
  snd (run_feed env w pf) =
    EvRouteChanged (contract pf) a :: retry_lines 0 4 ++ [EvException] /\
  contract (fst (run_feed env w pf)) = a /\
  flags (fst (run_feed env w pf)) = flags pf /\
  latestRequestId (fst (run_feed env w pf)) = latestRequestId pf /\
  (forall w2 tr, w_getPriceFeed w2 = Some a ->
     detect_route_change w2 (fst (run_feed env w pf), tr)
     = ((fst (run_feed env w pf), tr), Ret a)).
Proof.
  intros Hg Hn Hz Hl A.
  destruct (@refresh_loop_fails cfg (w_refresh w) 5 0 (set_contract a pf)
              [EvRouteChanged (contract pf) a] eq_refl ltac:(lia) A) as (pf' & E).
  pose proof (@refresh_loop_effect cfg (w_refresh w) 5 0
                (set_contract a pf, [EvRouteChanged (contract pf) a])
                ltac:(lia) ltac:(lia)) as B.
  cbn zeta in B. rewrite E in B. cbn [fst snd] in B.
  destruct B as [(_ & _ & Kc & Kl & _) Bf]. cbn in Kc, Kl.
  assert (R : run_feed env w pf =
              (pf', EvRouteChanged (contract pf) a :: retry_lines 0 4 ++ [EvException])).
  { unfold run_feed, poll_feed, detect_route_change. rewrite Hg, Hl. mstep.
    assert (Ec : (contract pf =? a)%string = false)
      by (apply String.eqb_neq; congruence).
    apply String.eqb_neq in Hz. rewrite Ec, Hz. mstep.
    cbn [app]. rewrite E. reflexivity. }
  rewrite R. cbn [fst snd]. repeat split; auto.
  intros w2 tr Hg2. unfold detect_route_change. rewrite Hg2. mstep.
  rewrite Kc, String.eqb_refl. reflexivity.
Qed.

Lemma refresh_loop_trace (cfg : @policy F) (reads : nat -> chain_reads)
    (k attempt remaining : nat) pf tr :
  (k < remaining)%nat -> (attempt + k < 5)%nat ->
  (forall j, (j < k)%nat -> complete_reads cfg (reads (attempt + j)%nat) = false) ->
  complete_reads cfg (reads (attempt + k)%nat) = true ->
  snd (fst (refresh_loop (Some cfg) reads attempt remaining (pf, tr)))
  = tr ++ retry_lines attempt k.
Proof.
  revert attempt remaining pf tr.
  induction k as [|k IH]; intros attempt remaining pf tr Hr H5 Hfail Hok.
  - destruct remaining as [|remaining]; [lia|].
    rewrite Nat.add_0_r in Hok.
    destruct (@refresh_attempt_complete cfg (reads attempt) pf tr Hok) as (pf' & E & _).
    rewrite refresh_loop_S. unfold try_except. rewrite E. cbn.
    now rewrite app_nil_r.
  - destruct remaining as [|remaining]; [lia|].
    pose proof (Hfail O ltac:(lia)) as H0. rewrite Nat.add_0_r in H0.
    destruct (@refresh_attempt_incomplete cfg (reads attempt) pf tr H0) as (pf1 & E & _).
    assert (E4 : (attempt <? 4)%nat = true) by (apply Nat.ltb_lt; lia).
    rewrite refresh_loop_S. unfold try_except. rewrite E, E4.
    unfold bind, emit. cbn [fst snd].
    rewrite (IH (S attempt) remaining pf1).
    + rewrite <- app_assoc. reflexivity.
    + lia.
    + lia.
    + intros j Hj. replace (S attempt + j)%nat with (attempt + S j)%nat by lia.
      apply Hfail. lia.
    + replace (S attempt + k)%nat with (attempt + S k)%nat by lia. exact Hok.
Qed.

(** The attempts at refreshing a re-routed feed are made in order and stop
    at the first one that reads everything: the route check narrates the
    change and one retry line per failed attempt. *)
Theorem refresh_stops_at_first_success w pf tr (a : address)
    (cfg : @policy F) (k : nat) :
  w_getPriceFeed w = Some a ->
  a <> contract pf ->
  a <> ZERO_ADDRESS ->
  w_load_config w = Some (Some cfg) ->
  (k < 5)%nat ->
  (forall j, (j < k)%nat -> complete_reads cfg (w_refresh w j) = false) ->
  complete_reads cfg (w_refresh w k) = true ->
  snd (fst (detect_route_change w (pf, tr)))
  = tr ++ EvRouteChanged (contract pf) a :: retry_lines 0 k.
Proof.
  intros Hg Hn Hz Hl Hk Hfail Hok.
  pose proof (@refresh_loop_trace cfg (w_refresh w) k 0 5 (set_contract a pf)
                (tr ++ [EvRouteChanged (contract pf) a])
                ltac:(lia) ltac:(lia) Hfail Hok) as T.
  unfold detect_route_change. rewrite Hg, Hl. mstep.
  assert (Ec : (contract pf =? a)%string = false)
    by (apply String.eqb_neq; congruence).
  apply String.eqb_neq in Hz. rewrite Ec, Hz. mstep.
  destruct (refresh_loop (Some cfg) (w_refresh w) 0 5
              (set_contract a pf, tr ++ [EvRouteChanged (contract pf) a]))
    as [[pf' tr'] o].
  cbn [fst snd] in T. subst tr'.
  destruct o; cbn [fst snd]; rewrite <- app_assoc; reflexivity.
Qed.

(** ** Identity of the feeds *)

Lemma detect_route_change_identity w (s : @st F) :
  same_identity (fst s) (fst (fst (detect_route_change w s))).
Proof.
  destruct s as [pf tr]. unfold detect_route_change, same_identity.
  destruct (w_getPriceFeed w) as [a|]; [|mrun; auto].
  mstep.
  destruct (contract pf =? a)%string; mstep; [auto|].
  destruct (w_load_config w) as [cfg|]; mstep; [|auto].
  destruct (a =? ZERO_ADDRESS)%string; mstep; [auto|].
  pose proof (@refresh_loop_effect cfg (w_refresh w) 5 0
                (set_contract a pf, tr ++ [EvRouteChanged (contract pf) a])
                ltac:(lia) ltac:(lia)) as B.
  cbn zeta in B.
  destruct (refresh_loop cfg (w_refresh w) 0 5
              (set_contract a pf, tr ++ [EvRouteChanged (contract pf) a])) as [s2 o2].
  cbn [fst snd] in B. destruct B as [(Ki & Kc & _) _]. cbn in Ki, Kc.
  destruct o2; cbn [fst snd]; auto.
Qed.

Lemma await_update_identity w (lv : last_value) (e : Z) (s : @st F) :
  same_identity (fst s) (fst (fst (await_update w lv e s))).
Proof.
  destruct s as [pf tr]. unfold await_update, same_identity. mrun.
  destruct ((lv_status lv =? 200) && (lastTimestamp pf <? lv_timestamp lv)); cbn;
    [auto|].
  destruct (lv_status lv =? 400); cbn; [|auto].
  destruct (w_latestUpdate w); cbn; auto.
Qed.

Lemma request_update_identity env w (e : Z) (why : reason) pf tr :
  same_identity pf (fst (fst (request_update env w e why (pf, tr)))).
Proof.
  unfold request_update, same_identity.
  pose proof (handle_requestUpdate_shape (latestRequestId pf)
                (web3_gas_price env) (w_submit w)) as Hs.
  cbn zeta in Hs |- *. mstep.
  destruct (handle_requestUpdate (latestRequestId pf) (web3_gas_price env)
              (w_submit w)) as [result printed].
  cbn [fst snd] in Hs |- *. destruct Hs as [_ Hr].
  rewrite emit_all_run.
  destruct result as [q|q tx|q tx fee]; cbn [result_0 result_1] in *.
  - subst q. cbn. auto.
  - subst q. cbn.
    destruct (web3_max_reverts env <=? reverts pf + 1); cbn; auto.
  - destruct (0 <? q); cbn;
      [|destruct (q <? 0); cbn;
        [destruct (web3_max_reverts env <=? reverts pf + 1); cbn|]];
      destruct (0 <? fee); cbn; destruct (isRouted pf) eqn:Er; cbn;
      try destruct (w_lastValue_after w); cbn; auto.
Qed.

Lemma idle_identity env w (e : Z) (s : @st F) :
  same_identity (fst s) (fst (fst (idle env w e s))).
Proof.
  destruct s as [pf tr]. unfold idle. mstep.
  destruct (cooldown pf - total_finalization_secs env <=? e).
  - pose proof (check_triggers_effect env w e (pf, tr)) as C. cbn zeta in C.
    assert (I : same_identity pf (fst (fst (check_triggers env w e (pf, tr))))).
    { unfold check_triggers, same_identity. mrun.
      destruct (heartbeat pf =? 0); cbn.
      { destruct (w_pendingUpdate w); cbn; auto. }
      destruct (heartbeat pf - (if isRouted pf then 0 else total_finalization_secs env)
                <=? e); cbn; [auto|].
      destruct (negb (isRouted pf) && fltb (of_int 0) (deviation pf)
                && (0 <? lastPrice pf)); cbn.
      { destruct (w_dry_run w) as [next_price|]; cbn; [|auto].
        destruct (fltb (fabs (deviation_pct next_price (lastPrice pf))) (deviation pf));
          cbn; auto. }
      destruct (isRouted pf); cbn; [|auto].
      destruct (w_pendingUpdate w) as [[|]|]; cbn; auto. }
    destruct (check_triggers env w e (pf, tr)) as [s2 o2]. cbn [fst snd] in C, I.
    destruct o2 as [why| |]; cbn [fst snd]; try exact I.
    subst s2. apply request_update_identity.
  - destruct (0 <? cooldown pf - e - total_finalization_secs env); mstep;
      unfold same_identity; auto.
Qed.

Lemma run_feed_identity env w pf :
  same_identity pf (fst (run_feed env w pf)).
Proof.
  unfold run_feed, poll_feed. unfold bind at 1.
  pose proof (detect_route_change_identity w (pf, [])) as D.
  destruct (detect_route_change w (pf, [])) as [[pf1 tr1] o1].
  cbn [fst snd] in D.
  destruct o1 as [a| |]; cbn [fst]; try exact D.
  mstep.
  destruct (a =? ZERO_ADDRESS)%string; mstep; [exact D|].
  destruct (auto_disabled pf1); mstep; [exact D|].
  destruct (w_lastValue w) as [lv|]; mstep; [|exact D].
  assert (T : forall (r : @st F * outcome unit),
             same_identity pf1 (fst (fst r)) ->
             same_identity pf (fst (let (s, o) := r in
                                    match o with
                                    | Exn => (fst s, snd s ++ [EvException])
                                    | _ => s
                                    end))).
  { intros [[pf2 tr2] o] [I1 I2]. destruct D as [D1 D2]. cbn [fst] in I1, I2.
    unfold same_identity. destruct o; cbn [fst]; split; congruence. }
  destruct (pendingUpdate pf1); apply T.
  - apply (await_update_identity w lv _ (pf1, tr1)).
  - apply (idle_identity env w _ (pf1, tr1)).
Qed.

(** ** The loop over the list of feeds *)

Lemma for_each_feed_spec env (ws : nat -> @world F) (P : @Feed F -> @Feed F -> Prop)
    (i : nat) pfs :
  (forall w pf, P pf (fst (run_feed env w pf))) ->
  Forall2 P pfs (fst (for_each_feed env ws i pfs)).
Proof.
  intros HP. revert i. induction pfs as [|pf pfs IH]; intros i; cbn [for_each_feed].
  - constructor.
  - specialize (IH (S i)). specialize (HP (ws i) pf).
    destruct (run_feed env (ws i) pf) as [pf' tr].
    destruct (for_each_feed env ws (S i) pfs) as [pfs' tr'].
    constructor; assumption.
Qed.

Lemma Forall2_trans_pre (P : @Feed F -> @Feed F -> Prop) (l1 l2 l3 : list (@Feed F)) :
  (forall a b c, P a b -> P b c -> P a c) ->
  Forall2 P l1 l2 -> Forall2 P l2 l3 -> Forall2 P l1 l3.
Proof.
  intros HT H12. revert l3. induction H12 as [|a b l1 l2 Hab _ IH]; intros l3 H23.
  - inversion H23. constructor.
  - inversion H23 as [|b' c l2' l3' Hbc H23']; subst. constructor; eauto.
Qed.

Lemma log_loop_spec env (worlds : nat -> nat -> @world F)
    (P : @Feed F -> @Feed F -> Prop) (n t : nat) pfs :
  (forall pf, P pf pf) ->
  (forall a b c, P a b -> P b c -> P a c) ->
  (forall w pf, P pf (fst (run_feed env w pf))) ->
  Forall2 P pfs (fst (log_loop env worlds t n pfs)).
Proof.
  intros HR HT HP. revert t pfs.
  induction n as [|n IH]; intros t pfs; cbn [log_loop].
  - cbn. induction pfs; constructor; auto.
  - pose proof (for_each_feed_spec env (worlds t) P 0 pfs HP) as S1.
    destruct (for_each_feed env (worlds t) 0 pfs) as [pfs' tr]. cbn [fst] in S1.
    specialize (IH (S t) pfs').
    destruct (log_loop env worlds (S t) n pfs') as [pfs'' tr']. cbn [fst] in IH |- *.
    exact (Forall2_trans_pre HT S1 IH).
Qed.

Lemma run_feed_keeps env w pf : keeps env pf (fst (run_feed env w pf)).
Proof.
  unfold keeps. split; [apply run_feed_identity|]. split.
  - apply run_feed_bounded.
  - apply run_feed_disabled_inv.
Qed.

(** ** Start-up *)

Lemma read_pair_fresh (erc2362id caption0 : string) (cfg : entry)
    (rd : pair_reads) pf :
  read_pair erc2362id caption0 cfg rd = Some (Some pf) ->
  fresh pf /\ id pf = erc2362id /\ caption pf = caption0 /\
  rd_addr_ok rd pf /\
  cooldown pf = get_default (e_minSecsBetweenUpdates cfg) 0 /\
  deviation pf = get_default (e_deviationPercentage cfg) (of_int 0) /\
  heartbeat pf = get_default (e_maxSecsBetweenUpdates cfg) 0 /\
  isRouted pf = get_default (e_isRouted cfg) false.
Proof.
  unfold read_pair, bind_opt, fresh, rd_addr_ok.
  destruct (pr_getPriceFeed rd) as [addr|]; [|discriminate].
  destruct (addr =? ZERO_ADDRESS)%string eqn:Ez; [discriminate|].
  apply String.eqb_neq in Ez.
  destruct (pr_lastPrice rd); [|discriminate].
  destruct (pr_lastTimestamp rd); [|discriminate].
  destruct (pr_latestQueryId rd); [|discriminate].
  destruct (get_default (e_isRouted cfg) false) eqn:Er.
  - intros E. injection E as <-. cbn. repeat split; auto.
  - destruct (pr_pendingUpdate rd); [|discriminate].
    destruct (pr_witnet rd); [|discriminate].
    intros E. injection E as <-. cbn.
    repeat split; auto. discriminate.
Qed.

Lemma load_pair_fresh (erc2362id caption0 : string) (cfg : entry)
    (reads : nat -> pair_reads) (remaining attempt : nat) pfs :
  Forall fresh pfs ->
  Forall fresh (load_pair erc2362id caption0 cfg reads attempt remaining pfs).
Proof.
  revert attempt pfs. induction remaining as [|remaining IH]; intros attempt pfs Hf;
    cbn [load_pair]; [exact Hf|].
  destruct (read_pair erc2362id caption0 cfg (reads attempt)) as [[pf|]|] eqn:E.
  - apply read_pair_fresh in E. destruct E as [E _].
    assert (Hf' : Forall fresh (pfs ++ [pf])).
    { apply Forall_app. split; [exact Hf|]. constructor; [exact E | constructor]. }
    destruct (pr_narrated (reads attempt)); [exact Hf'|].
    destruct (attempt <? 4)%nat; [now apply IH | exact Hf'].
  - exact Hf.
  - destruct (attempt <? 4)%nat; [now apply IH | exact Hf].
Qed.

Lemma load_pairs_fresh (feeds : list (string * entry * pair_world)) pfs (m : Z)
    pfs' (m' : Z) :
  Forall fresh pfs ->
  load_pairs feeds pfs m = Some (pfs', m') ->
  Forall fresh pfs'.
Proof.
  revert pfs m. induction feeds as [|[[caption0 cfg] pw] feeds IH]; intros pfs m Hf;
    cbn [load_pairs].
  - intros E. now injection E as <- _.
  - unfold bind_opt.
    destruct (pw_currencyPairId pw) as [erc2362id|]; [|discriminate].
    destruct (pw_supportsCurrencyPair pw) as [[|]|]; [| |discriminate].
    + apply IH. now apply load_pair_fresh.
    + now apply IH.
Qed.

Lemma fresh_invariants env pf :
  fresh pf -> history_bounded pf /\ disabled_inv env pf.
Proof.
  intros (_ & Fl & _). unfold flags, flags_reset in Fl.
  injection Fl as Ff Fs Fa _ _.
  unfold history_bounded, disabled_inv. rewrite Ff, Fs, Fa.
  unfold len. cbn. split; [split; lia | discriminate].
Qed.

(** Start-up only hands feeds to the polling loop when there is at least
    one, and each of them is at a non-zero address with revert counter
    [0], disabled flag off and empty histories; a routed feed starts with
    no pending update and no Witnet address. *)
Theorem start_up_feeds_fresh (router_address : option address)
    (feeds : list (string * entry * pair_world)) pfs (m : Z) :
  start_up router_address feeds = StartPolling pfs m ->
  pfs <> [] /\ Forall fresh pfs.
Proof.
  unfold start_up. destruct router_address; [|discriminate].
  destruct (load_pairs feeds [] 0) as [[pfs' m']|] eqn:E; [|discriminate].
  destruct (len pfs' =? 0) eqn:El; [discriminate|].
  intros S1. injection S1 as <- <-. split.
  - intros ->. discriminate.
  - exact (@load_pairs_fresh feeds [] 0 pfs' m' (Forall_nil _) E).
Qed.

(** From start-up on, any number of iterations of the polling loop keeps
    the list of feeds in place (same length, same ids and captions in the
    same order), every fee history within 16 and latency history within
    256 entries, and every disabled feed at or above the revert
    threshold. *)
Theorem loop_keeps_feeds_from_start_up env (router_address : option address)
    (feeds : list (string * entry * pair_world)) pfs (m : Z)
    (worlds : nat -> nat -> @world F) (n : nat) :
  start_up router_address feeds = StartPolling pfs m ->
  let pfs' := fst (log_loop env worlds 0 n pfs) in
  List.length pfs' = List.length pfs /\
  map id pfs' = map id pfs /\
  map caption pfs' = map caption pfs /\
  Forall history_bounded pfs' /\
  Forall (disabled_inv env) pfs'.
Proof.
  intros S1. cbn zeta.
  assert (Hf : Forall fresh pfs).
  { unfold start_up in S1. destruct router_address; [|discriminate].
    destruct (load_pairs feeds [] 0) as [[pfs0 m0]|] eqn:E; [|discriminate].
    destruct (len pfs0 =? 0); [discriminate|]. injection S1 as <- <-.
    exact (@load_pairs_fresh feeds [] 0 pfs0 m0 (Forall_nil _) E). }
  assert (K : Forall2 (keeps env) pfs (fst (log_loop env worlds 0 n pfs))).
  { apply log_loop_spec.
    - intros pf. unfold keeps, same_identity. auto.
    - intros a b c (Ia & Ba & Da) (Ib & Bb & Db).
      unfold keeps, same_identity in *. destruct Ia, Ib.
      split; [split; congruence|]. split; auto.
    - apply run_feed_keeps. }
  clear S1. induction K as [|pf pf' l l' (I & B & D) _ IH].
  - repeat split; constructor.
  - inversion Hf as [|? ? Hpf Hl]; subst.
    destruct (IH Hl) as (L & Mi & Mc & Fb & Fd).
    destruct (fresh_invariants env Hpf) as [Bp Dp]. destruct I as [I1 I2].
    cbn [List.length map]. rewrite L, Mi, Mc, I1, I2.
    repeat split; try constructor; auto.
Qed.

(** The dict is appended before the lines that format the caption's
    decimals, the label and the timestamp: when those lines raise on the
    first [k] attempts, every attempt appends the feed again, so the pair
    ends up [k + 1] times in the list, five times when they always
    raise. *)
Theorem narration_failure_duplicates_feed (erc2362id caption0 : string)
    (cfg : entry) (reads : nat -> pair_reads) (f : nat -> @Feed F) (k : nat) pfs :
  (k < 5)%nat ->
  (forall j, (j <= k)%nat ->
     read_pair erc2362id caption0 cfg (reads j) = Some (Some (f j))) ->
  (forall j, (j < k)%nat -> pr_narrated (reads j) = None) ->
  (k = 4%nat \/ pr_narrated (reads k) <> None) ->
  load_pair erc2362id caption0 cfg reads 0 5 pfs = pfs ++ map f (seq 0 (S k)).
Proof.
  intros Hk Hread Hfail Hlast.
  assert (G : forall n attempt remaining pfs0,
             (attempt + n = k)%nat -> (n < remaining)%nat ->
             load_pair erc2362id caption0 cfg reads attempt remaining pfs0
             = pfs0 ++ map f (seq attempt (S n))).
  { induction n as [|n IH]; intros attempt remaining pfs0 Ha Hr;
      (destruct remaining as [|remaining]; [lia|]); cbn [load_pair].
    - assert (attempt = k) by lia. subst attempt.
      rewrite (Hread k (le_n _)).
      destruct (pr_narrated (reads k)) eqn:En; [reflexivity|].
      destruct Hlast as [->|Hn]; [reflexivity | congruence].
    - rewrite (Hread attempt ltac:(lia)), (Hfail attempt ltac:(lia)).
      assert (E4 : (attempt <? 4)%nat = true) by (apply Nat.ltb_lt; lia).
      rewrite E4, (IH (S attempt) remaining) by lia.
      rewrite <- app_assoc. reflexivity. }
  apply G; lia.
Qed.

(** A pair whose attempts all raise before the append, or whose first
    attempt that does not raise finds the zero address, adds no feed, and
    the pairs after it are loaded as if it were not configured; the
    caption still counts for the padding width. *)
Theorem failing_pair_is_skipped (caption0 : string) (cfg : entry)
    (pw : pair_world) (erc2362id : string) (k : nat)
    (feeds : list (string * entry * pair_world)) pfs (m : Z) :
  pw_currencyPairId pw = Some erc2362id ->
  pw_supportsCurrencyPair pw = Some true ->
  (k <= 5)%nat ->
  (forall j, (j < k)%nat ->
     read_pair erc2362id caption0 cfg (pw_reads pw j) = None) ->
  (k = 5%nat \/ read_pair erc2362id caption0 cfg (pw_reads pw k) = Some None) ->
  load_pair erc2362id caption0 cfg (pw_reads pw) 0 5 pfs = pfs /\
  load_pairs ((caption0, cfg, pw) :: feeds) pfs m =
  load_pairs feeds pfs (Z.max m (Z.of_nat (String.length caption0))).
Proof.
  intros Hi Hs Hk Hfail Hlast.
  assert (G : forall n attempt remaining,
             (attempt + n = k)%nat -> (attempt + remaining = 5)%nat ->
             load_pair erc2362id caption0 cfg (pw_reads pw) attempt remaining pfs = pfs).
  { induction n as [|n IH]; intros attempt remaining Ha Hr;
      (destruct remaining as [|remaining]; [reflexivity|]); cbn [load_pair].
    - assert (attempt = k) by lia. subst attempt.
      destruct Hlast as [->|E]; [lia | now rewrite E].
    - rewrite (Hfail attempt ltac:(lia)).
      destruct (attempt <? 4)%nat; [|reflexivity].
      apply IH; lia. }
  assert (L : load_pair erc2362id caption0 cfg (pw_reads pw) 0 5 pfs = pfs)
    by (apply (G k); lia).
  split; [exact L|].
  cbn [load_pairs]. unfold bind_opt. rewrite Hi, Hs, L. f_equal.
  destruct (m <? Z.of_nat (String.length caption0)) eqn:E;
    [apply Z.ltb_lt in E | apply Z.ltb_ge in E]; lia.
Qed.

(** A feed loaded from an entry with no [maxSecsBetweenUpdates] gets a
    heartbeat of [0], and is then never asked to update on a pass with no
    route change. *)
Theorem entry_without_heartbeat_never_requests (erc2362id caption0 : string)
    (cfg : entry) (rd : pair_reads) pf env w (lv : last_value) :
  read_pair erc2362id caption0 cfg rd = Some (Some pf) ->
  e_maxSecsBetweenUpdates cfg = None ->
  steady w pf lv ->
  heartbeat pf = 0 /\ trigger_fired env w pf = None.
Proof.
  intros Hr He St.
  destruct (read_pair_fresh _ _ _ _ Hr) as (_ & _ & _ & _ & _ & _ & Hh & _).
  rewrite He in Hh. cbn in Hh. split; [exact Hh|].
  destruct (pendingUpdate pf) eqn:Hp.
  - unfold trigger_fired, run_feed.
    rewrite (poll_feed_steady env [] St), Hp.
    destruct (await_update_effect w lv (elapsed w pf) (pf, [])) as [_ R].
    destruct (await_update w lv (elapsed w pf) (pf, [])) as [[pf' tr'] o].
    cbn [fst snd] in R.
    destruct o; cbn [fst snd]; rewrite ?requested_app, R; reflexivity.
  - rewrite (trigger_fired_idle env St Hp).
    destruct (cooldown pf - total_finalization_secs env <=? elapsed w pf);
      [|reflexivity].
    apply Z.eqb_eq in Hh. unfold check_triggers. mstep. rewrite Hh.
    destruct (w_pendingUpdate w) as [b|]; reflexivity.
Qed.

(** ** The runway and idle feeds *)

Lemma filter_app_feeds (g : @Feed F -> bool) pfs pfs' :
  filter g (pfs ++ pfs') = filter g pfs ++ filter g pfs'.
Proof.
  induction pfs as [|pf pfs IH]; cbn [filter app]; [reflexivity|].
  destruct (g pf); cbn [app]; now rewrite IH.
Qed.

(** A feed with no fee sample, no latency sample and no heartbeat does not
    count in the estimate, wherever it stands in the list. *)
Theorem idle_feed_leaves_runway (balance : Z) pf pfs1 pfs2 :
  fees pf = [] -> secs pf = [] -> heartbeat pf <= 0 ->
  time_to_die_secs balance (pfs1 ++ pf :: pfs2)
  = time_to_die_secs balance (pfs1 ++ pfs2).
Proof.
  intros Hf Hs Hh. rewrite !time_to_die_secs_spec. f_equal.
  unfold runway_secs, total_spend_rate.
  assert (G : global_avg_fee (pfs1 ++ pf :: pfs2) = global_avg_fee (pfs1 ++ pfs2)).
  { unfold global_avg_fee. rewrite !map_app, !concat_app. cbn [map List.concat].
    rewrite Hf. reflexivity. }
  assert (N : py_gt0 (avg_latency pf) = false).
  { unfold avg_latency. rewrite Hs. cbn. apply Z.ltb_ge. exact Hh. }
  rewrite G, !filter_app_feeds. cbn [filter]. rewrite N. reflexivity.
Qed.

End Facts.

(* ===================================================================== *)
(** * The deviation check on doubles *)
(* ===================================================================== *)

Section Binary64.
Import B64.

(** ** Rounding a non-negative mantissa never yields a NaN *)

Lemma iter_shr_1_nonneg (p : positive) (mrs : shr_record) :
  0 <= shr_m mrs -> 0 <= shr_m (iter_pos shr_1 p mrs).
Proof.
  assert (H1 : forall r, 0 <= shr_m r -> 0 <= shr_m (shr_1 r)).
  { intros [m r s] Hm. cbn in *. destruct m as [|[q|q|]|q]; cbn; lia. }
  revert mrs. induction p as [p IH|p IH|]; intros mrs Hm; cbn; auto.
Qed.

Lemma shr_fexp_nonneg (m e : Z) (l : location) :
  0 <= m -> 0 <= shr_m (fst (shr_fexp 53 1024 m e l)).
Proof.
  intros Hm. unfold shr_fexp, shr.
  assert (H0 : 0 <= shr_m (shr_record_of_loc m l)).
  { destruct l as [|[| |]]; exact Hm. }
  destruct (fexp 53 1024 (Zdigits2 m + e) - e); cbn [fst]; auto.
  apply iter_shr_1_nonneg, H0.
Qed.

Lemma binary_round_aux_not_nan (sx : bool) (mx ex : Z) (lx : location) :
  0 <= mx -> is_nan (binary_round_aux 53 1024 sx mx ex lx) = false.
Proof.
  intros Hm. unfold binary_round_aux.
  pose proof (@shr_fexp_nonneg mx ex lx Hm) as H1.
  destruct (shr_fexp 53 1024 mx ex lx) as [mrs' e']. cbn [fst] in H1.
  assert (H2 : 0 <= round_nearest_even (shr_m mrs') (loc_of_shr_record mrs')).
  { unfold round_nearest_even.
    destruct (loc_of_shr_record mrs') as [|[| |]]; try destruct (Z.even _); lia. }
  pose proof (@shr_fexp_nonneg _ e' loc_Exact H2) as H3.
  destruct (shr_fexp 53 1024 _ e' loc_Exact) as [mrs'' e'']. cbn [fst] in H3.
  destruct (shr_m mrs'') as [|p|p]; [reflexivity| |lia].
  destruct (e'' <=? 1024 - 53); reflexivity.
Qed.

(** A zero or finite dividend over a finite divisor. *)
Lemma b64_div_not_nan (x : spec_float) (s : bool) (m : positive) (e : Z) :
  is_finite x = true -> is_nan (b64_div x (S754_finite s m e)) = false.
Proof.
  intros Hx.
  destruct x as [sx|sx| |sx mx ex]; try reflexivity; try discriminate.
  unfold b64_div, SFdiv.
  destruct (SFdiv_core_binary 53 1024 (Z.pos mx) ex (Z.pos m) e)
    as [[mz ez] lz] eqn:E.
  apply binary_round_aux_not_nan.
  unfold SFdiv_core_binary in E.
  match type of E with context [Z.div_eucl ?a ?b] =>
    pose proof (Z.div_eucl_eq a b ltac:(lia)) as Hq;
    pose proof (Z.mod_pos_bound a b ltac:(lia)) as Hr;
    assert (Ha : 0 <= a);
    [| unfold Z.modulo in Hr; destruct (Z.div_eucl a b) as [q r] eqn:Ed ]
  end.
  - match goal with
    | |- 0 <= match ?s with _ => _ end => destruct s eqn:Es
    end; try lia.
    apply Z.shiftl_nonneg. lia.
  - injection E as <- _ _. nia.
Qed.

Lemma b64_int_truediv_not_nan (n m : Z) :
  0 < m -> is_nan (b64_int_truediv n m) = false.
Proof.
  intros Hm. destruct m as [|p|p]; try lia.
  apply b64_div_not_nan. destruct n; reflexivity.
Qed.

Lemma b64_mul_100_not_nan (x : spec_float) :
  is_nan x = false -> is_nan (b64_mul (b64_of_int 100) x) = false.
Proof.
  intros Hx. destruct x as [s|s| |s m e]; try reflexivity; try discriminate.
  apply binary_round_aux_not_nan. lia.
Qed.

Lemma b64_round2_not_nan (x : spec_float) :
  is_nan x = false -> is_nan (b64_round2 x) = false.
Proof.
  intros Hx. destruct x as [s|s| |s m e]; try reflexivity; try discriminate.
  apply b64_div_not_nan.
  destruct (nearest_even (100 * Z.pos m) e); reflexivity.
Qed.

Lemma b64_abs_not_nan (x : spec_float) :
  is_nan x = false -> is_nan (b64_abs x) = false.
Proof.
  destruct x; cbn; congruence.
Qed.

(** ** Comparisons *)

Lemma SFcompare_swap (x y : spec_float) :
  SFcompare y x = option_map CompOpp (SFcompare x y).
Proof.
  destruct x as [s|s| |s m e], y as [s'|s'| |s' m' e']; cbn;
    try reflexivity;
    try (destruct s; reflexivity); try (destruct s'; reflexivity);
    try (destruct s, s'; reflexivity).
  destruct s, s'; cbn; try reflexivity;
    rewrite (Z.compare_antisym e e');
    destruct (e ?= e'); cbn; try reflexivity;
    rewrite ?CompOpp_involutive, Pos.compare_cont_antisym; reflexivity.
Qed.

Lemma fltb_b64 (x y : spec_float) : fltb x y = b64_ltb x y.
Proof.
  unfold fltb, b64_ltb, SFltb. cbn. unfold b64_fcmp.
  destruct (SFcompare x y) as [[| |]|]; reflexivity.
Qed.

Lemma fgeb_b64 (x y : spec_float) : fgeb x y = b64_geb x y.
Proof.
  unfold fgeb, b64_geb, SFleb. cbn. unfold b64_fcmp.
  rewrite (SFcompare_swap x y).
  destruct (SFcompare x y) as [[| |]|]; reflexivity.
Qed.

Lemma fcmp_comparable (x y : spec_float) :
  is_nan x = false -> is_nan y = false -> fcmp x y <> FNotComparable.
Proof.
  intros Hx Hy. cbn. unfold b64_fcmp.
  destruct x as [s|s| |s m e]; try discriminate;
    destruct y as [s'|s'| |s' m' e']; try discriminate; cbn;
    repeat match goal with
           | |- context [match ?c with Eq => _ | Lt => _ | Gt => _ end] =>
               destruct c
           | |- context [if ?b then _ else _] => destruct b
           end; discriminate.
Qed.

(** C4 (amended).  For a non-routed feed with a heartbeat, a threshold
    that is a double greater than 0 and a positive last price, with no
    update pending, on a pass with no route change that is past the
    cooldown gate but short of the heartbeat condition: when the dry run
    answers a price whose quotient [(next_price - lastPrice) / lastPrice]
    is within the range of a double, the deviation trigger fires exactly
    when [abs(round(100 * ((next_price - lastPrice) / lastPrice), 2))] is
    at least the threshold, the expression being evaluated on doubles in
    the order written: the quotient of the two ints is rounded to a
    double, the product by 100 is rounded again, and the result is
    rounded to two decimals.  When the dry run fails, no trigger fires
    and the feed is unchanged. *)
Theorem deviation_trigger env (w : @world spec_float) (pf : @Feed spec_float)
    (lv : last_value) :
  steady w pf lv ->
  pendingUpdate pf = false ->
  isRouted pf = false ->
  is_binary64 (deviation pf) = true ->
  b64_ltb (b64_of_int 0) (deviation pf) = true ->
  0 < lastPrice pf ->
  cooldown pf - total_finalization_secs env <= elapsed w pf ->
  heartbeat pf <> 0 ->
  elapsed w pf < heartbeat pf - total_finalization_secs env ->
  (forall next_price : Z,
      w_dry_run w = Some next_price ->
      is_finite (b64_div (exact_int (next_price - lastPrice pf))
                         (exact_int (lastPrice pf))) = true ->
      (trigger_fired env w pf = Some Deviation <->
       b64_geb
         (b64_abs
            (b64_round2
               (b64_mul (b64_of_int 100)
                  (b64_div (exact_int (next_price - lastPrice pf))
                           (exact_int (lastPrice pf))))))
         (deviation pf) = true)) /\
  (w_dry_run w = None ->
   trigger_fired env w pf = None /\ run_feed env w pf = (pf, [EvDryRunFailed])).
Proof.
  intros St Hp Hr _ Hd Hl Hc Hh0 Hh.
  rewrite <- fltb_b64 in Hd.
  destruct (@deviation_decision spec_float _ env w pf lv St Hp Hr Hd Hl Hc Hh0 Hh)
    as [Hfire Hfail].
  split; [|exact Hfail].
  intros next_price Hn _.
  rewrite <- fgeb_b64.
  change (b64_abs
            (b64_round2
               (b64_mul (b64_of_int 100)
                  (b64_div (exact_int (next_price - lastPrice pf))
                           (exact_int (lastPrice pf))))))
    with (fabs (deviation_pct next_price (lastPrice pf))).
  apply (Hfire next_price Hn).
  apply fcmp_comparable.
  - apply b64_abs_not_nan, b64_round2_not_nan, b64_mul_100_not_nan,
      b64_int_truediv_not_nan, Hl.
  - destruct (deviation pf); [reflexivity | reflexivity | discriminate Hd | reflexivity].
Qed.

End Binary64.

(* ===================================================================== *)
(** * The properties on the concrete deployment *)
(* ===================================================================== *)

Section Deployment.
Import Examples.

Lemma steady_at (a : address) (rd : chain_reads) (now : Z) (lv : last_value)
    (dry : option Z) (sub : submission) (pf : @Feed Q) :
  contract pf = a -> a <> ZERO_ADDRESS -> auto_disabled pf = false ->
  steady (pass a rd now lv dry sub) pf lv.
Proof.
  intros Ec Hz Hd. unfold steady. cbn. rewrite Ec. auto.
Defined.

Lemma feed_addr_not_zero : feed_addr <> ZERO_ADDRESS.
Proof. discriminate. Defined.

(** The heartbeat of an hour, less the budget of 360 s, is due 3240 s
    after the last update. *)
Lemma heartbeat_trigger_witness :
  trigger_fired env0 no_event eth_usd = Some Heartbeat <-> 3600 - 360 <= 3240.
Proof.
  apply (@heartbeat_trigger Q _ env0 no_event eth_usd last_ok).
  - apply steady_at; [reflexivity | exact feed_addr_not_zero | reflexivity].
  - reflexivity.
  - reflexivity.
  - discriminate.
Defined.

Lemma steady_dry_run (lv : last_value) (dry : option Z)
    (pf : @Feed spec_float) :
  contract pf = feed_addr -> auto_disabled pf = false ->
  steady (dry_run_pass lv dry) pf lv.
Proof.
  intros Ec Hd. unfold steady. cbn. rewrite Ec.
  repeat split; [exact feed_addr_not_zero | exact Hd].
Defined.

(** Last price 160, predicted 183, threshold 14.38 %.  The claim's
    [100 * (183 - 160) / 160] is 14.375, and rounds to 14.38, on doubles
    as in exact arithmetic.  The code divides first: the double nearest
    to 0.14375, times 100, is 14.374999999999998, which rounds to 14.37,
    and the feed is left alone. *)
Lemma deviation_divides_before_scaling :
  (pendingUpdate tight = false /\ isRouted tight = false /\
   lastPrice tight = 160 /\ w_dry_run drifted = Some 183 /\
   B64.b64_ltb (B64.b64_of_int 0) (deviation tight) = true /\
   deviation tight = B64.b64_int_truediv 1438 100 /\
   cooldown tight - total_finalization_secs env0 <= elapsed drifted tight /\
   elapsed drifted tight < heartbeat tight - total_finalization_secs env0) /\
  B64.b64_round2 (B64.b64_int_truediv (100 * (183 - 160)) 160)
  = B64.b64_int_truediv 1438 100 /\
  B64.b64_geb
    (B64.b64_abs (B64.b64_round2 (B64.b64_int_truediv (100 * (183 - 160)) 160)))
    (deviation tight) = true /\
  Qle_bool (1438 # 100)
    (QFloat.q_fabs (QFloat.q_fround2 (inject_Z (100 * (183 - 160)) / 160)%Q))
  = true /\
  deviation_pct 183 160 = B64.b64_int_truediv 1437 100 /\
  trigger_fired env0 drifted tight = None /\
  run_feed env0 drifted tight
  = (tight, [EvDeviationBelow (B64.b64_int_truediv 1437 100) 1000]).
Proof. vm_compute. repeat split; intros; discriminate. Qed.

(** Last price 100, predicted 105, threshold 4 %: the deviation is the
    double 5.0 and the request is made.  Last price 160, predicted 183,
    threshold 14.38 %: the deviation is 14.37 and no request is made. *)
Lemma deviation_trigger_witness :
  deviation_pct 105 100 = B64.b64_of_int 5 /\
  trigger_fired env0 moved_b64 eth_usd_b64 = Some Deviation /\
  trigger_fired env0 drifted tight <> Some Deviation.
Proof.
  split; [reflexivity|]. split.
  - refine (proj2 (proj1 (@deviation_trigger env0 moved_b64 eth_usd_b64 last_ok
                            _ _ _ _ _ _ _ _ _) 105 _ _) _).
    + apply steady_dry_run; reflexivity.
    + reflexivity.
    + reflexivity.
    + reflexivity.
    + reflexivity.
    + reflexivity.
    + discriminate.
    + discriminate.
    + reflexivity.
    + reflexivity.
    + reflexivity.
    + vm_compute. reflexivity.
  - intros Hf.
    refine (_ (proj1 (proj1 (@deviation_trigger env0 drifted tight last_160
                               _ _ _ _ _ _ _ _ _) 183 _ _) Hf)).
    + vm_compute. discriminate.
    + apply steady_dry_run; reflexivity.
    + reflexivity.
    + reflexivity.
    + reflexivity.
    + reflexivity.
    + reflexivity.
    + discriminate.
    + discriminate.
    + reflexivity.
    + reflexivity.
    + reflexivity.
Defined.

(** A success receipt with no event, on a feed whose previous request id
    is 7, puts the feed in the awaiting state. *)
Lemma no_event_enters_awaiting :
  send_requestUpdate (web3_gas_price env0) (w_submit no_event)
  = inr ("0x7a"%string, true, [], 100) /\
  pendingUpdate eth_usd = false /\
  latestRequestId eth_usd = 7 /\
  pendingUpdate (fst (run_feed env0 no_event eth_usd)) = true.
Proof. vm_compute. repeat split. Qed.

Lemma receipt_success_pending_witness :
  pendingUpdate (fst (run_feed env0 no_event eth_usd)) = true /\
  latestRequestId (fst (run_feed env0 no_event eth_usd)) = 7.
Proof.
  apply (@receipt_success_pending Q _ env0 no_event eth_usd last_ok Heartbeat
           "0x7a"%string [] 100).
  - apply steady_at; [reflexivity | exact feed_addr_not_zero | reflexivity].
  - reflexivity.
  - reflexivity.
  - reflexivity.
  - reflexivity.
  - reflexivity.
Defined.


(** A resolved update changes price and timestamp; the 400 s between the
    two timestamps are narrated and the latency history stays empty. *)
Lemma resolution_records_no_latency :
  pendingUpdate awaiting = true /\
  snd (run_feed env0 resolved awaiting) = [EvPriceUpdated 105 400] /\
  pendingUpdate (fst (run_feed env0 resolved awaiting)) = false /\
  lastTimestamp (fst (run_feed env0 resolved awaiting)) = 1400 /\
  secs (fst (run_feed env0 resolved awaiting)) = [].
Proof. vm_compute. repeat split. Qed.

Lemma resolution_transitions_witness :
  run_feed env0 resolved awaiting =
  (set_lastTimestamp 1400 (set_lastPrice 105 (set_pendingUpdate false awaiting)),
   [EvPriceUpdated 105 (1400 - 1000)]).
Proof.
  apply (proj1 (@resolution_transitions Q _ env0 resolved awaiting last_new
                  (steady_at no_reads 1500 last_new None _ awaiting
                             eq_refl feed_addr_not_zero eq_refl)
                  eq_refl)).
  - reflexivity.
  - reflexivity.
Defined.

(** A disabled feed routed to the zero address, and one whose new contract
    cannot be read, keep their counters, flag and history. *)
Lemma route_change_without_reset :
  (contract disabled <> ZERO_ADDRESS /\
   contract (fst (run_feed env0 routed_to_zero disabled)) = ZERO_ADDRESS /\
   auto_disabled (fst (run_feed env0 routed_to_zero disabled)) = true /\
   reverts (fst (run_feed env0 routed_to_zero disabled)) = 3 /\
   fees (fst (run_feed env0 routed_to_zero disabled)) = [5]) /\
  (contract disabled <> new_addr /\
   contract (fst (run_feed env0 (rerouted no_reads) disabled)) = new_addr /\
   auto_disabled (fst (run_feed env0 (rerouted no_reads) disabled)) = true /\
   reverts (fst (run_feed env0 (rerouted no_reads) disabled)) = 3 /\
   fees (fst (run_feed env0 (rerouted no_reads) disabled)) = [5]).
Proof. vm_compute. repeat split; discriminate. Qed.

Lemma route_change_reseeds_witness :
  exists pf' tr',
    detect_route_change (rerouted full_reads) (disabled, []) = ((pf', tr'), Ret new_addr) /\
    reseeded eth_usd_policy full_reads new_addr (witnet disabled) pf'.
Proof.
  apply (@route_change_reseeds Q (rerouted full_reads) disabled []
           new_addr eth_usd_policy 0).
  - reflexivity.
  - discriminate.
  - discriminate.
  - reflexivity.
  - lia.
  - intros j Hj. lia.
  - reflexivity.
Defined.

(** After a re-route that reads the new contract in full, the latest
    request id is the one tracked before: the value read from the chain is
    kept under the key [latestQueryId]. *)
Example reroute_keeps_latestRequestId :
  rd_latestQueryId full_reads = Some 42 /\
  latestRequestId (fst (run_feed env0 (rerouted full_reads) disabled)) = 7 /\
  latestQueryId (fst (run_feed env0 (rerouted full_reads) disabled)) = Some 42.
Proof. vm_compute. repeat split. Qed.

(** With no funds on the first iteration the request is rejected; on the
    second iteration the loop sends a request again, and it is accepted. *)
Lemma zero_balance_loop_goes_on :
  s_balance (w_submit no_funds) = Some 0 /\
  snd (log_loop env0 (fun t _ => if (t =? 0)%nat then no_funds else accepted_later)
                0 2 [eth_usd])
  = [EvRequesting 3240 Heartbeat; EvTxRejected out_of_funds;
     EvRequesting 3270 Heartbeat; EvRequestId 8] /\
  map pendingUpdate
      (fst (log_loop env0 (fun t _ => if (t =? 0)%nat then no_funds else accepted_later)
                     0 2 [eth_usd]))
  = [true].
Proof. vm_compute. repeat split. Qed.

Lemma zero_balance_is_rejected_witness :
  run_feed env0 no_funds eth_usd =
  (eth_usd, [EvRequesting (elapsed no_funds eth_usd) Heartbeat;
             EvTxRejected out_of_funds]).
Proof.
  apply (proj1 (proj2 (@zero_balance_is_rejected Q _))
           env0 no_funds eth_usd last_ok Heartbeat).
  - apply steady_at; [reflexivity | exact feed_addr_not_zero | reflexivity].
  - reflexivity.
  - reflexivity.
  - reflexivity.
  - reflexivity.
Defined.

Lemma histories_bounded_fifo_witness :
  history_bounded (fst (run_feed env0 no_event eth_usd)) /\
  history_op 16 (fees eth_usd) (fees (fst (run_feed env0 no_event eth_usd))) /\
  history_op 256 (secs eth_usd) (secs (fst (run_feed env0 no_event eth_usd))).
Proof.
  apply (proj1 (proj2 (@histories_bounded_fifo Q _)) env0 no_event eth_usd).
  unfold history_bounded. vm_compute. split; discriminate.
Defined.

Lemma runway_estimate_witness :
  time_to_die_secs 1000000 [eth_usd] = Some (PInt 0).
Proof.
  apply (proj2 (@runway_estimate Q _) 1000000 [eth_usd]).
  constructor; [reflexivity | constructor].
Defined.

Lemma zero_route_freezes_feed_witness :
  run_feed env0 routed_to_zero disabled =
  (set_contract ZERO_ADDRESS disabled,
   [EvRouteChanged (contract disabled) ZERO_ADDRESS]).
Proof.
  apply (proj1 (@zero_route_freezes_feed Q _ env0 routed_to_zero disabled
                  (Some eth_usd_policy) eq_refl ltac:(discriminate) eq_refl)).
Defined.

(** *** Requests and their results *)

Lemma failed_request_changes_nothing_witness :
  run_feed env0 timed_out eth_usd =
  (eth_usd, [EvRequesting (elapsed timed_out eth_usd) Heartbeat;
             failure_line TimeExhausted]).
Proof.
  apply (@failed_request_changes_nothing Q _ env0 timed_out eth_usd last_ok).
  - apply steady_at; [reflexivity | exact feed_addr_not_zero | reflexivity].
  - reflexivity.
  - reflexivity.
  - reflexivity.
Defined.

Lemma reverted_request_booking_witness :
  run_feed env0 reverted two_reverts =
  ((if web3_max_reverts env0 <=? reverts two_reverts + 1
    then set_auto_disabled true
           (set_reverts (reverts two_reverts + 1)
              (set_lastRevertedTx "0x7a"%string two_reverts))
    else set_reverts (reverts two_reverts + 1)
           (set_lastRevertedTx "0x7a"%string two_reverts)),
   [EvRequesting (elapsed reverted two_reverts) Heartbeat; EvTxReverted]).
Proof.
  apply (@reverted_request_booking Q _ env0 reverted two_reverts last_ok
           Heartbeat "0x7a"%string [] 100).
  - apply steady_at; [reflexivity | exact feed_addr_not_zero | reflexivity].
  - reflexivity.
  - reflexivity.
  - reflexivity.
Defined.

Lemma successful_request_telemetry_witness :
  secs (fst (run_feed env0 no_event eth_usd)) = append_bounded 256 3240 [] /\
  fees (fst (run_feed env0 no_event eth_usd)) =
    (if 0 <? 100 then append_bounded 16 100 [] else []) /\
  lastPrice (fst (run_feed env0 no_event eth_usd)) = 100 /\
  lastTimestamp (fst (run_feed env0 no_event eth_usd)) = 1000 /\
  (exists b b', s_balance (w_submit no_event) = Some b /\ b <> 0 /\
                s_balance_after (w_submit no_event) = Some b' /\ 100 = b - b').
Proof.
  apply (@successful_request_telemetry Q _ env0 no_event eth_usd last_ok
           Heartbeat "0x7a"%string [] 100).
  - apply steady_at; [reflexivity | exact feed_addr_not_zero | reflexivity].
  - reflexivity.
  - reflexivity.
  - reflexivity.
  - reflexivity.
Defined.

Lemma routed_steady (now : Z) (signal : bool) (after : option last_value) :
  steady (routed_pass now signal after) eth_usd_routed last_ok.
Proof.
  unfold steady. cbn. repeat split. exact feed_addr_not_zero.
Defined.

Lemma routed_request_refreshes_timestamp_witness :
  lastTimestamp (fst (run_feed env0 (routed_pass 4600 false (Some last_new))
                        eth_usd_routed))
  = 1400.
Proof.
  apply (proj1 (proj2 (proj2 (proj2
           (@routed_request_refreshes_timestamp Q _ env0
              (routed_pass 4600 false (Some last_new)) eth_usd_routed last_ok
              Heartbeat "0x7a"%string [9] 100
              (routed_steady 4600 false (Some last_new))
              eq_refl eq_refl eq_refl eq_refl)))) last_new).
  reflexivity.
Defined.

(** *** Passes that send nothing *)

Lemma cooldown_gate_rests_witness :
  run_feed env0 too_early cooling = (cooling, [EvResting (1000 - 100 - 360)]) /\
  trigger_fired env0 too_early cooling = None.
Proof.
  apply (@cooldown_gate_rests Q _ env0 too_early cooling last_ok).
  - apply steady_at; [reflexivity | exact feed_addr_not_zero | reflexivity].
  - reflexivity.
  - reflexivity.
Defined.

Lemma no_heartbeat_no_request_witness :
  trigger_fired env0 no_event unmanaged = None.
Proof.
  apply (proj1 (@no_heartbeat_no_request Q _ env0 no_event unmanaged last_ok
                  (steady_at no_reads 4240 last_ok None _ unmanaged
                             eq_refl feed_addr_not_zero eq_refl)
                  eq_refl eq_refl)).
Defined.

Lemma routed_update_trigger_witness :
  trigger_fired env0 (routed_pass 2000 true None) eth_usd_routed = Some RoutedUpdate
  <-> Some true = Some true.
Proof.
  refine (proj2 (@routed_update_trigger Q _ env0 (routed_pass 2000 true None)
                   eth_usd_routed last_ok (routed_steady 2000 true None)
                   eq_refl eq_refl) _ _ _).
  - discriminate.
  - discriminate.
  - reflexivity.
Defined.

Lemma awaiting_feed_sends_nothing_witness :
  trigger_fired env0 resolved awaiting = None.
Proof.
  apply (@awaiting_feed_sends_nothing Q _ env0 resolved awaiting last_new).
  - apply steady_at; [reflexivity | exact feed_addr_not_zero | reflexivity].
  - reflexivity.
Defined.

Lemma disabled_feed_is_skipped_witness :
  run_feed env0 no_event disabled = (disabled, [EvTooManyReverts "0xbad"%string]).
Proof.
  apply (@disabled_feed_is_skipped Q _ env0 no_event disabled).
  - reflexivity.
  - exact feed_addr_not_zero.
  - reflexivity.
Defined.

Lemma read_failure_leaves_feed_witness :
  run_feed env0 router_down eth_usd = (eth_usd, [EvException]).
Proof.
  apply (proj1 (@read_failure_leaves_feed Q _ env0 router_down eth_usd)).
  reflexivity.
Defined.

(** *** Route changes *)

Lemma failed_refresh_is_not_retried_witness :
  snd (run_feed env0 (rerouted no_reads) disabled) =
    EvRouteChanged feed_addr new_addr :: retry_lines 0 4 ++ [EvException] /\
  contract (fst (run_feed env0 (rerouted no_reads) disabled)) = new_addr /\
  flags (fst (run_feed env0 (rerouted no_reads) disabled)) = flags disabled /\
  latestRequestId (fst (run_feed env0 (rerouted no_reads) disabled)) = 7 /\
  (forall w2 tr, w_getPriceFeed w2 = Some new_addr ->
     detect_route_change w2 (fst (run_feed env0 (rerouted no_reads) disabled), tr)
     = ((fst (run_feed env0 (rerouted no_reads) disabled), tr), Ret new_addr)).
Proof.
  apply (@failed_refresh_is_not_retried Q _ env0 (rerouted no_reads) disabled
           new_addr (Some eth_usd_policy)).
  - reflexivity.
  - discriminate.
  - discriminate.
  - reflexivity.
  - intros j Hj. reflexivity.
Defined.

Lemma refresh_stops_at_first_success_witness :
  snd (fst (detect_route_change rerouted_slow (disabled, [])))
  = [] ++ EvRouteChanged feed_addr new_addr :: retry_lines 0 2.
Proof.
  apply (@refresh_stops_at_first_success Q rerouted_slow disabled []
           new_addr eth_usd_policy 2).
  - reflexivity.
  - discriminate.
  - discriminate.
  - reflexivity.
  - lia.
  - intros j Hj. destruct j as [|[|j]]; [reflexivity | reflexivity | lia].
  - reflexivity.
Defined.

(** *** Start-up *)

Lemma start_up_feeds_fresh_witness :
  [loaded] <> [] /\ Forall fresh [loaded].
Proof.
  apply (@start_up_feeds_fresh Q _ (Some router_addr) configured [loaded] 15).
  reflexivity.
Defined.

Lemma loop_keeps_feeds_from_start_up_witness :
  let pfs' := fst (log_loop env0 (fun _ _ => no_event) 0 3 [loaded]) in
  List.length pfs' = List.length [loaded] /\
  map id pfs' = map id [loaded] /\
  map caption pfs' = map caption [loaded] /\
  Forall history_bounded pfs' /\
  Forall (disabled_inv env0) pfs'.
Proof.
  apply (@loop_keeps_feeds_from_start_up Q _ env0 (Some router_addr) configured
           [loaded] 15 (fun _ _ => no_event) 3).
  reflexivity.
Defined.

Lemma narration_failure_duplicates_feed_witness :
  load_pair "0x3d15f701"%string eth_caption eth_entry (fun _ => eth_reads None) 0 5 []
  = [] ++ map (fun _ => loaded) (seq 0 5).
Proof.
  apply (@narration_failure_duplicates_feed Q _ "0x3d15f701"%string eth_caption
           eth_entry (fun _ => eth_reads None) (fun _ => loaded) 4 []).
  - lia.
  - intros j Hj. reflexivity.
  - intros j Hj. reflexivity.
  - now left.
Defined.

Lemma failing_pair_is_skipped_witness :
  load_pair "0x3d15f701"%string "Price-BTC/USD-6"%string eth_entry
            (pw_reads (pair zero_reads)) 0 5 [] = [] /\
  load_pairs (("Price-BTC/USD-6"%string, eth_entry, pair zero_reads)
              :: [(eth_caption, eth_entry, pair (eth_reads (Some tt)))]) [] 0 =
  load_pairs [(eth_caption, eth_entry, pair (eth_reads (Some tt)))] []
             (Z.max 0 (Z.of_nat (String.length "Price-BTC/USD-6"))).
Proof.
  apply (@failing_pair_is_skipped Q _ "Price-BTC/USD-6"%string eth_entry
           (pair zero_reads) "0x3d15f701"%string 0).
  - reflexivity.
  - reflexivity.
  - lia.
  - intros j Hj. lia.
  - right. reflexivity.
Defined.

Lemma loaded_bare_steady :
  steady no_event loaded_bare last_ok.
Proof.
  unfold steady. cbn. repeat split. exact feed_addr_not_zero.
Defined.

Lemma entry_without_heartbeat_never_requests_witness :
  heartbeat loaded_bare = 0 /\ trigger_fired env0 no_event loaded_bare = None.
Proof.
  apply (@entry_without_heartbeat_never_requests Q _ "0x3d15f701"%string
           eth_caption bare_entry (eth_reads (Some tt)) loaded_bare env0
           no_event last_ok).
  - reflexivity.
  - reflexivity.
  - exact loaded_bare_steady.
Defined.

Lemma idle_feed_leaves_runway_witness :
  time_to_die_secs 1000000 ([eth_usd] ++ unmanaged :: [])
  = time_to_die_secs 1000000 ([eth_usd] ++ []).
Proof.
  apply (@idle_feed_leaves_runway Q _ 1000000 unmanaged [eth_usd] []).
  - reflexivity.
  - reflexivity.
  - discriminate.
Defined.

End Deployment.